(** * LLM gateway: a shallow embedding of the routing core and its properties

    The development follows the Go sources of the gateway:
    - [internal/llm/intent_analyzer.go]  (module [Intent]),
    - [internal/tools/calculator_tool.go] (module [Calculator]),
    - [internal/version/version.go]       (module [Version]),
    - [internal/llm/profiler.go]          (module [Profiler]),
    - [internal/llm/router.go]            (module [Router]),
    - [cmd/gateway/handler.go]            (modules [Handler], [ToolLoop]),
    - [internal/llm/constants.go] and the [doRequest] of the clients
                                          (module [Retry]),
    - [internal/tools/types.go], [internal/tools/manager.go]
                                          (module [Tools]),
    - [internal/llm/prompt_analyzer.go]   (module [PromptAnalyzer]),
    - [internal/llm/rag.go], [internal/llm/helpers.go] (module [Cache]),
    - [internal/llm/anthropic_client.go], [internal/llm/openai_client.go]
                                          (module [Providers]).

    Go values are modelled as the code has them: [string] is a sequence of
    bytes, [int]/[int64] are integers with 64-bit wrap-around, [float64] is
    the IEEE 754 binary64 type of the kernel, Go maps are finite maps, a
    pair [(value, error)] is a pair.  What the gateway calls in the Go
    library and in the Redis client is modelled in the modules [GoStrings],
    [Regexp], [GoNum], [Sha256], [Strconv], [GoTime] and [Redis]; what is
    only named there (text forms of floats and instants, the JSON decoder,
    the order of a [range] over a map) is a parameter of the definitions
    that use it.  The first part of the file holds the definitions, the
    second part their properties. *)

From Stdlib Require Import ZArith Floats List Ascii String Bool Lia.
From stdpp Require Import base gmap strings list.

Local Open Scope string_scope.

(** ** Go strings: the functions of package [strings] the gateway calls *)

Module GoStrings.

(** [strings.HasPrefix(s, prefix)]. *)
Fixpoint HasPrefix (s prefix : string) {struct prefix} : bool :=
  match prefix, s with
  | EmptyString, _ => true
  | String _ _, EmptyString => false
  | String p prefix', String c s' => Ascii.eqb c p && HasPrefix s' prefix'
  end.

(** [strings.Contains(s, substr)]: [substr] occurs in [s] at some offset. *)
Fixpoint Contains (s substr : string) : bool :=
  HasPrefix s substr ||
  match s with
  | EmptyString => false
  | String _ s' => Contains s' substr
  end.

Definition isUpperASCII (c : ascii) : bool :=
  (65 <=? nat_of_ascii c)%nat && (nat_of_ascii c <=? 90)%nat.

Definition isASCIIbyte (c : ascii) : bool := (nat_of_ascii c <? 128)%nat.

(** The byte loop of [strings.ToLower] on an ASCII string:
    [c += 'a' - 'A'] for every ['A' <= c <= 'Z']. *)
Definition lowerByte (c : ascii) : ascii :=
  if isUpperASCII c then ascii_of_nat (nat_of_ascii c + 32) else c.

Fixpoint isASCII (s : string) : bool :=
  match s with
  | EmptyString => true
  | String c s' => isASCIIbyte c && isASCII s'
  end.

Fixpoint mapBytes (f : ascii -> ascii) (s : string) : string :=
  match s with
  | EmptyString => EmptyString
  | String c s' => String (f c) (mapBytes f s')
  end.

Section ToLower.
(** [strings.Map(unicode.ToLower, s)], the path [strings.ToLower] takes
    when [s] holds a byte outside ASCII.  The Unicode tables belong to
    the Go library; they stay a parameter. *)
Variable unicodeToLower : string -> string.

(** [strings.ToLower(s)]: the ASCII fast path is the byte loop above
    (a string without upper-case letters is returned as it is, which
    the byte loop also does). *)
Definition ToLower (s : string) : string :=
  if isASCII s then mapBytes lowerByte s else unicodeToLower s.
End ToLower.

End GoStrings.

(** ** Regular expressions: the fragment of Go's [regexp] the gateway uses

    [regexp.MatchString] reports whether the string holds any match of the
    expression.  The expressions of the intent analyzer only name ASCII
    bytes, so matching is done on bytes, by derivatives. *)

Module Regexp.

Inductive re : Type :=
| Fail : re
| Eps : re
| Class (p : ascii -> bool) : re
| Cat (r1 r2 : re) : re
| Alt (r1 r2 : re) : re
| Star (r : re) : re.

(** [r+] *)
Definition Plus (r : re) : re := Cat r (Star r).

Definition anyByte : re := Class (fun _ => true).

Fixpoint nullable (r : re) : bool :=
  match r with
  | Fail => false
  | Eps => true
  | Class _ => false
  | Cat r1 r2 => nullable r1 && nullable r2
  | Alt r1 r2 => nullable r1 || nullable r2
  | Star _ => true
  end.

Fixpoint deriv (c : ascii) (r : re) : re :=
  match r with
  | Fail => Fail
  | Eps => Fail
  | Class p => if p c then Eps else Fail
  | Cat r1 r2 =>
      if nullable r1
      then Alt (Cat (deriv c r1) r2) (deriv c r2)
      else Cat (deriv c r1) r2
  | Alt r1 r2 => Alt (deriv c r1) (deriv c r2)
  | Star r1 => Cat (deriv c r1) (Star r1)
  end.

(** The whole string is a word of [r]. *)
Fixpoint matchAll (r : re) (s : string) : bool :=
  match s with
  | EmptyString => nullable r
  | String c s' => matchAll (deriv c r) s'
  end.

(** The words of an expression. *)
Inductive matches : re -> string -> Prop :=
| MEps : matches Eps ""
| MClass (p : ascii -> bool) (c : ascii) :
    p c = true -> matches (Class p) (String c "")
| MCat (r1 r2 : re) (s1 s2 : string) :
    matches r1 s1 -> matches r2 s2 -> matches (Cat r1 r2) (s1 ++ s2)
| MAltL (r1 r2 : re) (s : string) : matches r1 s -> matches (Alt r1 r2) s
| MAltR (r1 r2 : re) (s : string) : matches r2 s -> matches (Alt r1 r2) s
| MStarNil (r : re) : matches (Star r) ""
| MStarApp (r : re) (s1 s2 : string) :
    matches r s1 -> matches (Star r) s2 -> matches (Star r) (s1 ++ s2).

(** [re.MatchString(s)]: some substring of [s] is a word of [r]. *)
Definition MatchString (r : re) (s : string) : bool :=
  matchAll (Cat (Star anyByte) (Cat r (Star anyByte))) s.

(** The classes of the expression: [\d], [\s] (RE2: [\t\n\f\r ]) and a
    bracket expression given by its bytes. *)
Definition digit (c : ascii) : bool :=
  (48 <=? nat_of_ascii c)%nat && (nat_of_ascii c <=? 57)%nat.

Definition space (c : ascii) : bool :=
  existsb (Nat.eqb (nat_of_ascii c)) [9; 10; 12; 13; 32]%nat.

Definition oneOf (cs : string) (c : ascii) : bool :=
  existsb (Ascii.eqb c) (list_ascii_of_string cs).

End Regexp.

(** ** The intent analyzer ([internal/llm/intent_analyzer.go]) *)

Module Intent.
Import GoStrings Regexp.

Definition IntentWeather : string := "weather".
Definition IntentCalculator : string := "calculator".
Definition IntentNews : string := "news".
Definition IntentRAG : string := "rag_knowledge_query".

(** [regexp.MustCompile(`\d+\s*[\+\-\*\/]\s*\d+`)] *)
Definition calculatorRegex : re :=
  Cat (Plus (Class digit))
    (Cat (Star (Class space))
       (Cat (Class (oneOf "+-*/"))
          (Cat (Star (Class space)) (Plus (Class digit))))).

Definition weatherKeywords : list string :=
  ["weather"; "forecast"; "temperature"; "how hot is it"; "is it raining"].

Definition newsKeywords : list string :=
  ["news"; "headlines"; "latest on"; "what's happening in"].

(** [for _, keyword := range keywords { if strings.Contains(lowerPrompt,
    keyword) { return ... } }]: the keyword at which the loop returns,
    if it does. *)
Fixpoint firstKeyword (lowerPrompt : string) (keywords : list string)
  : option string :=
  match keywords with
  | [] => None
  | keyword :: rest =>
      if Contains lowerPrompt keyword then Some keyword
      else firstKeyword lowerPrompt rest
  end.

Section AnalyzeIntent.
Variable unicodeToLower : string -> string.

Definition AnalyzeIntent (prompt : string) : string :=
  let lowerPrompt := ToLower unicodeToLower prompt in
  match firstKeyword lowerPrompt weatherKeywords with
  | Some _ => IntentWeather
  | None =>
      match firstKeyword lowerPrompt newsKeywords with
      | Some _ => IntentNews
      | None =>
          if MatchString calculatorRegex lowerPrompt
          then IntentCalculator
          else IntentRAG
      end
  end.

(** A keyword occurs in the prompt as a case-insensitive substring: it
    occurs in the lower-cased prompt (the keywords are lower case). *)
Definition occursFold (keyword prompt : string) : Prop :=
  Contains (ToLower unicodeToLower prompt) keyword = true.

Definition anyOccurs (keywords : list string) (prompt : string) : Prop :=
  exists keyword, In keyword keywords /\ occursFold keyword prompt.

(** The calculator expression matches: some part of the lower-cased prompt
    is a word of it. *)
Definition expressionOccurs (prompt : string) : Prop :=
  exists pre mid post,
    ToLower unicodeToLower prompt = pre ++ mid ++ post
    /\ matches calculatorRegex mid.
End AnalyzeIntent.

End Intent.

(** ** Go numbers: [int64] with wrap-around and [float64] conversions *)

Module GoNum.
Local Open Scope Z_scope.

Definition minInt64 : Z := - 2 ^ 63.
Definition maxInt64 : Z := 2 ^ 63 - 1.

Definition inInt64 (z : Z) : Prop := minInt64 <= z <= maxInt64.

(** The value an [int64] holds after an operation whose exact result
    is [z]. *)
Definition wrap64 (z : Z) : Z := (z + 2 ^ 63) mod 2 ^ 64 - 2 ^ 63.

Definition add64 (a b : Z) : Z := wrap64 (a + b).
Definition mul64 (a b : Z) : Z := wrap64 (a * b).

(** [float64(z)] for an integer [z]: the nearest binary64 value, ties to
    even. *)
Definition float64_of_int (z : Z) : float :=
  SF2Prim (binary_normalize prec emax z 0 false).

(** [int64(f)] for a [float64]: the fraction is discarded.  Go leaves the
    result open when the value does not fit; amd64 gives [minInt64], and
    so does this model. *)
Definition int64_of_float (f : float) : Z :=
  match Prim2SF f with
  | S754_zero _ => 0
  | S754_finite sign m e =>
      let magnitude :=
        if 0 <=? e then Z.pos m * 2 ^ e else Z.pos m / 2 ^ (- e) in
      let v := if sign then - magnitude else magnitude in
      if (minInt64 <=? v) && (v <=? maxInt64) then v else minInt64
  | _ => minInt64
  end.

(** The exact value of a finite [float64] as a fraction [num / den] with
    [den] a power of two. *)
Definition exactFraction (f : float) : option (Z * Z) :=
  match Prim2SF f with
  | S754_zero _ => Some (0, 1)
  | S754_finite sign m e =>
      let num := if sign then - Z.pos m else Z.pos m in
      if 0 <=? e then Some (num * 2 ^ e, 1) else Some (num, 2 ^ (- e))
  | _ => None
  end.

(** [v] is the fraction [num / den] with its fractional part discarded:
    less than 1 away from it, and not further from zero. *)
Definition truncationOf (num den v : Z) : Prop :=
  0 < den /\ Z.abs (v * den - num) < den /\ Z.abs (v * den) <= Z.abs num.

(** Go's comparison operators on [float64]. *)
Definition fgt (a b : float) : bool := PrimFloat.ltb b a.
Definition fge (a b : float) : bool := PrimFloat.leb b a.
Definition flt (a b : float) : bool := PrimFloat.ltb a b.
Definition feq (a b : float) : bool := PrimFloat.eqb a b.

End GoNum.

(** ** SHA-256 and hexadecimal encoding ([crypto/sha256], [encoding/hex]) *)

Module Sha256.
Local Open Scope Z_scope.

Definition w32 (x : Z) : Z := x mod 2 ^ 32.
Definition add32 (x y : Z) : Z := w32 (x + y).
Definition rotr (n x : Z) : Z :=
  Z.lor (Z.shiftr x n) (w32 (Z.shiftl x (32 - n))).
Definition not32 (x : Z) : Z := 2 ^ 32 - 1 - x.

Definition Ch (x y z : Z) : Z := Z.lxor (Z.land x y) (Z.land (not32 x) z).
Definition Maj (x y z : Z) : Z :=
  Z.lxor (Z.lxor (Z.land x y) (Z.land x z)) (Z.land y z).
Definition bsig0 (x : Z) : Z :=
  Z.lxor (Z.lxor (rotr 2 x) (rotr 13 x)) (rotr 22 x).
Definition bsig1 (x : Z) : Z :=
  Z.lxor (Z.lxor (rotr 6 x) (rotr 11 x)) (rotr 25 x).
Definition ssig0 (x : Z) : Z :=
  Z.lxor (Z.lxor (rotr 7 x) (rotr 18 x)) (Z.shiftr x 3).
Definition ssig1 (x : Z) : Z :=
  Z.lxor (Z.lxor (rotr 17 x) (rotr 19 x)) (Z.shiftr x 10).

(** The constants of FIPS 180-4 are fractions of roots of the first
    primes: the first 32 bits of the fractional part of the cube root
    (for [K]) and of the square root (for [H0]). *)
Definition isPrime (n : Z) : bool :=
  (1 <? n)
  && forallb (fun d => negb (n mod Z.of_nat d =? 0)) (seq 2 (Z.to_nat n - 2)).

Definition primes : list Z :=
  List.filter isPrime (List.map Z.of_nat (seq 2 310)).

(** The integer cube root, found bit by bit from bit [k] down. *)
Fixpoint cubeRootBits (k : nat) (n r : Z) : Z :=
  match k with
  | O => r
  | S k' =>
      let r' := r + 2 ^ Z.of_nat k' in
      cubeRootBits k' n (if r' * r' * r' <=? n then r' else r)
  end.

Definition cubeRoot (n : Z) : Z := cubeRootBits 40 n 0.

Definition K : list Z :=
  Eval vm_compute in
    List.map (fun p => w32 (cubeRoot (p * 2 ^ 96))) (firstn 64 primes).

Definition H0 : list Z :=
  Eval vm_compute in
    List.map (fun p => w32 (Z.sqrt (p * 2 ^ 64))) (firstn 8 primes).

(** Big-endian bytes of a word, and back. *)
Fixpoint be_bytes (n : nat) (x : Z) : list Z :=
  match n with
  | O => []
  | S n' => (Z.shiftr x (8 * Z.of_nat n')) mod 256 :: be_bytes n' x
  end.

Definition be_word (bs : list Z) : Z :=
  fold_left (fun acc b => acc * 256 + b) bs 0.

(** The message followed by the bit 1, zero bytes up to 56 modulo 64, and
    the bit length on eight bytes. *)
Definition pad (msg : list Z) : list Z :=
  let len := Z.of_nat (List.length msg) in
  let zeros := Z.to_nat ((55 - len) mod 64) in
  msg ++ [0x80] ++ repeat 0 zeros ++ be_bytes 8 (8 * len).

(** [l] cut into pieces of [n] elements ([fuel] bounds their number). *)
Fixpoint chunks {A} (n : nat) (fuel : nat) (l : list A) : list (list A) :=
  match fuel, l with
  | O, _ => []
  | _, [] => []
  | S fuel', _ => firstn n l :: chunks n fuel' (skipn n l)
  end.

(** The message schedule: [W] is kept newest first. *)
Fixpoint schedule (n : nat) (W : list Z) : list Z :=
  match n with
  | O => W
  | S n' =>
      let w2 := nth 1 W 0 in
      let w7 := nth 6 W 0 in
      let w15 := nth 14 W 0 in
      let w16 := nth 15 W 0 in
      schedule n'
        (add32 (add32 (ssig1 w2) w7) (add32 (ssig0 w15) w16) :: W)
  end.

Definition round (st : list Z) (kw : Z * Z) : list Z :=
  match st with
  | [a; b; c; d; e; f; g; h] =>
      let t1 :=
        add32 (add32 (add32 h (bsig1 e)) (add32 (Ch e f g) (fst kw)))
          (snd kw) in
      let t2 := add32 (bsig0 a) (Maj a b c) in
      [add32 t1 t2; a; b; c; add32 d t1; e; f; g]
  | _ => st
  end.

Definition compress (h : list Z) (block : list Z) : list Z :=
  let W16 := List.map be_word (chunks 4 16 block) in
  let W := rev (schedule 48 (rev W16)) in
  let st := fold_left round (combine K W) h in
  List.map (fun p => add32 (fst p) (snd p)) (combine h st).

(** [sha256.Sum256(msg)] as 32 bytes. *)
Definition sum (msg : list Z) : list Z :=
  let padded := pad msg in
  let blocks := chunks 64 (List.length padded) padded in
  flat_map (be_bytes 4) (fold_left compress blocks H0).

Definition bytes_of_string (s : string) : list Z :=
  List.map (fun c => Z.of_nat (nat_of_ascii c)) (list_ascii_of_string s).

Definition hexdigit (n : Z) : ascii :=
  ascii_of_nat (Z.to_nat (if n <? 10 then 48 + n else 87 + n)).

(** [hex.EncodeToString] *)
Fixpoint EncodeToString (bs : list Z) : string :=
  match bs with
  | [] => EmptyString
  | b :: bs' =>
      String (hexdigit (b / 16)) (String (hexdigit (b mod 16))
                                    (EncodeToString bs'))
  end.

End Sha256.

(** ** Versioned cache keys ([internal/version/version.go]) *)

Module Version.

(** The struct type of the package variable [ComponentVersions]. *)
Record ComponentVersionsT : Type := {
  Tools : string;
  RAGData : string;
  PromptLogic : string
}.

(** Its value in the source as it stands. *)
Definition ComponentVersions : ComponentVersionsT :=
  {| Tools := "v1.0"; RAGData := "v1.0"; PromptLogic := "v1.0" |}.

(** [fmt.Sprintf("tv%s_rv%s_pv%s", ...)] *)
Definition versionString (cv : ComponentVersionsT) : string :=
  "tv" ++ Tools cv ++ "_rv" ++ RAGData cv ++ "_pv" ++ PromptLogic cv.

Definition promptHash (prompt : string) : string :=
  Sha256.EncodeToString (Sha256.sum (Sha256.bytes_of_string prompt)).

(** [GenerateVersionedCacheKey(prefix, prompt)], reading the package
    variable [cv]. *)
Definition GenerateVersionedCacheKey
    (cv : ComponentVersionsT) (prefix prompt : string) : string :=
  prefix ++ ":" ++ promptHash prompt ++ ":" ++ versionString cv.

(** [c] does not occur in [s]. *)
Fixpoint freeOf (c : ascii) (s : string) : bool :=
  match s with
  | EmptyString => true
  | String d s' => negb (Ascii.eqb d c) && freeOf c s'
  end.

(** The version strings that cannot be confused with the separators of
    [versionString]: no underscore in the tools and RAG data versions. *)
Definition separable (cv : ComponentVersionsT) : Prop :=
  freeOf "_" (Tools cv) = true /\ freeOf "_" (RAGData cv) = true.


End Version.

(** ** Go errors

    A value of interface type [error]: [nil] is [None].  [redis.Nil] is the
    sentinel the Redis client returns for a missing key or field; every
    other error carries its message. *)

Module GoErr.

Inductive err : Type :=
| RedisNil : err
| Failure (msg : string) : err.

Definition error : Type := option err.

(** [e.Error()] *)
Definition Error (e : err) : string :=
  match e with
  | RedisNil => "redis: nil"
  | Failure msg => msg
  end.

(** [errors.New(msg)] *)
Definition New (msg : string) : err := Failure msg.

Definition isNil (e : error) : bool :=
  match e with None => true | Some _ => false end.

End GoErr.

(** ** The calculator tool ([internal/tools/calculator_tool.go]) *)

Module Calculator.
Import GoNum GoErr.

(** The anonymous struct [Execute] decodes its arguments into. *)
Record Args : Type := {
  Operand1 : float;
  Operand2 : float;
  Operator : string
}.

Section Execute.
(** [json.Unmarshal([]byte(arguments), &args)] on a zero [args]: the
    decoded struct and the error.  [encoding/json] rejects every text
    that is not valid JSON with a syntax error. *)
Variable jsonUnmarshal : string -> Args * error.

(** [fmt.Sprintf("%g", x)] *)
Variable formatG : float -> string.

Definition Execute (arguments : string) : string * error :=
  let '(args, e) := jsonUnmarshal arguments in
  match e with
  | Some e =>
      ("", Some (Failure ("invalid arguments for calculator: " ++ Error e)))
  | None =>
      let finish (result : float) : string * error :=
        ("The result is " ++ formatG result ++ ".", None) in
      if String.eqb (Operator args) "+" then
        finish (Operand1 args + Operand2 args)%float
      else if String.eqb (Operator args) "-" then
        finish (Operand1 args - Operand2 args)%float
      else if String.eqb (Operator args) "*" then
        finish (Operand1 args * Operand2 args)%float
      else if String.eqb (Operator args) "/" then
        if feq (Operand2 args) 0%float then
          ("Error: Division by zero is not allowed.", None)
        else finish (Operand1 args / Operand2 args)%float
      else
        ("Error: Unsupported operator '" ++ Operator args
           ++ "'. Please use +, -, *, or /.", None)
  end.

(** The arithmetic of the four operators on [float64]. *)
Definition arith (op : string) (x y : float) : float :=
  if String.eqb op "+" then (x + y)%float
  else if String.eqb op "-" then (x - y)%float
  else if String.eqb op "*" then (x * y)%float
  else (x / y)%float.

Definition supported (op : string) : Prop :=
  op = "+" \/ op = "-" \/ op = "*" \/ op = "/".
End Execute.

End Calculator.

(** ** Integers as text ([strconv], base 10, 64 bits) *)

Module Strconv.
Import GoNum.
Local Open Scope Z_scope.

Definition maxUint64 : Z := 2 ^ 64 - 1.

Inductive numError : Type := NoError | ErrSyntax | ErrRange.

Definition digitVal (c : ascii) : option Z :=
  if Regexp.digit c then Some (Z.of_nat (nat_of_ascii c) - 48) else None.

(** The loop of [strconv.ParseUint(s, 10, 64)] over the bytes of [s], with
    [n] the value read so far: [cutoff] is [maxUint64/10 + 1]. *)
Fixpoint parseUintLoop (n : Z) (s : string) : Z * numError :=
  match s with
  | EmptyString => (n, NoError)
  | String c s' =>
      match digitVal c with
      | None => (0, ErrSyntax)
      | Some d =>
          if maxUint64 / 10 + 1 <=? n then (maxUint64, ErrRange)
          else
            let n1 := n * 10 + d in
            if maxUint64 <? n1 then (maxUint64, ErrRange)
            else parseUintLoop n1 s'
      end
  end.

Definition ParseUint (s : string) : Z * numError :=
  match s with
  | EmptyString => (0, ErrSyntax)
  | _ => parseUintLoop 0 s
  end.

(** [strconv.ParseInt(s, 10, 64)]: the value and the error. *)
Definition ParseIntErr (s : string) : Z * numError :=
  match s with
  | EmptyString => (0, ErrSyntax)
  | String c rest =>
      let neg := Ascii.eqb c "-" in
      let body := if Ascii.eqb c "+" || neg then rest else s in
      let '(un, e) := ParseUint body in
      match e with
      | ErrSyntax => (0, ErrSyntax)
      | _ =>
          if negb neg && (2 ^ 63 <=? un) then (maxInt64, ErrRange)
          else if neg && (2 ^ 63 <? un) then (minInt64, ErrRange)
          else (if neg then - un else un, NoError)
      end
  end.

(** [n, _ := strconv.ParseInt(s, 10, 64)]: the gateway drops the error. *)
Definition ParseInt (s : string) : Z := fst (ParseIntErr s).

Definition digitChar (d : Z) : ascii := ascii_of_nat (Z.to_nat (48 + d)).

(** The decimal digits of [n] put before [acc]. *)
Fixpoint formatUint (fuel : nat) (n : Z) (acc : string) : string :=
  match fuel with
  | O => acc
  | S fuel' =>
      let acc' := String (digitChar (n mod 10)) acc in
      if n <? 10 then acc' else formatUint fuel' (n / 10) acc'
  end.

(** [strconv.FormatInt(z, 10)], which is also how the Redis client writes
    an [int64] argument. *)
Definition FormatInt (z : Z) : string :=
  if z <? 0 then String "-" (formatUint 20 (- z) "") else formatUint 20 z "".

End Strconv.

(** ** Time ([time.Time], [time.Duration]) *)

Module GoTime.
Import GoNum.
Local Open Scope Z_scope.

(** An instant, in nanoseconds since the Unix epoch; a [time.Time] reaches
    further than an [int64] of nanoseconds, so the count is unbounded. *)
Definition Time : Type := Z.

(** A [time.Duration]: an [int64] of nanoseconds. *)
Definition Duration : Type := Z.

Definition Millisecond : Duration := 1000000.
Definition Hour : Duration := 3600 * 1000000000.

(** The zero [time.Time], January 1 of year 1. *)
Definition zeroTime : Time := - 62135596800 * 1000000000.

(** [t.Sub(u)]: the difference, or the largest (smallest) duration when it
    does not fit. *)
Definition Sub (t u : Time) : Duration :=
  Z.max minInt64 (Z.min maxInt64 (t - u)).

(** [time.Since(t)] when the clock reads [now]. *)
Definition Since (now t : Time) : Duration := Sub now t.

(** [d.Milliseconds()] *)
Definition Milliseconds (d : Duration) : Z := Z.quot d 1000000.

End GoTime.

(** ** What the gateway takes from libraries outside the repository

    Text forms of [float64] and of instants, and the float counter of the
    Redis server.  Their code is not the gateway's; the model takes them as
    given. *)

Class GoLib : Type := {
  (** [f, _ := strconv.ParseFloat(s, 64)] *)
  ParseFloat : string -> float;
  (** how the Redis client writes a [float64] argument:
      [strconv.FormatFloat(f, 'f', -1, 64)] *)
  FormatFloat : float -> string;
  (** [t.Format(time.RFC3339Nano)] *)
  FormatRFC3339Nano : GoTime.Time -> string;
  (** [t, _ := time.Parse(time.RFC3339Nano, s)] *)
  ParseRFC3339Nano : string -> GoTime.Time;
  (** [t.Format("2006-01")] *)
  FormatMonth : GoTime.Time -> string;
  (** the server's [INCRBYFLOAT]: the new text of a counter that held
      [old], or nothing when the server refuses *)
  ServerIncrByFloat : option string -> float -> option string
}.

(** ** The Redis store, as the gateway's client sees it

    Hashes and plain strings, each under its key, and the time to live set
    on a key.  Every command fails with a connection error while the server
    is out of reach, and leaves the store as it is. *)

Module Redis.
Import GoNum GoErr Strconv GoTime.
Local Open Scope Z_scope.

Record DB : Type := {
  reachable : bool;
  hashes : gmap string (gmap string string);
  strings : gmap string string;
  ttl : gmap string Duration
}.

Definition connError : err := Failure "dial tcp: connect: connection refused".

Definition withHashes (db : DB) (h : gmap string (gmap string string)) : DB :=
  {| reachable := reachable db; hashes := h;
     strings := strings db; ttl := ttl db |}.

Definition withStrings (db : DB) (s : gmap string string) : DB :=
  {| reachable := reachable db; hashes := hashes db;
     strings := s; ttl := ttl db |}.

Definition withTTL (db : DB) (t : gmap string Duration) : DB :=
  {| reachable := reachable db; hashes := hashes db;
     strings := strings db; ttl := t |}.

(** The hash under [key]; a missing key reads as the empty hash. *)
Definition hashAt (db : DB) (key : string) : gmap string string :=
  default ∅ (hashes db !! key).

(** [m[field]] on a Go [map[string]string]: the empty string when the
    field is missing. *)
Definition fieldOf (m : gmap string string) (field : string) : string :=
  default "" (m !! field).

(** The text a hash holds in a field, if it holds the field. *)
Definition fieldAt (db : DB) (key field : string) : option string :=
  hashAt db key !! field.

(** [HGETALL key] *)
Definition HGetAll (db : DB) (key : string) : gmap string string * error :=
  if reachable db then (hashAt db key, None) else (∅, Some connError).

(** [HGET key field]: [redis.Nil] for a missing field. *)
Definition HGet (db : DB) (key field : string) : string * error :=
  if reachable db then
    match hashAt db key !! field with
    | Some v => (v, None)
    | None => ("", Some RedisNil)
    end
  else ("", Some connError).

(** [HSET key field value] *)
Definition HSet (db : DB) (key field value : string) : error * DB :=
  if reachable db then
    (None, withHashes db (<[key := <[field := value]> (hashAt db key)]> (hashes db)))
  else (Some connError, db).

(** [HSET key field value [field value ...]] *)
Definition HSetFields (db : DB) (key : string) (fields : list (string * string))
  : error * DB :=
  if reachable db then
    (None,
     withHashes db
       (<[key := fold_left (fun h fv => <[fst fv := snd fv]> h) fields
                   (hashAt db key)]> (hashes db)))
  else (Some connError, db).

(** The server's reading of a stored text as a 64-bit integer: only the
    canonical decimal form is one. *)
Definition string2ll (s : string) : option Z :=
  let z := ParseInt s in
  if String.eqb (FormatInt z) s then Some z else None.

(** [HINCRBY key field incr]: a missing field counts from 0; a text that
    is no integer, or a sum outside 64 bits, is an error. *)
Definition HIncrBy (db : DB) (key field : string) (incr : Z)
  : Z * error * DB :=
  if reachable db then
    let old :=
      match hashAt db key !! field with
      | None => Some 0
      | Some s => string2ll s
      end in
    match old with
    | None => (0, Some (Failure "ERR hash value is not an integer"), db)
    | Some o =>
        let v := o + incr in
        if (minInt64 <=? v) && (v <=? maxInt64) then
          (v, None,
           withHashes db
             (<[key := <[field := FormatInt v]> (hashAt db key)]> (hashes db)))
        else
          (0, Some (Failure "ERR increment or decrement would overflow"), db)
    end
  else (0, Some connError, db).

(** [GET key] *)
Definition Get (db : DB) (key : string) : string * error :=
  if reachable db then
    match strings db !! key with
    | Some v => (v, None)
    | None => ("", Some RedisNil)
    end
  else ("", Some connError).

Section WithLib.
Context `{GoLib}.

(** [INCRBYFLOAT key x] *)
Definition IncrByFloat (db : DB) (key : string) (x : float) : error * DB :=
  if reachable db then
    match ServerIncrByFloat (strings db !! key) x with
    | Some v => (None, withStrings db (<[key := v]> (strings db)))
    | None => (Some (Failure "ERR value is not a valid float"), db)
    end
  else (Some connError, db).

(** [cmd.Float64()] on the reply of a [GET]: the callers drop the error. *)
Definition Float64 (reply : string * error) : float :=
  match snd reply with
  | Some _ => 0%float
  | None => ParseFloat (fst reply)
  end.
End WithLib.

Definition present {A : Type} (o : option A) : bool :=
  match o with Some _ => true | None => false end.

(** [EXPIRE key d]: sets the time to live of a key that exists. *)
Definition Expire (db : DB) (key : string) (d : Duration) : error * DB :=
  if reachable db then
    if present (hashes db !! key) || present (strings db !! key)
    then (None, withTTL db (<[key := d]> (ttl db)))
    else (None, db)
  else (Some connError, db).

(** What [pipe.Exec] returns: the error of the first command that failed. *)
Fixpoint firstErr (es : list error) : error :=
  match es with
  | [] => None
  | Some e :: _ => Some e
  | None :: es' => firstErr es'
  end.

End Redis.

(** ** The profiler ([internal/llm/profiler.go]) *)

Module Profiler.
Import GoNum GoErr Strconv GoTime Redis.
Local Open Scope Z_scope.

Record ModelProfile : Type := {
  ModelID : string;
  AvgLatencyMS : Z;
  CostPerInputToken : float;
  CostPerOutputToken : float;
  Status : string;
  ErrorRate : float;
  TotalSuccesses : Z;
  TotalFailures : Z;
  TotalInputTokens : Z;
  TotalOutputTokens : Z;
  LastHealthCheck : Time;
  CostSpentMonthly : float
}.

(** [api.Usage] *)
Record Usage : Type := {
  PromptTokens : Z;
  CompletionTokens : Z;
  TotalTokens : Z
}.

(** [fmt.Sprintf("profile:%s", modelID)] *)
Definition getProfileKey (modelID : string) : string := "profile:" ++ modelID.

(** [const alpha = 0.1] as a [float64], and the constant [1.0 - alpha],
    which the compiler evaluates exactly before it rounds it to
    [float64]. *)
Definition alpha : float := 0x1.999999999999ap-4%float.
Definition oneMinusAlpha : float := 0x1.ccccccccccccdp-1%float.

(** The weighted sum of the latency update, in [float64], each product
    and the sum rounded on its own (as the amd64 code does; Go lets other
    targets fuse a product into the sum). *)
Definition ewmaFloat (latencyMs currentLatency : Z) : float :=
  (alpha * float64_of_int latencyMs
   + oneMinusAlpha * float64_of_int currentLatency)%float.

(** [int64((alpha * float64(latency.Milliseconds()))
          + ((1.0 - alpha) * float64(currentLatency)))] *)
Definition newLatency (latencyMs currentLatency : Z) : Z :=
  int64_of_float (ewmaFloat latencyMs currentLatency).

(** The latency update as the specification words it: the exact weighted
    sum [(o + 9 p) / 10] rounded to the nearest integer. *)
Definition newLatency_as_specified (observed previous : Z) : Z :=
  (2 * (observed + 9 * previous) + 10) / 20.

Section WithLib.
Context `{GoLib}.

(** The package variable [modelCosts], set once by
    [InitializeModelCosts]. *)
Variable modelCosts : gmap string (gmap string float).

(** [costs[k]] on a [map[string]float64] *)
Definition costOf (costs : gmap string float) (k : string) : float :=
  default 0%float (costs !! k).

(** [modelCosts[modelID][k]] *)
Definition modelCost (modelID k : string) : float :=
  costOf (default ∅ (modelCosts !! modelID)) k.

(** [fmt.Sprintf("cost:%s:%s", modelID, time.Now().Format("2006-01"))] *)
Definition costKey (now : Time) (modelID : string) : string :=
  "cost:" ++ modelID ++ ":" ++ FormatMonth now.

Definition createDefaultProfile (db : DB) (now : Time) (modelID : string)
  : ModelProfile * error * DB :=
  let costs :=
    match modelCosts !! modelID with
    | Some costs => costs
    | None => <["input" := 0%float]> (<["output" := 0%float]> ∅)
    end in
  let profile :=
    {| ModelID := modelID;
       AvgLatencyMS := 2000;
       CostPerInputToken := costOf costs "input";
       CostPerOutputToken := costOf costs "output";
       Status := "online";
       TotalSuccesses := 1;
       TotalFailures := 0;
       TotalInputTokens := 0;
       TotalOutputTokens := 0;
       ErrorRate := 0%float;
       LastHealthCheck := now;
       CostSpentMonthly := 0%float |} in
  let key := getProfileKey modelID in
  let '(e1, db) := HSet db key "model_id" (ModelID profile) in
  let '(e2, db) := HSet db key "avg_latency_ms" (FormatInt (AvgLatencyMS profile)) in
  let '(e3, db) :=
    HSet db key "cost_per_input_token" (FormatFloat (CostPerInputToken profile)) in
  let '(e4, db) :=
    HSet db key "cost_per_output_token" (FormatFloat (CostPerOutputToken profile)) in
  let '(e5, db) := HSet db key "status" (Status profile) in
  let '(e6, db) := HSet db key "total_successes" (FormatInt (TotalSuccesses profile)) in
  let '(e7, db) := HSet db key "total_failures" (FormatInt (TotalFailures profile)) in
  let '(e8, db) := HSet db key "error_rate" (FormatFloat (ErrorRate profile)) in
  let '(e9, db) :=
    HSet db key "last_health_check" (FormatRFC3339Nano (LastHealthCheck profile)) in
  (profile, firstErr [e1; e2; e3; e4; e5; e6; e7; e8; e9], db).

(** [GetProfile]: the profile (nil on a read error), the error, and the
    store afterwards. *)
Definition GetProfile (db : DB) (now : Time) (modelID : string)
  : option ModelProfile * error * DB :=
  let key := getProfileKey modelID in
  let '(profileData, e) := HGetAll db key in
  match e with
  | Some e => (None, Some e, db)
  | None =>
      if bool_decide (profileData = ∅) then
        let '(profile, e, db) := createDefaultProfile db now modelID in
        (Some profile, e, db)
      else
        (Some
           {| ModelID := modelID;
              AvgLatencyMS := ParseInt (fieldOf profileData "avg_latency_ms");
              CostPerInputToken :=
                ParseFloat (fieldOf profileData "cost_per_input_token");
              CostPerOutputToken :=
                ParseFloat (fieldOf profileData "cost_per_output_token");
              Status := fieldOf profileData "status";
              ErrorRate := ParseFloat (fieldOf profileData "error_rate");
              TotalSuccesses := ParseInt (fieldOf profileData "total_successes");
              TotalFailures := ParseInt (fieldOf profileData "total_failures");
              TotalInputTokens :=
                ParseInt (fieldOf profileData "total_input_tokens");
              TotalOutputTokens :=
                ParseInt (fieldOf profileData "total_output_tokens");
              LastHealthCheck :=
                ParseRFC3339Nano (fieldOf profileData "last_health_check");
              CostSpentMonthly := Float64 (Get db (costKey now modelID)) |},
         None, db)
  end.

(** The first step of [UpdateProfileOnSuccess]: the latency update inside
    [rdb.Watch].  A read error other than [redis.Nil] ends it; the error
    of the write is logged only. *)
Definition updateLatency (db : DB) (key : string) (latency : Duration) : DB :=
  let '(currentLatencyStr, e) := HGet db key "avg_latency_ms" in
  match e with
  | Some (Failure _) => db
  | _ =>
      let currentLatency := ParseInt currentLatencyStr in
      snd (HSet db key "avg_latency_ms"
             (FormatInt (newLatency (Milliseconds latency) currentLatency)))
  end.

(** The second step of [UpdateProfileOnSuccess]: the commands of the
    pipeline in their order, the replies the code keeps, and the error of
    [Exec]. *)
Definition successPipeline (db : DB) (now : Time) (modelID : string)
    (usage : Usage) : Z * string * error * DB :=
  let key := getProfileKey modelID in
  let '(successes, e1, db) := HIncrBy db key "total_successes" 1 in
  let '(failures, e2) := HGet db key "total_failures" in
  let '(_, e3, db) := HIncrBy db key "total_input_tokens" (PromptTokens usage) in
  let '(_, e4, db) :=
    HIncrBy db key "total_output_tokens" (CompletionTokens usage) in
  let '(e5, db) := HSet db key "status" "online" in
  let callCost :=
    (float64_of_int (PromptTokens usage) * modelCost modelID "input"
     + float64_of_int (CompletionTokens usage) * modelCost modelID "output")%float in
  let '(e6, db) := IncrByFloat db (costKey now modelID) callCost in
  let '(e7, db) := Expire db (costKey now modelID) (35 * 24 * Hour) in
  (successes, failures, firstErr [e1; e2; e3; e4; e5; e6; e7], db).

Definition UpdateProfileOnSuccess (db : DB) (now : Time) (modelID : string)
    (latency : Duration) (usage : Usage) : DB :=
  let key := getProfileKey modelID in
  let db := updateLatency db key latency in
  let '(successes, failures, e, db) := successPipeline db now modelID usage in
  match e with
  | Some _ => db
  | None =>
      let totalFailures := ParseInt failures in
      let totalRequests := add64 successes totalFailures in
      if 0 <? totalRequests then
        let errorRate :=
          (float64_of_int totalFailures / float64_of_int totalRequests)%float in
        snd (HSet db key "error_rate" (FormatFloat errorRate))
      else db
  end.

Definition failurePipeline (db : DB) (modelID : string)
  : Z * string * error * DB :=
  let key := getProfileKey modelID in
  let '(failures, e1, db) := HIncrBy db key "total_failures" 1 in
  let '(successes, e2) := HGet db key "total_successes" in
  let '(e3, db) := HSet db key "status" "degraded" in
  (failures, successes, firstErr [e1; e2; e3], db).

Definition UpdateProfileOnFailure (db : DB) (modelID : string) : DB :=
  let key := getProfileKey modelID in
  let '(failures, successes, e, db) := failurePipeline db modelID in
  match e with
  | Some _ => db
  | None =>
      let totalSuccesses := ParseInt successes in
      let totalRequests := add64 totalSuccesses failures in
      if 0 <? totalRequests then
        let errorRate :=
          (float64_of_int failures / float64_of_int totalRequests)%float in
        snd (HSet db key "error_rate" (FormatFloat errorRate))
      else db
  end.

Definition UpdateProfileOnHealthCheck (db : DB) (now : Time)
    (modelID : string) (isHealthy : bool) : DB :=
  let '(_, _, db) := GetProfile db now modelID in
  let key := getProfileKey modelID in
  let status := if isHealthy then "online" else "offline" in
  let '(_, db) := HSet db key "status" status in
  let '(_, db) := HSet db key "last_health_check" (FormatRFC3339Nano now) in
  db.

(** The counters and the error rate a store holds for a model, read as
    [GetProfile] reads them. *)
Definition storedSuccesses (db : DB) (modelID : string) : Z :=
  ParseInt (fieldOf (hashAt db (getProfileKey modelID)) "total_successes").

Definition storedFailures (db : DB) (modelID : string) : Z :=
  ParseInt (fieldOf (hashAt db (getProfileKey modelID)) "total_failures").

Definition storedErrorRate (db : DB) (modelID : string) : string :=
  fieldOf (hashAt db (getProfileKey modelID)) "error_rate".

(** The latency update as [UpdateProfileOnSuccess] does it: the stored
    latency is the text of the [float64] sum converted to [int64], which
    is that sum with its fraction discarded. *)
Definition latency_update_as_built (db : DB) (now : Time) (modelID : string)
    (latency : Duration) (usage : Usage) : Prop :=
  let key := getProfileKey modelID in
  let observed := Milliseconds latency in
  let previous := ParseInt (fieldOf (hashAt db key) "avg_latency_ms") in
  fieldAt (UpdateProfileOnSuccess db now modelID latency usage)
    key "avg_latency_ms"
  = Some (FormatInt (newLatency observed previous))
  /\ newLatency observed previous
     = int64_of_float (ewmaFloat observed previous)
  /\ (forall num den,
        exactFraction (ewmaFloat observed previous) = Some (num, den) ->
        minInt64 * den <= num <= maxInt64 * den ->
        truncationOf num den (newLatency observed previous)).

(** The default profile as the specification words it: latency 2000,
    status online, every counter 0, the configured per-token costs. *)
Definition default_profile_as_specified (modelID : string)
    (r : option ModelProfile) : Prop :=
  exists p,
    r = Some p
    /\ AvgLatencyMS p = 2000 /\ Status p = "online"
    /\ TotalSuccesses p = 0 /\ TotalFailures p = 0
    /\ TotalInputTokens p = 0 /\ TotalOutputTokens p = 0
    /\ CostPerInputToken p = modelCost modelID "input"
    /\ CostPerOutputToken p = modelCost modelID "output".

(** The default profile as [createDefaultProfile] builds it: one success is
    counted from the start; and the texts its hash then holds. *)
Definition default_profile_as_built (modelID : string)
    (r : option ModelProfile * error * DB) : Prop :=
  exists p db',
    r = (Some p, None, db')
    /\ ModelID p = modelID
    /\ AvgLatencyMS p = 2000 /\ Status p = "online"
    /\ TotalSuccesses p = 1 /\ TotalFailures p = 0
    /\ TotalInputTokens p = 0 /\ TotalOutputTokens p = 0
    /\ CostPerInputToken p = modelCost modelID "input"
    /\ CostPerOutputToken p = modelCost modelID "output"
    /\ fieldAt db' (getProfileKey modelID) "avg_latency_ms" = Some "2000"
    /\ fieldAt db' (getProfileKey modelID) "status" = Some "online"
    /\ fieldAt db' (getProfileKey modelID) "total_successes" = Some "1"
    /\ fieldAt db' (getProfileKey modelID) "total_failures" = Some "0".

(** The error-rate invariant as the specification words it, on the store:
    the stored rate is the text of failures over requests whenever the
    stored counters add up to a positive number. *)
Definition error_rate_as_specified (db : DB) (modelID : string) : Prop :=
  0 < add64 (storedSuccesses db modelID) (storedFailures db modelID) ->
  storedErrorRate db modelID
  = FormatFloat
      (float64_of_int (storedFailures db modelID)
       / float64_of_int
           (add64 (storedSuccesses db modelID) (storedFailures db modelID)))%float.

End WithLib.

End Profiler.

(** ** The router ([internal/llm/router.go]) *)

Module Router.
Import GoNum GoErr Strconv GoTime Redis Profiler.
Local Open Scope Z_scope.

Record RoutingStrategy : Type := {
  UseCodingScore : bool;
  QualityWeight : float;
  CostWeight : float;
  LatencyWeight : float
}.

(** The zero value [RoutingStrategy{}], which a Go map gives for a name it
    does not hold. *)
Definition zeroStrategy : RoutingStrategy :=
  {| UseCodingScore := false; QualityWeight := 0%float;
     CostWeight := 0%float; LatencyWeight := 0%float |}.

Record ModelMetadata : Type := {
  QualityScore : float;
  CodingScore : float
}.

(** The entries of [RouterConfig.Thresholds] that [passesPreChecks] reads,
    after its type assertions: [health_check_staleness] is the duration
    [time.ParseDuration] gives for the configured text (0 when the text
    is no duration, the error being dropped). *)
Record PreCheckThresholds : Type := {
  health_check_staleness : Duration;
  max_error_rate : float;
  min_request_count : Z
}.

Record RouterConfig : Type := {
  Thresholds : PreCheckThresholds;
  Models : gmap string ModelMetadata;
  Strategies : gmap string RoutingStrategy
}.

Record contender : Type := {
  Profile : ModelProfile;
  Metadata : ModelMetadata;
  EstimatedCost : float
}.

(** The reasons [passesPreChecks] gives (their texts only reach the
    log). *)
Inductive reason : Type :=
| Passed
| MarkedOffline
| StaleHealthCheck
| OverMonthlyBudget
| ErrorRateTooHigh.

(** [math.MaxFloat64] *)
Definition MaxFloat64 : float := 0x1.fffffffffffffp+1023%float.

Section WithConfig.
Variable config : RouterConfig.

Definition passesPreChecks (now : Time) (profile : ModelProfile)
    (monthlyBudget : float) : bool * reason :=
  let staleness := health_check_staleness (Thresholds config) in
  if String.eqb (Status profile) "offline" then (false, MarkedOffline)
  else if staleness <? Since now (LastHealthCheck profile) then
    (false, StaleHealthCheck)
  else if fgt monthlyBudget 0%float
          && fge (CostSpentMonthly profile) monthlyBudget then
    (false, OverMonthlyBudget)
  else
    let maxErrorRate := max_error_rate (Thresholds config) in
    let minRequests := min_request_count (Thresholds config) in
    let totalRequests := add64 (TotalSuccesses profile) (TotalFailures profile) in
    if (minRequests <? totalRequests) && fgt (ErrorRate profile) maxErrorRate
    then (false, ErrorRateTooHigh)
    else (true, Passed).

Definition calculateNormalizedScore (c : contender) (strategy : RoutingStrategy)
    (minCost maxCost minLatency maxLatency : float) : float :=
  let latencyFactor :=
    if fgt maxLatency minLatency then
      ((maxLatency - float64_of_int (AvgLatencyMS (Profile c)))
       / (maxLatency - minLatency))%float
    else 0.5%float in
  let costFactor :=
    if fgt maxCost minCost then
      ((maxCost - EstimatedCost c) / (maxCost - minCost))%float
    else 0.5%float in
  let qualityFactor :=
    if UseCodingScore strategy then (CodingScore (Metadata c) / 10)%float
    else (QualityScore (Metadata c) / 10)%float in
  let reliabilityFactor := (1 - ErrorRate (Profile c))%float in
  ((QualityWeight strategy * qualityFactor
    + CostWeight strategy * costFactor
    + LatencyWeight strategy * latencyFactor) * reliabilityFactor)%float.

(** One turn of the loop of [getNormalizationBounds]. *)
Definition boundsStep (b : float * float * float * float) (c : contender)
  : float * float * float * float :=
  let '(minCost, maxCost, minLatency, maxLatency) := b in
  let minCost := if flt (EstimatedCost c) minCost then EstimatedCost c else minCost in
  let maxCost := if fgt (EstimatedCost c) maxCost then EstimatedCost c else maxCost in
  let latency := float64_of_int (AvgLatencyMS (Profile c)) in
  let minLatency := if flt latency minLatency then latency else minLatency in
  let maxLatency := if fgt latency maxLatency then latency else maxLatency in
  (minCost, maxCost, minLatency, maxLatency).

(** One turn of the scoring loop of [SelectOptimalModel]. *)
Definition scoreStep (strategy : RoutingStrategy)
    (bounds : float * float * float * float)
    (best : string * float) (kc : string * contender) : string * float :=
  let '(minCost, maxCost, minLatency, maxLatency) := bounds in
  let score :=
    calculateNormalizedScore (snd kc) strategy
      minCost maxCost minLatency maxLatency in
  if fgt score (snd best) then (fst kc, score) else best.

Section WithLib.
Context `{GoLib}.
Variable modelCosts : gmap string (gmap string float).

(** The order in which the [range] statement numbered [site] visits a
    map: Go leaves it open, and it may differ from one loop to the next.
    Site 0 is the loop over a single contender, 1 the loop of
    [getStrategy], 2 the loop of [getNormalizationBounds], 3 the scoring
    loop. *)
Variable rangeOrder :
  nat -> gmap string contender -> list (string * contender).

(** [getNormalizationBounds] *)
Definition getNormalizationBounds (contenders : gmap string contender)
  : float * float * float * float :=
  fold_left (fun b kc => boundsStep b (snd kc)) (rangeOrder 2 contenders)
    (MaxFloat64, 0%float, MaxFloat64, 0%float).

(** [r.config.Strategies[name]] *)
Definition strategyNamed (name : string) : RoutingStrategy :=
  default zeroStrategy (Strategies config !! name).

Definition getStrategy (preference : string) (promptTokens : Z)
    (contenders : gmap string contender) : RoutingStrategy * error :=
  if String.eqb preference "smart-balanced" then
    let avgCost :=
      fold_left (fun acc kc => (acc + EstimatedCost (snd kc))%float)
        (rangeOrder 1 contenders) 0%float in
    let avgCost :=
      (avgCost / float64_of_int (Z.of_nat (size contenders)))%float in
    (* the constant 0.001 as a float64 *)
    if flt avgCost 0x1.0624dd2f1a9fcp-10%float then
      (strategyNamed "latency-focused-balanced", None)
    else (strategyNamed "quality-focused-balanced", None)
  else
    match Strategies config !! preference with
    | Some strategy => (strategy, None)
    | None =>
        match Strategies config !! "default" with
        | Some strategy => (strategy, None)
        | None =>
            (zeroStrategy,
             Some (New "default strategy not found in configuration"))
        end
    end.

(** Pass 1 of [SelectOptimalModel]: the loop over [availableModels],
    with the contenders found so far. *)
Fixpoint filterModels (db : DB) (now : Time) (availableModels : list string)
    (promptTokens : Z) (modelBudgets : gmap string float)
    (contenders : gmap string contender) : gmap string contender * DB :=
  match availableModels with
  | [] => (contenders, db)
  | modelID :: rest =>
      let '(profile, e, db) := GetProfile modelCosts db now modelID in
      match e, profile with
      | None, Some profile =>
          let monthlyBudget := default 0%float (modelBudgets !! modelID) in
          if fst (passesPreChecks now profile monthlyBudget) then
            match Models config !! ModelID profile with
            | Some modelMeta =>
                let estimatedOutputTokens := mul64 promptTokens 2 in
                let estimatedCost :=
                  (float64_of_int promptTokens * CostPerInputToken profile
                   + float64_of_int estimatedOutputTokens
                     * CostPerOutputToken profile)%float in
                filterModels db now rest promptTokens modelBudgets
                  (<[modelID := {| Profile := profile;
                                   Metadata := modelMeta;
                                   EstimatedCost := estimatedCost |}]>
                     contenders)
            | None =>
                filterModels db now rest promptTokens modelBudgets contenders
            end
          else filterModels db now rest promptTokens modelBudgets contenders
      | _, _ => filterModels db now rest promptTokens modelBudgets contenders
      end
  end.

(** Pass 2 of [SelectOptimalModel], for two contenders or more. *)
Definition scoreContenders (preference : string) (promptTokens : Z)
    (contenders : gmap string contender) : string * error :=
  let '(strategy, e) := getStrategy preference promptTokens contenders in
  match e with
  | Some e => ("", Some e)
  | None =>
      let bounds := getNormalizationBounds contenders in
      let '(bestModel, bestScore) :=
        fold_left (scoreStep strategy bounds) (rangeOrder 3 contenders)
          ("", (-1)%float) in
      if String.eqb bestModel "" then
        ("", Some (New "failed to select a model after scoring"))
      else (bestModel, None)
  end.

Definition SelectOptimalModel (db : DB) (now : Time)
    (availableModels : list string) (preference : string) (promptTokens : Z)
    (modelBudgets : gmap string float) : string * error * DB :=
  let '(contenders, db) :=
    filterModels db now availableModels promptTokens modelBudgets ∅ in
  if (size contenders =? 0)%nat then
    ("",
     Some (New "no suitable, healthy, and in-budget model found after filtering"),
     db)
  else
    match (size contenders =? 1)%nat, rangeOrder 0 contenders with
    | true, (modelID, _) :: _ => (modelID, None, db)
    | _, _ =>
        let '(modelID, e) :=
          scoreContenders preference promptTokens contenders in
        (modelID, e, db)
    end.

(** The contender set of a call: what pass 1 leaves. *)
Definition contendersOf (db : DB) (now : Time) (availableModels : list string)
    (promptTokens : Z) (modelBudgets : gmap string float)
  : gmap string contender :=
  fst (filterModels db now availableModels promptTokens modelBudgets ∅).

(** A profile fails a pre-check: it is offline, or its health check is
    stale, or its monthly cost reached a positive budget, or it had more
    requests than [min_request_count] with an error rate above
    [max_error_rate]. *)
Definition failsPreCheck (now : Time) (profile : ModelProfile)
    (monthlyBudget : float) : Prop :=
  Status profile = "offline"
  \/ health_check_staleness (Thresholds config)
     < Since now (LastHealthCheck profile)
  \/ (fgt monthlyBudget 0%float = true
      /\ fge (CostSpentMonthly profile) monthlyBudget = true)
  \/ (min_request_count (Thresholds config)
      < add64 (TotalSuccesses profile) (TotalFailures profile)
      /\ fgt (ErrorRate profile) (max_error_rate (Thresholds config)) = true).


End WithLib.
End WithConfig.

End Router.

(** ** Model selection in the request handler ([cmd/gateway/handler.go]) *)

Module Handler.
Import GoNum GoErr Strconv GoTime Redis Profiler Router.
Local Open Scope Z_scope.

(** The fields of [api.GenerationRequest] and of its [Config] that
    [determineModelID] reads. *)
Record RequestConfig : Type := {
  ForceModel : string;
  Preference : string
}.

Record Message : Type := {
  Role : string;
  Content : string
}.

Record GenerationRequest : Type := {
  ConversationID : string;
  Prompt : string;
  History : list Message;
  Config : RequestConfig
}.

Record FailoverInfo : Type := {
  OriginalModel : string;
  NewModel : string;
  Reason : string
}.

(** The responses [determineModelID] writes with [c.JSON]. *)
Inductive Response : Type :=
| ServiceUnavailable (errorMsg : string)
| FailedDependency (errorMsg : string) (available_models : list string).

(** The HTTP status of a response. *)
Definition statusCode (r : Response) : Z :=
  match r with
  | ServiceUnavailable _ => 503
  | FailedDependency _ _ => 424
  end.

(** What a call of [determineModelID] leaves: its three results, the
    response it wrote if any, the request (the call writes its
    [Config.Preference]) and the store. *)
Record Outcome : Type := {
  modelID : string;
  failoverInfo : option FailoverInfo;
  err : error;
  response : option Response;
  request : GenerationRequest;
  store : DB
}.

Definition withPreference (req : GenerationRequest) (preference : string)
  : GenerationRequest :=
  {| ConversationID := ConversationID req;
     Prompt := Prompt req;
     History := History req;
     Config := {| ForceModel := ForceModel (Config req);
                  Preference := preference |} |}.

(** [fmt.Sprintf("session:%s", conversationID)] *)
Definition sessionKeyOf (conversationID : string) : string :=
  "session:" ++ conversationID.

(** [refreshSessionTTL] *)
Definition refreshSessionTTL (db : DB) (sessionKey : string) : DB :=
  snd (Expire db sessionKey (1 * Hour)).

(** [pinSession]: one [HSET] of the two fields, then the TTL when the
    write went through (a failed write is logged only). *)
Definition pinSession (db : DB) (conversationID modelID : string)
    (isForced : bool) : DB :=
  let sessionKey := sessionKeyOf conversationID in
  let sessionData :=
    [("model_id", modelID);
     ("is_forced", if isForced then "true" else "false")] in
  let '(e, db) := HSetFields db sessionKey sessionData in
  match e with
  | Some _ => db
  | None => refreshSessionTTL db sessionKey
  end.

Section WithGateway.
Context `{GoLib}.
Variable modelCosts : gmap string (gmap string float).
Variable routerConfig : RouterConfig.
Variable rangeOrder :
  nat -> gmap string contender -> list (string * contender).

(** [h.config.EnabledModels] and [h.config.ModelBudgets] *)
Variable EnabledModels : list string.
Variable ModelBudgets : gmap string float.

(** [h.promptAnalyzer.Analyze]: the preference derived from the prompt. *)
Variable Analyze : string -> string.

(** A profile read without error whose status is [online]. *)
Definition onlineProfile (r : option ModelProfile * error) : bool :=
  match r with
  | (Some profile, None) => String.eqb (Status profile) "online"
  | _ => false
  end.

(** [suggestHealthyAlternatives]: the enabled models other than the failed
    one that are online, and the 424 response. *)
Fixpoint healthyAlternatives (db : DB) (now : Time) (failedModelID : string)
    (models : list string) : list string * DB :=
  match models with
  | [] => ([], db)
  | model :: rest =>
      if String.eqb model failedModelID then
        healthyAlternatives db now failedModelID rest
      else
        let '(p, e, db) := GetProfile modelCosts db now model in
        let '(healthy, db) := healthyAlternatives db now failedModelID rest in
        (if onlineProfile (p, e) then model :: healthy else healthy, db)
  end.

Definition suggestHealthyAlternatives (db : DB) (now : Time)
    (failedModelID : string) : Response * DB :=
  let '(healthyModels, db) :=
    healthyAlternatives db now failedModelID EnabledModels in
  (FailedDependency
     ("The requested model '" ++ failedModelID ++ "' is currently offline.")
     healthyModels, db).

Definition offlineReason (pinnedModel : string) : string :=
  "Model '" ++ pinnedModel ++ "' was offline.".

(** Part B of [determineModelID] after the forced start: the preference is
    derived when the request has none, the router chooses, and the session
    of a conversation is pinned as a dynamic one. *)
Definition routeAndPin (db : DB) (now : Time) (req : GenerationRequest)
    (failover : option FailoverInfo) : Outcome :=
  let req :=
    if String.eqb (Preference (Config req)) ""
    then withPreference req (Analyze (Prompt req)) else req in
  let totalPromptLength :=
    fold_left (fun n msg => n + Z.of_nat (String.length (Content msg)))
      (History req) (Z.of_nat (String.length (Prompt req))) in
  let estimatedTokens := Z.quot totalPromptLength 4 in
  let '(chosen, e, db) :=
    SelectOptimalModel routerConfig modelCosts rangeOrder db now
      EnabledModels (Preference (Config req)) estimatedTokens ModelBudgets in
  match e with
  | Some e =>
      {| modelID := ""; failoverInfo := None;
         err := Some (New "response sent");
         response := Some (ServiceUnavailable (Error e));
         request := req; store := db |}
  | None =>
      let failover :=
        option_map
          (fun f => {| OriginalModel := OriginalModel f;
                       NewModel := chosen; Reason := Reason f |}) failover in
      let db :=
        if String.eqb (ConversationID req) "" then db
        else pinSession db (ConversationID req) chosen false in
      {| modelID := chosen; failoverInfo := failover; err := None;
         response := None; request := req; store := db |}
  end.

(** Part B of [determineModelID]: the start of a new forced chat, else
    the router. *)
Definition newChatOrRoute (db : DB) (now : Time) (req : GenerationRequest)
    (failover : option FailoverInfo) : Outcome :=
  if negb (String.eqb (ConversationID req) "")
     && negb (String.eqb (ForceModel (Config req)) "") then
    let forcedModelID := ForceModel (Config req) in
    let '(profile, e, db) := GetProfile modelCosts db now forcedModelID in
    if onlineProfile (profile, e) then
      {| modelID := forcedModelID; failoverInfo := None; err := None;
         response := None; request := req;
         store := pinSession db (ConversationID req) forcedModelID true |}
    else
      let '(resp, db) := suggestHealthyAlternatives db now forcedModelID in
      {| modelID := ""; failoverInfo := None;
         err := Some (New "response sent");
         response := Some resp; request := req; store := db |}
  else routeAndPin db now req failover.

(** [determineModelID]; part A handles an existing session. *)
Definition determineModelID (db : DB) (now : Time) (req : GenerationRequest)
  : Outcome :=
  let hit (db : DB) (pinnedModel sessionKey : string) : Outcome :=
    {| modelID := pinnedModel; failoverInfo := None; err := None;
       response := None; request := req;
       store := refreshSessionTTL db sessionKey |} in
  if negb (String.eqb (ConversationID req) "") then
    let sessionKey := sessionKeyOf (ConversationID req) in
    let '(sessionData, e) := HGetAll db sessionKey in
    if isNil e && negb (bool_decide (sessionData = ∅)) then
      let pinnedModel := fieldOf sessionData "model_id" in
      let isForcedSession := String.eqb (fieldOf sessionData "is_forced") "true" in
      let failed :=
        Some {| OriginalModel := pinnedModel; NewModel := "";
                Reason := offlineReason pinnedModel |} in
      if isForcedSession then
        let '(profile, profilerErr, db) :=
          GetProfile modelCosts db now pinnedModel in
        if onlineProfile (profile, profilerErr) then
          hit db pinnedModel sessionKey
        else newChatOrRoute db now (withPreference req "max_quality") failed
      else
        let '(profile, profilerErr, db) :=
          GetProfile modelCosts db now pinnedModel in
        if onlineProfile (profile, profilerErr) then
          if String.eqb (Preference (Config req)) ""
          then hit db pinnedModel sessionKey
          else newChatOrRoute db now req None
        else newChatOrRoute db now req failed
    else newChatOrRoute db now req None
  else newChatOrRoute db now req None.

(** The choice of the router for a request: [SelectOptimalModel] over the
    enabled models, under the preference of the request, or the one
    derived from the prompt when the request gives none. *)
Definition routerChoice (db : DB) (now : Time) (req : GenerationRequest)
  : string * error * DB :=
  let preference :=
    if String.eqb (Preference (Config req)) ""
    then Analyze (Prompt req) else Preference (Config req) in
  let totalPromptLength :=
    fold_left (fun n msg => n + Z.of_nat (String.length (Content msg)))
      (History req) (Z.of_nat (String.length (Prompt req))) in
  SelectOptimalModel routerConfig modelCosts rangeOrder db now
    EnabledModels preference (Z.quot totalPromptLength 4) ModelBudgets.

(** What the caller of [determineModelID] and the store see of a call. *)
Definition observable (o : Outcome)
  : string * option FailoverInfo * error * option Response * DB :=
  (modelID o, failoverInfo o, err o, response o, store o).

End WithGateway.

(** The request with another [force_model]. *)
Definition withForceModel (req : GenerationRequest) (forceModel : string)
  : GenerationRequest :=
  {| ConversationID := ConversationID req;
     Prompt := Prompt req;
     History := History req;
     Config := {| ForceModel := forceModel;
                  Preference := Preference (Config req) |} |}.

End Handler.

(** ** Data for the examples

    A stand-in for the library functions of [GoLib] (fixed-point texts
    with six decimals for [float64], nanosecond counts for instants), a
    cost table, a router configuration and an empty store. *)

Module Demo.
Import GoNum GoErr Strconv GoTime Redis Profiler Router Handler.
Local Open Scope Z_scope.

Definition million : float := float64_of_int 1000000.

#[export] Instance lib : GoLib := {|
  ParseFloat s := (float64_of_int (ParseInt s) / million)%float;
  FormatFloat f := FormatInt (int64_of_float (f * million)%float);
  FormatRFC3339Nano t := FormatInt t;
  ParseRFC3339Nano s := ParseInt s;
  FormatMonth t := FormatInt (t / (30 * 24 * Hour));
  ServerIncrByFloat old x :=
    Some (FormatInt
            (int64_of_float
               ((float64_of_int (ParseInt (default "0" old)) / million + x)
                * million)%float))
|}.

(** Per-token costs: 5 and 15 dollars per million tokens for [gpt-4o],
    1 and 2 for [mistral-small]. *)
Definition costs : gmap string (gmap string float) :=
  <["gpt-4o" := <["input" := (float64_of_int 5 / million)%float]>
                  (<["output" := (float64_of_int 15 / million)%float]> ∅)]>
    (<["mistral-small" :=
         <["input" := (float64_of_int 1 / million)%float]>
           (<["output" := (float64_of_int 2 / million)%float]> ∅)]> ∅).

Definition strategy (q c l : Z) : RoutingStrategy :=
  {| UseCodingScore := false;
     QualityWeight := (float64_of_int q / float64_of_int 10)%float;
     CostWeight := (float64_of_int c / float64_of_int 10)%float;
     LatencyWeight := (float64_of_int l / float64_of_int 10)%float |}.

(** Five minutes of staleness, at most half of the requests failing once
    more than ten were made. *)
Definition config : RouterConfig :=
  {| Thresholds :=
       {| health_check_staleness := 300 * 1000000000;
          max_error_rate := 0.5%float;
          min_request_count := 10 |};
     Models :=
       <["gpt-4o" := {| QualityScore := 9%float; CodingScore := 9%float |}]>
         (<["mistral-small" :=
              {| QualityScore := 7%float; CodingScore := 6%float |}]> ∅);
     Strategies :=
       <["default" := strategy 4 3 3]>
         (<["max_quality" := strategy 8 1 1]> ∅) |}.

(** Go leaves the order of a [range] over a map open; the examples take
    the order of the keys. *)
Definition rangeOrder (site : nat) (m : gmap string contender)
  : list (string * contender) := map_to_list m.

(** A store within reach that holds nothing. *)
Definition emptyDB : DB :=
  {| reachable := true; hashes := ∅; strings := ∅; ttl := ∅ |}.

(** An instant: 2024-01-01T00:00:00Z. *)
Definition now : Time := 1704067200 * 1000000000.

Definition enabledModels : list string := ["gpt-4o"; "mistral-small"].

(** The store once the profile of [gpt-4o] was created. *)
Definition profiledDB : DB := snd (GetProfile costs emptyDB now "gpt-4o").

(** A call that took 1.5 seconds, with 10 prompt tokens and 20 completion
    tokens. *)
Definition latency : Duration := 1500 * Millisecond.
Definition usage : Usage :=
  {| PromptTokens := 10; CompletionTokens := 20; TotalTokens := 30 |}.

Definition analyze (prompt : string) : string := "balanced".

(** The contender that [gpt-4o] makes on an empty store for a prompt of
    100 tokens. *)
Definition gpt4oContender : contender :=
  let profile := fst (fst (createDefaultProfile costs emptyDB now "gpt-4o")) in
  {| Profile := profile;
     Metadata := {| QualityScore := 9%float; CodingScore := 9%float |};
     EstimatedCost :=
       (float64_of_int 100 * CostPerInputToken profile
        + float64_of_int 200 * CostPerOutputToken profile)%float |}.

(** A profile that is online, with no cost spent and no request counted,
    whose health was last checked at [checked]. *)
Definition profileCheckedAt (checked : Time) : ModelProfile :=
  {| ModelID := "gpt-4o"; AvgLatencyMS := 2000;
     CostPerInputToken := 0%float; CostPerOutputToken := 0%float;
     Status := "online"; ErrorRate := 0%float;
     TotalSuccesses := 1; TotalFailures := 0;
     TotalInputTokens := 0; TotalOutputTokens := 0;
     LastHealthCheck := checked; CostSpentMonthly := 0%float |}.

(** A request that names a forced model but no conversation. *)
Definition forcedRequest : GenerationRequest :=
  {| ConversationID := ""; Prompt := "How does Go handle concurrency?";
     History := [];
     Config := {| ForceModel := "gpt-4o"; Preference := "" |} |}.

(** The argument texts of the calculator examples, and a decoder that
    knows them: it stands for [json.Unmarshal] on these texts. *)
Definition dq : string := String (ascii_of_nat 34) EmptyString.

Definition calcArguments (a op b : string) : string :=
  "{" ++ dq ++ "operand1" ++ dq ++ ":" ++ a ++ ","
      ++ dq ++ "operator" ++ dq ++ ":" ++ dq ++ op ++ dq ++ ","
      ++ dq ++ "operand2" ++ dq ++ ":" ++ b ++ "}".

Definition calcArgs (a : Z) (op : string) (b : Z) : Calculator.Args :=
  {| Calculator.Operand1 := float64_of_int a;
     Calculator.Operand2 := float64_of_int b;
     Calculator.Operator := op |}.

Definition jsonUnmarshal (arguments : string) : Calculator.Args * error :=
  if String.eqb arguments (calcArguments "12" "*" "7") then
    (calcArgs 12 "*" 7, None)
  else if String.eqb arguments (calcArguments "1" "/" "0") then
    (calcArgs 1 "/" 0, None)
  else if String.eqb arguments (calcArguments "2" "^" "3") then
    (calcArgs 2 "^" 3, None)
  else
    (calcArgs 0 "" 0,
     Some (Failure "invalid character 'o' in literal null (expecting 'u')")).

(** [%g] on a [float64] that holds an integer: its decimal digits. *)
Definition formatG (x : float) : string := FormatInt (int64_of_float x).

End Demo.

(** ** The score of a contender in a call of the router *)

Module Scoring.
Import GoNum GoErr Strconv GoTime Redis Profiler Router.

Section WithConfig.
Variable config : RouterConfig.
Variable rangeOrder :
  nat -> gmap string contender -> list (string * contender).

(** The score the scoring loop of [SelectOptimalModel] computes for [c]:
    [calculateNormalizedScore] under the bounds of the contender set. *)
Definition scoreIn (contenders : gmap string contender)
    (strategy : RoutingStrategy) (c : contender) : float :=
  let '(minCost, maxCost, minLatency, maxLatency) :=
    getNormalizationBounds rangeOrder contenders in
  calculateNormalizedScore c strategy minCost maxCost minLatency maxLatency.

End WithConfig.
End Scoring.

(** ** Counters of a profile hash, as the server reads them *)

Module Counters.
Import GoNum GoErr Strconv GoTime Redis Profiler.
Local Open Scope Z_scope.

(** The number [HINCRBY] starts from: 0 for a field that is missing, the
    integer a canonical decimal text stands for, nothing for another
    text. *)
Definition counterAt (db : DB) (key field : string) : option Z :=
  match fieldAt db key field with
  | None => Some 0
  | Some s => string2ll s
  end.

Section WithLib.
Context `{GoLib}.
Variable modelCosts : gmap string (gmap string float).

(** [callCost] of [UpdateProfileOnSuccess] *)
Definition callCost (modelID : string) (usage : Usage) : float :=
  (float64_of_int (PromptTokens usage) * modelCost modelCosts modelID "input"
   + float64_of_int (CompletionTokens usage)
     * modelCost modelCosts modelID "output")%float.

(** The profile [GetProfile] reads from the hash that
    [createDefaultProfile] wrote at [created]: the numbers and instants
    have gone through their text forms. *)
Definition defaultProfileRead (db : DB) (created now : Time)
    (modelID : string) : ModelProfile :=
  {| ModelID := modelID;
     AvgLatencyMS := 2000;
     CostPerInputToken :=
       ParseFloat (FormatFloat (modelCost modelCosts modelID "input"));
     CostPerOutputToken :=
       ParseFloat (FormatFloat (modelCost modelCosts modelID "output"));
     Status := "online";
     ErrorRate := ParseFloat (FormatFloat 0%float);
     TotalSuccesses := 1;
     TotalFailures := 0;
     TotalInputTokens := 0;
     TotalOutputTokens := 0;
     LastHealthCheck := ParseRFC3339Nano (FormatRFC3339Nano created);
     CostSpentMonthly := Float64 (Get db (costKey now modelID)) |}.

End WithLib.
End Counters.

(** ** The health test of the handler, on the store *)

Module Health.
Import GoNum GoErr Strconv GoTime Redis Profiler Router Handler.

(** What the test [err == nil && profile.Status == "online"] on the
    result of [GetProfile] comes to: the store is within reach, and the
    profile hash of the model is empty (the profile is then created, with
    the status [online]) or holds the status [online]. *)
Definition storedOnline (db : DB) (modelID : string) : bool :=
  reachable db
  && (bool_decide (hashAt db (getProfileKey modelID) = ∅)
      || String.eqb (fieldOf (hashAt db (getProfileKey modelID)) "status")
           "online").

(** The request a failover routes: a forced session asks for
    [max_quality]. *)
Definition failoverRequest (isForcedSession : bool) (req : GenerationRequest)
  : GenerationRequest :=
  if isForcedSession then withPreference req "max_quality" else req.

End Health.

(** ** Requests with retries ([doRequest] of the clients,
       [internal/llm/constants.go]) *)

Module Retry.
Import GoNum GoErr Strconv GoTime.
Local Open Scope Z_scope.

Definition Second : Duration := 1000000000.

(** [internal/llm/constants.go] *)
Definition maxRetries : Z := 3.
Definition initialRetryDelay : Duration := 2 * Second.

(** What one turn of the loop meets: [createRequest] fails, or
    [httpClient.Do] fails, or the body of the response cannot be read, or
    the response arrives with its status and its body. *)
Inductive Attempt : Type :=
| CreateFails (e : err)
| DoFails (e : err)
| ReadFails (StatusCode : Z) (readErr : err)
| Reply (StatusCode : Z) (body : string).

(** What a call leaves: its two results, and what it did on the way (the
    number of requests it sent, the pauses it made, in their order). *)
Record Outcome : Type := {
  body : string;
  error_ : error;
  sent : Z;
  slept : list Duration
}.

Section WithNetwork.
(** The name the client puts in front of [API error]: [openai] in
    [OpenAIClient], [anthropic] in [AnthropicClient] and in
    [MistralClient]. *)
Variable provider : string.

(** The network: what the attempt numbered [i] (from 0) meets. *)
Variable network : Z -> Attempt.

(** [fmt.Errorf("request failed (attempt %d/%d): %w", i+1, maxRetries, err)] *)
Definition requestFailed (i : Z) (e : err) : err :=
  Failure ("request failed (attempt " ++ FormatInt (add64 i 1) ++ "/"
           ++ FormatInt maxRetries ++ "): " ++ Error e).

(** [fmt.Errorf("... API error (attempt %d/%d): status %d, body: %s", ...)] *)
Definition apiError (i StatusCode : Z) (body : string) : err :=
  Failure (provider ++ " API error (attempt " ++ FormatInt (add64 i 1) ++ "/"
           ++ FormatInt maxRetries ++ "): status " ++ FormatInt StatusCode
           ++ ", body: " ++ body).

(** The loop [for i := 0; i < maxRetries; i++] with [left] turns to go. *)
Fixpoint attemptsFrom (left : nat) (i : Z) (delay : Duration)
    (lastErr : error) (pauses : list Duration) : Outcome :=
  match left with
  | O => {| body := ""; error_ := lastErr; sent := i; slept := pauses |}
  | S left' =>
      match network i with
      | CreateFails e =>
          {| body := ""; error_ := Some e; sent := i; slept := pauses |}
      | DoFails e =>
          attemptsFrom left' (add64 i 1) (mul64 delay 2)
            (Some (requestFailed i e)) (pauses ++ [delay])
      | ReadFails _ readErr =>
          {| body := "";
             error_ :=
               Some (Failure ("failed to read response body: "
                              ++ Error readErr));
             sent := add64 i 1; slept := pauses |}
      | Reply StatusCode body =>
          if (200 <=? StatusCode) && (StatusCode <? 300) then
            {| body := body; error_ := None; sent := add64 i 1;
               slept := pauses |}
          else if (400 <=? StatusCode) && (StatusCode <? 500) then
            {| body := "";
               error_ := Some (apiError i StatusCode body);
               sent := add64 i 1; slept := pauses |}
          else
            attemptsFrom left' (add64 i 1) (mul64 delay 2)
              (Some (apiError i StatusCode body)) (pauses ++ [delay])
      end
  end.

Definition doRequest : Outcome :=
  attemptsFrom (Z.to_nat maxRetries) 0 initialRetryDelay None [].

(** An attempt after which the loop goes on: the request could not be
    sent, or the status of the response is neither 2xx nor 4xx. *)
Definition retried (a : Attempt) : bool :=
  match a with
  | DoFails _ => true
  | Reply StatusCode _ =>
      negb ((200 <=? StatusCode) && (StatusCode <? 300))
      && negb ((400 <=? StatusCode) && (StatusCode <? 500))
  | _ => false
  end.

(** The error the loop keeps of an attempt. *)
Definition errorOf (i : Z) (a : Attempt) : error :=
  match a with
  | CreateFails e => Some e
  | DoFails e => Some (requestFailed i e)
  | ReadFails _ readErr =>
      Some (Failure ("failed to read response body: " ++ Error readErr))
  | Reply StatusCode body =>
      if (200 <=? StatusCode) && (StatusCode <? 300) then None
      else Some (apiError i StatusCode body)
  end.

(** The pauses before the attempt numbered [i]: 2 s, 4 s, 8 s, ... *)
Definition pausesBefore (i : nat) : list Duration :=
  map (fun k => 2 ^ Z.of_nat k * initialRetryDelay) (seq 0 i).

(** What the loop returns when the attempt numbered [i] ends it. *)
Definition endedBy (i : Z) (pauses : list Duration) : Outcome :=
  {| body := match network i with
             | Reply StatusCode body =>
                 if (200 <=? StatusCode) && (StatusCode <? 300)
                 then body else ""
             | _ => ""
             end;
     error_ := errorOf i (network i);
     sent := match network i with CreateFails _ => i | _ => add64 i 1 end;
     slept := pauses |}.

End WithNetwork.
End Retry.

(** ** Tools ([internal/tools/types.go], [internal/tools/executor.go],
       [internal/tools/manager.go]) *)

Module Tools.
Import GoErr.

Definition ToolTypeFunction : string := "function".

(** [JSONSchema]: a schema node, with the schemas of its properties under
    their names. *)
Inductive JSONSchema : Type :=
| Schema (Type_ Description : string) (Properties : list Property)
    (Required : list string)
with Property : Type :=
| Named (name : string) (schema : JSONSchema).

(** [Function] *)
Record FunctionT : Type := {
  Name : string;
  Description : string;
  Parameters : JSONSchema
}.

Record Tool : Type := {
  ToolType : string;
  Function : FunctionT
}.

(** [ToolCallFunction] and [ToolCall] *)
Record ToolCallFunction : Type := {
  CallName : string;
  Arguments : string
}.

Record ToolCall : Type := {
  ID : string;
  CallType : string;
  Call : ToolCallFunction
}.

Definition NewFunctionTool (name description : string)
    (parameters : JSONSchema) : Tool :=
  {| ToolType := ToolTypeFunction;
     Function := {| Name := name; Description := description;
                    Parameters := parameters |} |}.

(** The interface [ToolExecutor]: a tool is taken as a function of its
    arguments. *)
Record ToolExecutor : Type := {
  Definition_ : Tool;
  Execute : string -> string * error
}.

(** [ToolManager]: the registry [tools map[string]ToolExecutor]. *)
Definition ToolManager : Type := gmap string ToolExecutor.

Definition NewToolManager : ToolManager := ∅.

Definition Register (tm : ToolManager) (tool : ToolExecutor) : ToolManager :=
  let name := Name (Function (Definition_ tool)) in
  <[name := tool]> tm.

(** [GetDefinitions]: the definitions in the order the [range] over the
    registry takes. *)
Definition GetDefinitions
    (rangeOrder : ToolManager -> list (string * ToolExecutor))
    (tm : ToolManager) : list Tool :=
  map (fun entry => Definition_ (snd entry)) (rangeOrder tm).

(** [ToolManager.Execute] *)
Definition ExecuteTool (tm : ToolManager) (name arguments : string)
  : string * error :=
  match tm !! name with
  | None => ("", Some (Failure ("tool '" ++ name ++ "' not found")))
  | Some tool => Execute tool arguments
  end.

Definition ToolCount (tm : ToolManager) : nat := size tm.

End Tools.

(** ** The tool loop of the handler ([handleToolLoop] in
       [cmd/gateway/handler.go], types of [internal/llm/client.go]) *)

Module ToolLoop.
Import GoNum GoErr Strconv GoTime Redis Profiler Tools.
Local Open Scope Z_scope.

Definition RoleSystem : string := "system".
Definition RoleUser : string := "user".
Definition RoleAssistant : string := "assistant".
Definition RoleTool : string := "tool".

(** [llm.Message] *)
Record Message : Type := {
  Role : string;
  Content : string;
  ToolCallID : string;
  ToolCalls : list ToolCall
}.

Section WithFloat32.
(** The type [float32] of the sampling parameters, which the loop only
    passes on. *)
Variable float32 : Type.

(** [llm.GenerationConfig] *)
Record GenerationConfig : Type := {
  Model : string;
  Temperature : option float32;
  MaxTokens : Z;
  TopP : option float32;
  Stream : bool
}.

(** [llm.GenerationResult] *)
Record GenerationResult : Type := {
  ResultContent : string;
  ResultToolCalls : list ToolCall;
  ResultUsage : Usage
}.

(** The method [Generate] of an [LLMClient].  The model behind it is
    taken as a function of what it is sent; within one run of the loop
    no two calls send the same messages. *)
Definition LLMClient : Type :=
  list Message -> GenerationConfig -> list Tool -> GenerationResult * error.

(** The fields of [api.GenerationRequest] that [handleToolLoop] reads. *)
Record ToolRequestConfig : Type := {
  ReqMaxTokens : Z;
  ReqTemperature : option float32;
  ReqTopP : option float32;
  ReqStream : bool
}.

Record ToolRequest : Type := {
  Prompt : string;
  History : list Handler.Message;
  Config : ToolRequestConfig
}.

(** What a call of [handleToolLoop] leaves: its four results, the store
    (a failed generation is recorded in the profile), and the messages
    it sent with each call of [Generate], in their order. *)
Record Outcome : Type := {
  content : string;
  usage : Usage;
  model : string;
  error_ : error;
  store : DB;
  calls : list (list Message)
}.

(** [convertAPIMessagesToLLMMessages] *)
Definition convertAPIMessagesToLLMMessages (apiMessages : list Handler.Message)
  : list Message :=
  map (fun msg => {| Role := Handler.Role msg;
                     Content := Handler.Content msg;
                     ToolCallID := ""; ToolCalls := [] |}) apiMessages.

Definition maxToolCalls : Z := 5.

(** [api.Usage{}] *)
Definition noUsage : Usage :=
  {| PromptTokens := 0; CompletionTokens := 0; TotalTokens := 0 |}.

Section WithHandler.
Context `{GoLib}.
(** [h.clients], [h.toolManager] with the order its [range] takes, and
    [Usage.Add] of package [api]. *)
Variable clients : gmap string LLMClient.
Variable toolManager : ToolManager.
Variable rangeOrder : ToolManager -> list (string * ToolExecutor).
Variable usageAdd : Usage -> Usage -> Usage.

(** The message that answers a tool call: the result of the tool, or the
    text of its error. *)
Definition toolMessage (toolCall : ToolCall) : Message :=
  let '(toolResult, e) :=
    ExecuteTool toolManager (CallName (Call toolCall))
      (Arguments (Call toolCall)) in
  let toolResult :=
    match e with
    | Some e =>
        "Error executing tool " ++ CallName (Call toolCall) ++ ": " ++ Error e
    | None => toolResult
    end in
  {| Role := RoleTool; Content := toolResult; ToolCallID := ID toolCall;
     ToolCalls := [] |}.

(** The loop [for i := 0; i < maxToolCalls; i++] with [left] turns to
    go. *)
Fixpoint toolRounds (client : LLMClient) (llmConfig : GenerationConfig)
    (modelID : string) (db : DB) (left : nat) (messages : list Message)
    (cumulativeUsage : Usage) (sent : list (list Message)) : Outcome :=
  match left with
  | O =>
      {| content := ""; usage := noUsage; model := "";
         error_ := Some (New "exceeded maximum number of tool calls");
         store := db; calls := sent |}
  | S left' =>
      let '(result, e) :=
        client messages llmConfig (GetDefinitions rangeOrder toolManager) in
      let sent := (sent ++ [messages])%list in
      match e with
      | Some e =>
          {| content := ""; usage := noUsage; model := "";
             error_ :=
               Some (Failure ("LLM generation failed during tool loop: "
                              ++ Error e));
             store := UpdateProfileOnFailure db modelID; calls := sent |}
      | None =>
          let cumulativeUsage := usageAdd cumulativeUsage (ResultUsage result) in
          if (List.length (ResultToolCalls result) =? 0)%nat then
            {| content := ResultContent result; usage := cumulativeUsage;
               model := modelID; error_ := None; store := db;
               calls := sent |}
          else
            let messages :=
              (messages ++ [{| Role := RoleAssistant;
                               Content := ResultContent result;
                               ToolCallID := "";
                               ToolCalls := ResultToolCalls result |}])%list in
            let messages :=
              fold_left
                (fun msgs toolCall => (msgs ++ [toolMessage toolCall])%list)
                (ResultToolCalls result) messages in
            toolRounds client llmConfig modelID db left' messages
              cumulativeUsage sent
      end
  end.

Definition handleToolLoop (db : DB) (req : ToolRequest) : Outcome :=
  let modelID := "gpt-4o" in
  match clients !! modelID with
  | None =>
      {| content := ""; usage := noUsage; model := "";
         error_ :=
           Some (Failure ("tool-use model '" ++ modelID
                          ++ "' is not available or enabled"));
         store := db; calls := [] |}
  | Some client =>
      let messages := convertAPIMessagesToLLMMessages (History req) in
      let messages :=
        (messages ++ [{| Role := RoleUser; Content := Prompt req;
                         ToolCallID := ""; ToolCalls := [] |}])%list in
      let llmConfig :=
        {| Model := modelID;
           MaxTokens := ReqMaxTokens (Config req);
           Temperature := ReqTemperature (Config req);
           TopP := ReqTopP (Config req);
           Stream := ReqStream (Config req) |} in
      toolRounds client llmConfig modelID db (Z.to_nat maxToolCalls) messages
        noUsage []
  end.

(** The messages one round adds to the conversation: the answer of the
    model with its tool calls, then one tool message for each call. *)
Definition roundMessages (result : GenerationResult) : list Message :=
  {| Role := RoleAssistant; Content := ResultContent result;
     ToolCallID := ""; ToolCalls := ResultToolCalls result |}
  :: map toolMessage (ResultToolCalls result).

(** The configuration [handleToolLoop] sends with each call. *)
Definition loopConfig (req : ToolRequest) : GenerationConfig :=
  {| Model := "gpt-4o";
     MaxTokens := ReqMaxTokens (Config req);
     Temperature := ReqTemperature (Config req);
     TopP := ReqTopP (Config req);
     Stream := ReqStream (Config req) |}.

(** The answer of the client to the messages of a call of the loop. *)
Definition answerTo (client : LLMClient) (req : ToolRequest)
    (messages : list Message) : GenerationResult * error :=
  client messages (loopConfig req) (GetDefinitions rangeOrder toolManager).

(** The calls of a run hang together: each call after the first sends
    the messages of the call before it, followed by the round that the
    answer to that call (tool calls, no error) gave rise to. *)
Fixpoint linked (answer : list Message -> GenerationResult * error)
    (first : list Message) (rest : list (list Message)) : Prop :=
  match rest with
  | [] => True
  | next :: rest' =>
      (exists result,
          answer first = (result, None)
          /\ ResultToolCalls result <> []
          /\ next = (first ++ roundMessages result)%list)
      /\ linked answer next rest'
  end.

(** The usage a run adds up: [Usage.Add] over the answers to the given
    calls. *)
Definition usageOver (answer : list Message -> GenerationResult * error)
    (sent : list (list Message)) (start : Usage) : Usage :=
  fold_left (fun u messages => usageAdd u (ResultUsage (fst (answer messages))))
    sent start.

(** The messages of the first call: the history, then the prompt as a
    user message. *)
Definition firstMessages (req : ToolRequest) : list Message :=
  (convertAPIMessagesToLLMMessages (History req)
   ++ [{| Role := RoleUser; Content := Prompt req;
          ToolCallID := ""; ToolCalls := [] |}])%list.

End WithHandler.
End WithFloat32.
End ToolLoop.

(** ** The prompt analyzer ([internal/llm/prompt_analyzer.go]) *)

Module PromptAnalyzer.
Import GoStrings GoNum.
Local Open Scope Z_scope.

(** [strings.Count(s, sep)] for a separator of one byte. *)
Fixpoint countByte (c : ascii) (s : string) : Z :=
  match s with
  | EmptyString => 0
  | String c' s' => (if Ascii.eqb c' c then 1 else 0) + countByte c s'
  end.

(** The line feed. *)
Definition newline : ascii := ascii_of_nat 10.

Section Analyze.
(** [strings.TrimSpace], and [strings.ToLower] outside ASCII. *)
Variable TrimSpace : string -> string.
Variable unicodeToLower : string -> string.

(** [MatchString] of the six compiled patterns. *)
Variable codeBlockRegex : string -> bool.
Variable codingArchetypes : string -> bool.
Variable simpleQueryArchetypes : string -> bool.
Variable mediumComplexityArchetypes : string -> bool.
Variable highComplexityArchetypes : string -> bool.
Variable ultraComplexityArchetypes : string -> bool.

Definition normalize (prompt : string) : string :=
  ToLower unicodeToLower (TrimSpace prompt).

(** The complexity score of a normalized prompt. *)
Definition complexityOf (normalizedPrompt : string) : Z :=
  let complexityScore := 0 in
  let complexityScore :=
    add64 complexityScore
      (Z.quot (Z.of_nat (String.length normalizedPrompt)) 200) in
  let complexityScore :=
    add64 complexityScore (mul64 (countByte newline normalizedPrompt) 2) in
  let complexityScore :=
    if mediumComplexityArchetypes normalizedPrompt
    then add64 complexityScore 5 else complexityScore in
  let complexityScore :=
    if highComplexityArchetypes normalizedPrompt
    then add64 complexityScore 15 else complexityScore in
  if ultraComplexityArchetypes normalizedPrompt
  then add64 complexityScore 30 else complexityScore.

Definition Analyze (prompt : string) : string :=
  let normalizedPrompt := normalize prompt in
  if String.eqb normalizedPrompt "" then "cost"
  else if codeBlockRegex normalizedPrompt
          || codingArchetypes normalizedPrompt then "best-for-coding"
  else
    let complexityScore := complexityOf normalizedPrompt in
    if simpleQueryArchetypes normalizedPrompt && (complexityScore <? 5)
    then "cost"
    else if 25 <? complexityScore then "max_quality"
    else if 10 <? complexityScore then "default"
    else "balanced".

(** A prompt that step 2 does not classify: it is not empty once
    normalized, and neither coding pattern matches it. *)
Definition scored (prompt : string) : Prop :=
  normalize prompt <> ""
  /\ codeBlockRegex (normalize prompt) = false
  /\ codingArchetypes (normalize prompt) = false.

End Analyze.
End PromptAnalyzer.

(** ** The response cache ([CheckCache] and [SetCache] in
       [internal/llm/rag.go], [GenerateCacheKey] in
       [internal/llm/helpers.go]) *)

Module Cache.
Import GoNum GoErr Strconv GoTime Redis.
Local Open Scope Z_scope.

(** [GenerateCacheKey]: the SHA-256 digest of the text, in hexadecimal. *)
Definition GenerateCacheKey (prompt : string) : string :=
  Sha256.EncodeToString (Sha256.sum (Sha256.bytes_of_string prompt)).

Definition responseCachePrefix : string := "llmcache:".
Definition responseCacheTTL : Duration := 24 * Hour.

(** [redis.KeepTTL] *)
Definition KeepTTL : Duration := -1.

(** [SET key value] with the expiration the client was given: the key
    then holds the text, whatever it held, and lives for a positive
    expiration, keeps its time to live for [KeepTTL], and else lives on
    without one. *)
Definition Set_ (db : DB) (key value : string) (expiration : Duration)
  : error * DB :=
  if reachable db then
    (None,
     {| reachable := reachable db;
        hashes := delete key (hashes db);
        strings := <[key := value]> (strings db);
        ttl := if 0 <? expiration then <[key := expiration]> (ttl db)
               else if expiration =? KeepTTL then ttl db
               else delete key (ttl db) |})
  else (Some connError, db).

(** [CheckCache]: the cached text and whether there is one; an error of
    the store counts as a miss. *)
Definition CheckCache (db : DB) (prompt : string) : string * bool :=
  let cacheKey := responseCachePrefix ++ GenerateCacheKey prompt in
  let '(val, e) := Get db cacheKey in
  match e with
  | Some RedisNil => ("", false)
  | Some _ => ("", false)
  | None => (val, true)
  end.

(** [SetCache] *)
Definition SetCache (db : DB) (prompt response : string) : DB :=
  let cacheKey := responseCachePrefix ++ GenerateCacheKey prompt in
  snd (Set_ db cacheKey response responseCacheTTL).

End Cache.

(** ** Messages in the form of the providers ([toAnthropicMessages] in
       [internal/llm/anthropic_client.go], [toOpenAIMessages] in
       [internal/llm/openai_client.go]) *)

Module Providers.
Import Tools ToolLoop.

(** [anthropicContentBlock] *)
Record anthropicContentBlock : Type := {
  BlockType : string;
  BlockText : string;
  BlockID : string;
  BlockName : string;
  BlockInput : string;
  BlockContent : string;
  ToolUseID : string
}.

(** The [Content interface{}] of an [anthropicMessage]: a text, or a list
    of content blocks. *)
Inductive anthropicContent : Type :=
| ContentText (text : string)
| ContentBlocks (blocks : list anthropicContentBlock).

Record anthropicMessage : Type := {
  AnthropicRole : string;
  AnthropicContent : anthropicContent
}.

(** The [aMsg] the loop of [toAnthropicMessages] builds for a message
    that is no system message. *)
Definition anthropicOf (msg : Message) : anthropicMessage :=
  if String.eqb (Role msg) RoleTool then
    {| AnthropicRole := "user";
       AnthropicContent :=
         ContentBlocks
           [{| BlockType := "tool_result"; BlockText := "";
               BlockID := ""; BlockName := ""; BlockInput := "";
               BlockContent := Content msg;
               ToolUseID := ToolCallID msg |}] |}
  else
    {| AnthropicRole := Role msg;
       AnthropicContent := ContentText (Content msg) |}.

(** One turn of the loop of [toAnthropicMessages]. *)
Definition anthropicStep (acc : string * list anthropicMessage)
    (msg : Message) : string * list anthropicMessage :=
  let '(systemPrompt, anthropicMsgs) := acc in
  if String.eqb (Role msg) RoleSystem then (Content msg, anthropicMsgs)
  else (systemPrompt, (anthropicMsgs ++ [anthropicOf msg])%list).

Definition toAnthropicMessages (messages : list Message)
  : string * list anthropicMessage :=
  fold_left anthropicStep messages ("", []).

(** [openAIMessage] *)
Record openAIMessage : Type := {
  OpenAIRole : string;
  OpenAIContent : string;
  OpenAIToolCalls : list ToolCall;
  OpenAIToolCallID : string
}.

Definition toOpenAIMessages (messages : list Message) : list openAIMessage :=
  fold_left
    (fun openAIMsgs msg =>
       let m :=
         if String.eqb (Role msg) RoleTool then
           {| OpenAIRole := Role msg; OpenAIContent := Content msg;
              OpenAIToolCalls := []; OpenAIToolCallID := ToolCallID msg |}
         else if String.eqb (Role msg) RoleAssistant then
           {| OpenAIRole := Role msg; OpenAIContent := Content msg;
              OpenAIToolCalls := ToolCalls msg; OpenAIToolCallID := "" |}
         else
           {| OpenAIRole := Role msg; OpenAIContent := Content msg;
              OpenAIToolCalls := []; OpenAIToolCallID := "" |} in
       (openAIMsgs ++ [m])%list)
    messages [].

(** The system messages of a conversation, and the others. *)
Definition isSystem (msg : Message) : bool := String.eqb (Role msg) RoleSystem.

End Providers.

(** ** More data for the examples *)

Module Scenarios.
Import GoStrings GoNum GoErr Strconv GoTime Redis Profiler Router Handler
  Demo.
Local Open Scope Z_scope.

(** A store out of reach. *)
Definition unreachableDB : DB :=
  {| reachable := false; hashes := ∅; strings := ∅; ttl := ∅ |}.

(** The store after a health check of [gpt-4o] that failed, and after one
    that passed. *)
Definition checkedOfflineDB : DB :=
  UpdateProfileOnHealthCheck costs emptyDB now "gpt-4o" false.

Definition checkedOnlineDB : DB :=
  UpdateProfileOnHealthCheck costs emptyDB now "gpt-4o" true.

(** Four minutes after [now]. *)
Definition later : Time := now + 240 * 1000000000.

(** A request of the conversation [chat-1]. *)
Definition chatRequest (forceModel preference : string) : GenerationRequest :=
  {| ConversationID := "chat-1"; Prompt := "How does Go handle concurrency?";
     History := [];
     Config := {| ForceModel := forceModel; Preference := preference |} |}.

(** Stores in which [chat-1] is pinned to [gpt-4o]: as a forced session
    and as a dynamic one with the model online, and as a forced session
    with the model offline. *)
Definition forcedSessionDB : DB := pinSession profiledDB "chat-1" "gpt-4o" true.

Definition dynamicSessionDB : DB :=
  pinSession profiledDB "chat-1" "gpt-4o" false.

Definition offlineSessionDB : DB :=
  pinSession checkedOfflineDB "chat-1" "gpt-4o" true.

(** Networks: one that fails to connect, then answers 503, then 200; one
    that always answers 503; one that answers 429. *)
Definition flakyNetwork (i : Z) : Retry.Attempt :=
  if i =? 0 then Retry.DoFails (Failure "dial tcp: i/o timeout")
  else if i =? 1 then Retry.Reply 503 "busy"
  else Retry.Reply 200 "{}".

Definition busyNetwork (i : Z) : Retry.Attempt := Retry.Reply 503 "busy".

Definition limitedNetwork (i : Z) : Retry.Attempt :=
  Retry.Reply 429 "slow down".

(** A tool manager that holds the calculator, and a model that asks for
    the calculator once and then answers. *)
Definition calculatorTool : Tools.ToolExecutor :=
  {| Tools.Definition_ :=
       Tools.NewFunctionTool "calculator" "Evaluates an expression."
         (Tools.Schema "object" "" [] []);
     Tools.Execute := Calculator.Execute jsonUnmarshal formatG |}.

Definition toolManager : Tools.ToolManager :=
  Tools.Register Tools.NewToolManager calculatorTool.

Definition toolOrder (tm : Tools.ToolManager)
  : list (string * Tools.ToolExecutor) := map_to_list tm.

Definition usageAdd (u v : Usage) : Usage :=
  {| PromptTokens := PromptTokens u + PromptTokens v;
     CompletionTokens := CompletionTokens u + CompletionTokens v;
     TotalTokens := TotalTokens u + TotalTokens v |}.

Definition calculatorCall : Tools.ToolCall :=
  {| Tools.ID := "call_1"; Tools.CallType := "function";
     Tools.Call := {| Tools.CallName := "calculator";
                      Tools.Arguments := calcArguments "12" "*" "7" |} |}.

Definition calculatingModel : ToolLoop.LLMClient float :=
  fun messages _ _ =>
    if (List.length messages =? 1)%nat then
      ({| ToolLoop.ResultContent := "";
          ToolLoop.ResultToolCalls := [calculatorCall];
          ToolLoop.ResultUsage := usage |}, None)
    else
      ({| ToolLoop.ResultContent := "12 times 7 is 84.";
          ToolLoop.ResultToolCalls := [];
          ToolLoop.ResultUsage := usage |}, None).

(** A model that asks for the calculator whatever it is sent, and one
    that fails. *)
Definition insistingModel : ToolLoop.LLMClient float :=
  fun messages _ _ =>
    ({| ToolLoop.ResultContent := "";
        ToolLoop.ResultToolCalls := [calculatorCall];
        ToolLoop.ResultUsage := usage |}, None).

Definition failingModel : ToolLoop.LLMClient float :=
  fun messages _ _ =>
    ({| ToolLoop.ResultContent := ""; ToolLoop.ResultToolCalls := [];
        ToolLoop.ResultUsage := ToolLoop.noUsage |},
     Some (Failure "status 500")).

Definition toolRequest : ToolLoop.ToolRequest float :=
  {| ToolLoop.Prompt := "what is 12 * 7?"; ToolLoop.History := [];
     ToolLoop.Config :=
       {| ToolLoop.ReqMaxTokens := 256; ToolLoop.ReqTemperature := None;
          ToolLoop.ReqTopP := None; ToolLoop.ReqStream := false |} |}.

(** Stand-ins for the patterns of the prompt analyzer: a phrase of each
    pattern. *)
Definition startsWith (prefix s : string) : bool := HasPrefix s prefix.

(** The versions after a change of the tools. *)
Definition nextVersions : Version.ComponentVersionsT :=
  {| Version.Tools := "v1.1"; Version.RAGData := "v1.0";
     Version.PromptLogic := "v1.0" |}.

(** A conversation with a system message, a tool call and its answer. *)
Definition conversation : list ToolLoop.Message :=
  [{| ToolLoop.Role := "system"; ToolLoop.Content := "Be brief.";
      ToolLoop.ToolCallID := ""; ToolLoop.ToolCalls := [] |};
   {| ToolLoop.Role := "user"; ToolLoop.Content := "what is 12 * 7?";
      ToolLoop.ToolCallID := ""; ToolLoop.ToolCalls := [] |};
   {| ToolLoop.Role := "assistant"; ToolLoop.Content := "";
      ToolLoop.ToolCallID := ""; ToolLoop.ToolCalls := [calculatorCall] |};
   {| ToolLoop.Role := "tool"; ToolLoop.Content := "The result is 84.";
      ToolLoop.ToolCallID := "call_1"; ToolLoop.ToolCalls := [] |}].

End Scenarios.

(** * Properties *)

(** ** Strings *)

Section StringFacts.
Import GoStrings.

Lemma app_nil_l (s : string) : "" ++ s = s.
Proof. reflexivity. Qed.

Lemma app_cons (c : ascii) (s t : string) :
  String c s ++ t = String c (s ++ t).
Proof. reflexivity. Qed.

Lemma app_nil_r (s : string) : s ++ "" = s.
Proof.
  induction s as [|c s IH]; [reflexivity | rewrite app_cons, IH; reflexivity].
Qed.

Lemma app_assoc (s t u : string) : (s ++ t) ++ u = s ++ t ++ u.
Proof.
  induction s as [|c s IH]; [reflexivity | rewrite !app_cons, IH; reflexivity].
Qed.

Lemma HasPrefix_spec (s prefix : string) :
  HasPrefix s prefix = true <-> exists rest, s = prefix ++ rest.
Proof.
  revert s; induction prefix as [|p prefix IH]; intros s; simpl.
  - split; [intros _; exists s; reflexivity | reflexivity].
  - destruct s as [|c s].
    + split; [discriminate | intros [rest H]; discriminate H].
    + rewrite andb_true_iff, Ascii.eqb_eq, IH. split.
      * intros [-> [rest ->]]. exists rest; reflexivity.
      * intros [rest H]. injection H as -> ->. split; [reflexivity | eauto].
Qed.

Lemma Contains_spec (s substr : string) :
  Contains s substr = true <-> exists pre post, s = pre ++ substr ++ post.
Proof.
  induction s as [|c s IH].
  - cbn [Contains]. rewrite orb_false_r, HasPrefix_spec. split.
    + intros [rest H]. exists "", rest. exact H.
    + intros [pre [post H]]. destruct pre; [eauto | discriminate H].
  - cbn [Contains]. rewrite orb_true_iff, HasPrefix_spec, IH. split.
    + intros [[rest H] | [pre [post H]]].
      * exists "", rest. exact H.
      * exists (String c pre), post. now rewrite app_cons, H.
    + intros [pre [post H]]. destruct pre as [|d pre].
      * left; eauto.
      * right. rewrite app_cons in H. injection H as _ H. eauto.
Qed.

Lemma Contains_self (s : string) : Contains s s = true.
Proof.
  apply Contains_spec. exists "", "".
  now rewrite app_nil_l, app_nil_r.
Qed.

End StringFacts.

(** ** Regular expressions: matching by derivatives finds the words *)

Section RegexpFacts.
Import GoStrings Regexp.

Lemma app_eq_empty (s t : string) : s ++ t = "" -> s = "" /\ t = "".
Proof.
  destruct s as [|c s]; [intros H; split; [reflexivity | exact H] |].
  rewrite app_cons. discriminate.
Qed.

Lemma app_eq_cons (s t u : string) (c : ascii) :
  s ++ t = String c u ->
  (s = "" /\ t = String c u) \/ (exists s', s = String c s' /\ u = s' ++ t).
Proof.
  destruct s as [|d s]; [intros H; left; split; [reflexivity | exact H] |].
  rewrite app_cons. intros [= -> <-]. right. exists s. split; reflexivity.
Qed.

Lemma nullable_spec (r : re) : nullable r = true <-> matches r "".
Proof.
  split.
  - induction r as [| | p | r1 IH1 r2 IH2 | r1 IH1 r2 IH2 | r IH]; simpl;
      intros Hn; try discriminate.
    + constructor.
    + apply andb_true_iff in Hn as [H1 H2].
      change "" with ("" ++ ""). constructor; auto.
    + apply orb_true_iff in Hn as [Hn | Hn];
        [apply MAltL | apply MAltR]; auto.
    + constructor.
  - intros Hm. remember "" as s eqn:Es.
    induction Hm as [| p c Hp | r1 r2 s1 s2 H1 IH1 H2 IH2 | r1 r2 s H1 IH1
                     | r1 r2 s H2 IH2 | r | r s1 s2 H1 IH1 H2 IH2]; simpl;
      try reflexivity; try discriminate.
    + apply app_eq_empty in Es as [-> ->]. now rewrite IH1, IH2.
    + now rewrite IH1.
    + rewrite IH2 by assumption. apply orb_true_r.
Qed.

Lemma deriv_sound (c : ascii) (r : re) :
  forall s, matches (deriv c r) s -> matches r (String c s).
Proof.
  induction r as [| | p | r1 IH1 r2 IH2 | r1 IH1 r2 IH2 | r IH];
    intros s Hm; simpl in Hm.
  - inversion Hm.
  - inversion Hm.
  - destruct (p c) eqn:Hp; inversion Hm; subst. now constructor.
  - assert (Hcat : forall t, matches (Cat (deriv c r1) r2) t ->
                             matches (Cat r1 r2) (String c t)).
    { intros t Ht. inversion Ht; subst. rewrite <- app_cons.
      constructor; auto. }
    destruct (nullable r1) eqn:Hn; [| now apply Hcat].
    inversion Hm; subst; [now apply Hcat |].
    rewrite <- (app_nil_l (String c s)).
    constructor; [now apply nullable_spec | auto].
  - inversion Hm; subst; [apply MAltL | apply MAltR]; auto.
  - inversion Hm; subst. rewrite <- app_cons. constructor; auto.
Qed.

Lemma deriv_complete (c : ascii) (r : re) (t : string) :
  matches r t -> forall s, t = String c s -> matches (deriv c r) s.
Proof.
  intros Hm.
  induction Hm as [| p d Hp | r1 r2 s1 s2 H1 IH1 H2 IH2 | r1 r2 t H1 IH1
                   | r1 r2 t H2 IH2 | r | r s1 s2 H1 IH1 H2 IH2];
    intros s Es; simpl.
  - discriminate.
  - injection Es as -> <-. rewrite Hp. constructor.
  - apply app_eq_cons in Es as [[-> ->] | [s' [-> ->]]].
    + apply nullable_spec in H1. rewrite H1. apply MAltR. now apply IH2.
    + assert (Hc : matches (Cat (deriv c r1) r2) (s' ++ s2))
        by (constructor; auto).
      destruct (nullable r1); [now apply MAltL | exact Hc].
  - apply MAltL. now apply IH1.
  - apply MAltR. now apply IH2.
  - discriminate.
  - apply app_eq_cons in Es as [[-> ->] | [s' [-> ->]]].
    + now apply IH2.
    + constructor; auto.
Qed.

Lemma matchAll_spec (s : string) :
  forall r, matchAll r s = true <-> matches r s.
Proof.
  induction s as [|c s IH]; intros r; simpl.
  - apply nullable_spec.
  - rewrite IH. split; [apply deriv_sound |].
    intros Hm. now apply (deriv_complete c r (String c s)).
Qed.

Lemma anyByte_star (s : string) : matches (Star anyByte) s.
Proof.
  induction s as [|c s IH]; [constructor |].
  change (String c s) with (String c "" ++ s).
  constructor; [now constructor | exact IH].
Qed.

(** [MatchString] holds exactly when a part of the string is a word of
    the expression. *)
Lemma MatchString_spec (r : re) (s : string) :
  MatchString r s = true
  <-> exists pre mid post, s = pre ++ mid ++ post /\ matches r mid.
Proof.
  unfold MatchString. rewrite matchAll_spec. split.
  - intros Hm. inversion Hm as [| | r1 r2 pre rest _ Hrest | | | |]; subst.
    inversion Hrest as [| | r1 r2 mid post Hmid _ | | | |]; subst.
    exists pre, mid, post. split; [reflexivity | exact Hmid].
  - intros [pre [mid [post [-> Hmid]]]].
    constructor; [apply anyByte_star |].
    constructor; [exact Hmid | apply anyByte_star].
Qed.
End RegexpFacts.

(** ** Intent analyzer *)

Section IntentFacts.
Import GoStrings Regexp Intent.

Example intent_weather_over_news :
  AnalyzeIntent id "Any NEWS about the Weather today?" = "weather".
Proof. reflexivity. Qed.

Example intent_news : AnalyzeIntent id "Top headlines, 2 + 2" = "news".
Proof. reflexivity. Qed.

Example intent_calculator : AnalyzeIntent id "what is 12 * 7?" = "calculator".
Proof. reflexivity. Qed.

Example intent_rag :
  AnalyzeIntent id "How does Go handle concurrency?" = "rag_knowledge_query".
Proof. reflexivity. Qed.

End IntentFacts.

(** ** SHA-256: the test vectors of FIPS 180-4 *)

Section Sha256Facts.
Import Version.

Example sha256_constants :
  List.length Sha256.K = 64%nat
  /\ nth 0 Sha256.K 0%Z = 0x428a2f98%Z /\ nth 63 Sha256.K 0%Z = 0xc67178f2%Z
  /\ nth 0 Sha256.H0 0%Z = 0x6a09e667%Z /\ nth 7 Sha256.H0 0%Z = 0x5be0cd19%Z.
Proof. repeat split; reflexivity. Qed.

Example sha256_empty :
  promptHash "" =
  "e3b0c44298fc1c149afbf4c8996fb92427ae41e4649b934ca495991b7852b855".
Proof. vm_compute. reflexivity. Qed.

Example sha256_abc :
  promptHash "abc" =
  "ba7816bf8f01cfea414140de5dae2223b00361a396177a9cb410ff61f20015ad".
Proof. vm_compute. reflexivity. Qed.

Example sha256_two_blocks :
  promptHash "abcdbcdecdefdefgefghfghighijhijkijkljklmklmnlmnomnopnopq" =
  "248d6a61d20638b8e5c026930c3e6039a33ce45964ff2167f6ecedd419db06c1".
Proof. vm_compute. reflexivity. Qed.

Example cache_key_example :
  GenerateVersionedCacheKey ComponentVersions "llmcache" "abc" =
  "llmcache:ba7816bf8f01cfea414140de5dae2223b00361a396177a9cb410ff61f20015ad:tvv1.0_rvv1.0_pvv1.0".
Proof. vm_compute. reflexivity. Qed.
End Sha256Facts.

(** ** Intent analyzer: rules in order, first match wins *)

Section IntentRules.
Import GoStrings Regexp Intent.
Variable unicodeToLower : string -> string.

Lemma firstKeyword_Some (lp : string) (keywords : list string) :
  (exists keyword, In keyword keywords /\ Contains lp keyword = true) ->
  exists k, firstKeyword lp keywords = Some k.
Proof.
  induction keywords as [|k ks IH]; intros [kw [Hin Hc]].
  - destruct Hin.
  - simpl. destruct (Contains lp k) eqn:Hk; [eauto |].
    destruct Hin as [-> | Hin]; [congruence | apply IH; eauto].
Qed.

Lemma firstKeyword_None (lp : string) (keywords : list string) :
  ~ (exists keyword, In keyword keywords /\ Contains lp keyword = true) ->
  firstKeyword lp keywords = None.
Proof.
  induction keywords as [|k ks IH]; intros Hno; [reflexivity |].
  simpl. destruct (Contains lp k) eqn:Hk.
  - exfalso. apply Hno. exists k. split; [left; reflexivity | exact Hk].
  - apply IH. intros [kw [Hin Hc]]. apply Hno. exists kw. split; [right |]; assumption.
Qed.

(** C7. The classifier applies its four rules in order and the first
    match wins: a weather keyword anywhere in the lower-cased prompt gives
    [weather]; otherwise a news keyword gives [news]; otherwise a match
    of the calculator expression gives [calculator]; otherwise the result
    is the RAG intent.  The keyword lists are the fixed ones, and a prompt
    with both a weather and a news keyword is classified [weather]. *)
Theorem AnalyzeIntent_first_match_wins (prompt : string) :
  weatherKeywords =
    ["weather"; "forecast"; "temperature"; "how hot is it"; "is it raining"]
  /\ newsKeywords =
    ["news"; "headlines"; "latest on"; "what's happening in"]
  /\ (anyOccurs unicodeToLower weatherKeywords prompt ->
      AnalyzeIntent unicodeToLower prompt = "weather")
  /\ (~ anyOccurs unicodeToLower weatherKeywords prompt ->
      anyOccurs unicodeToLower newsKeywords prompt ->
      AnalyzeIntent unicodeToLower prompt = "news")
  /\ (~ anyOccurs unicodeToLower weatherKeywords prompt ->
      ~ anyOccurs unicodeToLower newsKeywords prompt ->
      expressionOccurs unicodeToLower prompt ->
      AnalyzeIntent unicodeToLower prompt = "calculator")
  /\ (~ anyOccurs unicodeToLower weatherKeywords prompt ->
      ~ anyOccurs unicodeToLower newsKeywords prompt ->
      ~ expressionOccurs unicodeToLower prompt ->
      AnalyzeIntent unicodeToLower prompt = "rag_knowledge_query")
  /\ (anyOccurs unicodeToLower weatherKeywords prompt ->
      anyOccurs unicodeToLower newsKeywords prompt ->
      AnalyzeIntent unicodeToLower prompt = "weather").
Proof.
  unfold anyOccurs, occursFold, expressionOccurs, AnalyzeIntent.
  set (lp := ToLower unicodeToLower prompt).
  repeat split.
  - intros Hw. destruct (firstKeyword_Some lp _ Hw) as [k ->]. reflexivity.
  - intros Hnw Hn. rewrite (firstKeyword_None lp _ Hnw).
    destruct (firstKeyword_Some lp _ Hn) as [k ->]. reflexivity.
  - intros Hnw Hnn Hre. apply MatchString_spec in Hre.
    rewrite (firstKeyword_None lp _ Hnw), (firstKeyword_None lp _ Hnn), Hre.
    reflexivity.
  - intros Hnw Hnn Hre.
    rewrite (firstKeyword_None lp _ Hnw), (firstKeyword_None lp _ Hnn).
    destruct (MatchString calculatorRegex lp) eqn:Hm; [| reflexivity].
    exfalso. apply Hre. now apply MatchString_spec.
  - intros Hw _. destruct (firstKeyword_Some lp _ Hw) as [k ->]. reflexivity.
Qed.
End IntentRules.

(** ** Calculator tool *)

Section CalculatorFacts.
Import GoStrings GoNum GoErr Calculator.
Variable jsonUnmarshal : string -> Args * error.
Variable formatG : float -> string.

Lemma supported_cases (op : string) :
  supported op ->
  {op = "+"} + {op = "-"} + {op = "*"} + {op = "/"}.
Proof.
  intros H.
  destruct (String.eqb op "+") eqn:E1;
    [left; left; left; now apply String.eqb_eq |].
  destruct (String.eqb op "-") eqn:E2;
    [left; left; right; now apply String.eqb_eq |].
  destruct (String.eqb op "*") eqn:E3;
    [left; right; now apply String.eqb_eq |].
  right. destruct H as [H | [H | [H | H]]]; subst; try discriminate.
  reflexivity.
Qed.

(** C8. [Execute] on arguments that [json.Unmarshal] rejects (every text
    that is not valid JSON) returns a Go error whose message holds
    [invalid arguments]; on a division by zero it returns the text
    [Error: Division by zero is not allowed.] and a nil error; on an
    operator outside [+ - * /] it returns a text that begins
    [Error: Unsupported operator] and a nil error; otherwise it returns
    [The result is <value>.] for the float64 result of the operation. *)
Theorem Execute_contract (arguments : string) :
  (forall args e,
      jsonUnmarshal arguments = (args, Some e) ->
      exists msg,
        Execute jsonUnmarshal formatG arguments = ("", Some (Failure msg))
        /\ Contains msg "invalid arguments" = true)
  /\ (forall args,
      jsonUnmarshal arguments = (args, None) ->
      Operator args = "/" -> feq (Operand2 args) 0%float = true ->
      Execute jsonUnmarshal formatG arguments
      = ("Error: Division by zero is not allowed.", None))
  /\ (forall args,
      jsonUnmarshal arguments = (args, None) ->
      ~ supported (Operator args) ->
      exists text,
        Execute jsonUnmarshal formatG arguments = (text, None)
        /\ HasPrefix text "Error: Unsupported operator" = true
        /\ text = "Error: Unsupported operator '" ++ Operator args
                  ++ "'. Please use +, -, *, or /.")
  /\ (forall args,
      jsonUnmarshal arguments = (args, None) ->
      supported (Operator args) ->
      ~ (Operator args = "/" /\ feq (Operand2 args) 0%float = true) ->
      Execute jsonUnmarshal formatG arguments
      = ("The result is "
           ++ formatG (arith (Operator args) (Operand1 args) (Operand2 args))
           ++ ".", None)).
Proof.
  unfold Execute. repeat split.
  - intros args e ->. eexists. split; [reflexivity |].
    apply Contains_spec. exists "", (" for calculator: " ++ Error e).
    reflexivity.
  - intros args -> Hop Hz. rewrite Hop, Hz. reflexivity.
  - intros args -> Hns. unfold supported in Hns.
    destruct (String.eqb_spec (Operator args) "+"); [tauto |].
    destruct (String.eqb_spec (Operator args) "-"); [tauto |].
    destruct (String.eqb_spec (Operator args) "*"); [tauto |].
    destruct (String.eqb_spec (Operator args) "/"); [tauto |].
    eexists. split; [reflexivity |]. split; [| reflexivity].
    apply HasPrefix_spec. eexists. reflexivity.
  - intros args -> Hs Hnz. unfold arith.
    destruct (supported_cases _ Hs) as [[[-> | ->] | ->] | Hd];
      try reflexivity.
    rewrite Hd in *. cbn [String.eqb Ascii.eqb Bool.eqb].
    destruct (feq (Operand2 args) 0%float); [exfalso; auto | reflexivity].
Qed.
End CalculatorFacts.

(** ** Versioned cache keys *)

Section VersionFacts.
Import GoStrings Sha256 Version.

Lemma app_inv_length (s1 s2 t1 t2 : string) :
  s1 ++ t1 = s2 ++ t2 -> String.length s1 = String.length s2 ->
  s1 = s2 /\ t1 = t2.
Proof.
  revert s2; induction s1 as [|c s1 IH]; intros [|d s2] H Hl;
    try discriminate Hl.
  - split; [reflexivity | exact H].
  - rewrite !app_cons in H. injection H as -> H. injection Hl as Hl.
    destruct (IH _ H Hl) as [-> ->]. split; reflexivity.
Qed.

Lemma app_inv_head (s t1 t2 : string) : s ++ t1 = s ++ t2 -> t1 = t2.
Proof.
  intros H. now destruct (app_inv_length s s t1 t2 H eq_refl).
Qed.

(** Two texts cut at their first occurrence of [c] agree piecewise. *)
Lemma app_inv_separator (c : ascii) (s1 s2 t1 t2 : string) :
  freeOf c s1 = true -> freeOf c s2 = true ->
  s1 ++ String c t1 = s2 ++ String c t2 -> s1 = s2 /\ t1 = t2.
Proof.
  revert s2; induction s1 as [|a s1 IH]; intros [|b s2] F1 F2 H.
  - injection H as ->. split; reflexivity.
  - rewrite app_nil_l, app_cons in H. injection H as <- _.
    simpl in F2. rewrite Ascii.eqb_refl in F2. discriminate F2.
  - rewrite app_nil_l, app_cons in H. injection H as -> _.
    simpl in F1. rewrite Ascii.eqb_refl in F1. discriminate F1.
  - rewrite !app_cons in H. injection H as -> H.
    simpl in F1, F2. apply andb_true_iff in F1 as [_ F1].
    apply andb_true_iff in F2 as [_ F2].
    destruct (IH _ F1 F2 H) as [-> ->]. split; reflexivity.
Qed.

Lemma round_length (st : list Z) (kw : Z * Z) :
  List.length st = 8%nat -> List.length (round st kw) = 8%nat.
Proof.
  intros H. do 9 (destruct st as [|? st]; try discriminate H). reflexivity.
Qed.

Lemma rounds_length (kws : list (Z * Z)) (st : list Z) :
  List.length st = 8%nat -> List.length (fold_left round kws st) = 8%nat.
Proof.
  revert st; induction kws as [|kw kws IH]; intros st H; simpl;
    [exact H | apply IH, round_length, H].
Qed.

Lemma compress_length (h block : list Z) :
  List.length h = 8%nat -> List.length (compress h block) = 8%nat.
Proof.
  intros H. unfold compress.
  rewrite length_map, length_combine, rounds_length, H; [reflexivity | exact H].
Qed.

Lemma blocks_length (blocks : list (list Z)) (h : list Z) :
  List.length h = 8%nat ->
  List.length (fold_left compress blocks h) = 8%nat.
Proof.
  revert h; induction blocks as [|b bs IH]; intros h H; simpl;
    [exact H | apply IH, compress_length, H].
Qed.

Lemma be_bytes_length (n : nat) (x : Z) : List.length (be_bytes n x) = n.
Proof. induction n as [|n IH]; simpl; [reflexivity | now rewrite IH]. Qed.

Lemma sum_length (msg : list Z) : List.length (sum msg) = 32%nat.
Proof.
  unfold sum.
  pose proof (blocks_length (chunks 64 (List.length (pad msg)) (pad msg)) H0
                eq_refl) as H.
  generalize dependent (fold_left compress
                          (chunks 64 (List.length (pad msg)) (pad msg)) H0).
  intros st H. do 9 (destruct st as [|? st]; try discriminate H).
  reflexivity.
Qed.

Lemma EncodeToString_length (bs : list Z) :
  String.length (EncodeToString bs) = (2 * List.length bs)%nat.
Proof.
  induction bs as [|b bs IH]; simpl; [reflexivity | rewrite IH; lia].
Qed.

(** The hexadecimal digest always has 64 characters. *)
Lemma promptHash_length (prompt : string) :
  String.length (promptHash prompt) = 64%nat.
Proof.
  unfold promptHash. now rewrite EncodeToString_length, sum_length.
Qed.

Lemma versionString_inj (cv1 cv2 : ComponentVersionsT) :
  separable cv1 -> separable cv2 ->
  versionString cv1 = versionString cv2 -> cv1 = cv2.
Proof.
  destruct cv1 as [t1 r1 p1], cv2 as [t2 r2 p2].
  unfold separable, versionString; simpl.
  intros [Ft1 Fr1] [Ft2 Fr2] H.
  apply (app_inv_head "tv") in H.
  change (t1 ++ String "_" ("rv" ++ r1 ++ "_pv" ++ p1)
          = t2 ++ String "_" ("rv" ++ r2 ++ "_pv" ++ p2)) in H.
  apply app_inv_separator in H as [-> H]; [| assumption ..].
  apply (app_inv_head "rv") in H.
  change (r1 ++ String "_" ("pv" ++ p1) = r2 ++ String "_" ("pv" ++ p2)) in H.
  apply app_inv_separator in H as [-> H]; [| assumption ..].
  apply (app_inv_head "pv") in H. now subst.
Qed.



End VersionFacts.

(** ** Integers as text: writing then reading gives the number back *)

Section StrconvFacts.
Import GoNum Strconv.
Local Open Scope Z_scope.

Lemma digit_cases (d : Z) :
  0 <= d < 10 ->
  d = 0 \/ d = 1 \/ d = 2 \/ d = 3 \/ d = 4 \/ d = 5 \/ d = 6 \/ d = 7
  \/ d = 8 \/ d = 9.
Proof. lia. Qed.

Lemma digitVal_digitChar (d : Z) :
  0 <= d < 10 -> digitVal (digitChar d) = Some d.
Proof.
  intros H. destruct (digit_cases d H) as [-> | [-> | [-> | [-> | [-> | [-> |
    [-> | [-> | [-> | ->]]]]]]]]]; reflexivity.
Qed.

Lemma digitChar_not_sign (d : Z) :
  0 <= d < 10 ->
  Ascii.eqb (digitChar d) "-" = false /\ Ascii.eqb (digitChar d) "+" = false.
Proof.
  intros H. destruct (digit_cases d H) as [-> | [-> | [-> | [-> | [-> | [-> |
    [-> | [-> | [-> | ->]]]]]]]]]; split; reflexivity.
Qed.

Lemma parseUintLoop_step (n d : Z) (c : ascii) (s : string) :
  digitVal c = Some d -> 0 <= n -> n * 10 + d <= maxUint64 -> 0 <= d ->
  parseUintLoop n (String c s) = parseUintLoop (n * 10 + d) s.
Proof.
  intros Hc Hn Hle Hd. cbn [parseUintLoop]. rewrite Hc.
  unfold maxUint64 in *.
  destruct (Z.leb_spec ((2 ^ 64 - 1) / 10 + 1) n) as [Hc1 | Hc1].
  - exfalso.
    assert ((2 ^ 64 - 1) / 10 + 1 = 1844674407370955162) by reflexivity.
    assert (2 ^ 64 - 1 = 18446744073709551615) by reflexivity. lia.
  - destruct (Z.ltb_spec (2 ^ 64 - 1) (n * 10 + d)); [lia | reflexivity].
Qed.

Lemma parse_formatUint (fuel : nat) :
  forall (m : Z) (acc : string),
    0 <= m <= maxUint64 -> m < 10 ^ Z.of_nat fuel ->
    parseUintLoop 0 (formatUint fuel m acc) = parseUintLoop m acc.
Proof.
  induction fuel as [|fuel IH]; intros m acc Hm Hlt.
  - change (10 ^ Z.of_nat 0) with 1 in Hlt. assert (m = 0) as -> by lia.
    reflexivity.
  - cbn [formatUint].
    assert (Hmod : 0 <= m mod 10 < 10) by (apply Z.mod_pos_bound; lia).
    destruct (Z.ltb_spec m 10) as [Hs | Hs].
    + rewrite (parseUintLoop_step 0 (m mod 10));
        [| apply digitVal_digitChar; lia | lia | unfold maxUint64 in *; lia | lia].
      rewrite Z.mod_small by lia. reflexivity.
    + rewrite IH.
      * rewrite (parseUintLoop_step (m / 10) (m mod 10));
          [| apply digitVal_digitChar; lia | apply Z.div_pos; lia | | lia].
        -- f_equal. pose proof (Z.div_mod m 10). lia.
        -- pose proof (Z.div_mod m 10). lia.
      * split; [apply Z.div_pos; lia |].
        pose proof (Z.div_mod m 10). lia.
      * rewrite Nat2Z.inj_succ, Z.pow_succ_r in Hlt by lia.
        apply Z.div_lt_upper_bound; lia.
Qed.

Lemma formatUint_head (fuel : nat) :
  forall (m : Z) (acc : string),
    0 <= m ->
    exists k rest,
      0 <= k < 10 /\ formatUint (S fuel) m acc = String (digitChar k) rest.
Proof.
  induction fuel as [|fuel IH]; intros m acc Hm.
  - cbn [formatUint]. exists (m mod 10), acc.
    split; [apply Z.mod_pos_bound; lia | destruct (m <? 10); reflexivity].
  - cbn [formatUint]. destruct (Z.ltb_spec m 10) as [Hs | Hs].
    + exists (m mod 10), acc. split; [apply Z.mod_pos_bound; lia | reflexivity].
    + apply (IH (m / 10)). apply Z.div_pos; lia.
Qed.

Lemma ParseUint_formatUint (m : Z) :
  0 <= m <= 2 ^ 63 -> ParseUint (formatUint 20 m "") = (m, NoError).
Proof.
  intros Hm.
  assert (H63 : 2 ^ 63 = 9223372036854775808) by reflexivity.
  destruct (formatUint_head 19 m "") as [k [rest [Hk Heq]]]; [lia |].
  unfold ParseUint. rewrite Heq, <- Heq.
  rewrite parse_formatUint; [reflexivity | unfold maxUint64 | ].
  - assert (2 ^ 64 - 1 = 18446744073709551615) by reflexivity. lia.
  - change (10 ^ Z.of_nat 20) with 100000000000000000000. lia.
Qed.

(** Reading the decimal text of a 64-bit integer gives the integer. *)
Lemma ParseInt_FormatInt (z : Z) :
  inInt64 z -> ParseInt (FormatInt z) = z.
Proof.
  unfold inInt64, minInt64, maxInt64, ParseInt, FormatInt. intros Hz.
  assert (H63 : 2 ^ 63 = 9223372036854775808) by reflexivity.
  destruct (Z.ltb_spec z 0) as [Hneg | Hpos].
  - unfold ParseIntErr. change (Ascii.eqb "-" "-") with true.
    change (Ascii.eqb "-" "+" || true) with true. cbn match.
    rewrite ParseUint_formatUint by lia. cbn match. cbn [negb andb].
    destruct (Z.ltb_spec (2 ^ 63) (- z)); [lia |]. cbn [fst]. lia.
  - destruct (formatUint_head 19 z "") as [k [rest [Hk Heq]]]; [lia |].
    destruct (digitChar_not_sign k Hk) as [Hm Hp].
    rewrite Heq. unfold ParseIntErr. rewrite Hm, Hp. cbn [orb]. cbn match.
    rewrite <- Heq, ParseUint_formatUint by lia. cbn match. cbn [negb andb].
    destruct (Z.leb_spec (2 ^ 63) z); [lia |]. reflexivity.
Qed.

(** The server reads the text the client wrote for an integer. *)
Lemma string2ll_FormatInt (z : Z) :
  inInt64 z -> Redis.string2ll (FormatInt z) = Some z.
Proof.
  intros Hz. unfold Redis.string2ll.
  rewrite ParseInt_FormatInt by exact Hz. now rewrite String.eqb_refl.
Qed.
End StrconvFacts.

(** ** The store: what each command changes *)

Section RedisFacts.
Import GoNum GoErr Strconv GoTime Redis.
Local Open Scope Z_scope.

Lemma hashAt_insert (db : DB) (k k' : string) (h : gmap string string) :
  hashAt (withHashes db (<[k := h]> (hashes db))) k'
  = if decide (k = k') then h else hashAt db k'.
Proof.
  unfold hashAt, withHashes; simpl. destruct (decide (k = k')) as [-> | Hne].
  - now rewrite lookup_insert_eq.
  - now rewrite lookup_insert_ne.
Qed.

Lemma fieldAt_insert (db : DB) (k k' f g v : string) :
  fieldAt (withHashes db (<[k := <[f := v]> (hashAt db k)]> (hashes db))) k' g
  = if decide (k = k' /\ f = g) then Some v else fieldAt db k' g.
Proof.
  unfold fieldAt. rewrite hashAt_insert.
  destruct (decide (k = k')) as [-> | Hne].
  - destruct (decide (f = g)) as [-> | Hfg].
    + rewrite lookup_insert_eq. now rewrite decide_True.
    + rewrite lookup_insert_ne by exact Hfg. rewrite decide_False; tauto.
  - rewrite decide_False; tauto.
Qed.

Ltac frame_goals :=
  try reflexivity; try assumption; try (simpl; congruence).

(** [HSET] within reach. *)
Lemma HSet_ok (db : DB) (k f v : string) :
  reachable db = true ->
  HSet db k f v
  = (None, withHashes db (<[k := <[f := v]> (hashAt db k)]> (hashes db))).
Proof. intros H. unfold HSet. now rewrite H. Qed.

Lemma HSet_effect (db db' : DB) (k f v : string) (e : error) :
  HSet db k f v = (e, db') ->
  reachable db' = reachable db
  /\ strings db' = strings db
  /\ (forall k' g, ~ (k = k' /\ f = g) -> fieldAt db' k' g = fieldAt db k' g)
  /\ (reachable db = true -> e = None /\ fieldAt db' k f = Some v).
Proof.
  unfold HSet. destruct (reachable db) eqn:R; intros [= <- <-];
    (split; [| split; [| split]]); frame_goals.
  - intros k' g Hne. rewrite fieldAt_insert. now rewrite decide_False.
  - intros _. split; [reflexivity |].
    rewrite fieldAt_insert. now rewrite decide_True.
Qed.

Lemma HIncrBy_effect (db db' : DB) (k f : string) (n v : Z) (e : error) :
  HIncrBy db k f n = (v, e, db') ->
  reachable db' = reachable db
  /\ strings db' = strings db
  /\ (forall k' g, ~ (k = k' /\ f = g) -> fieldAt db' k' g = fieldAt db k' g)
  /\ (e = None ->
      reachable db = true /\ inInt64 v
      /\ fieldAt db' k f = Some (FormatInt v)).
Proof.
  unfold HIncrBy. destruct (reachable db) eqn:R.
  - destruct (match hashAt db k !! f with
              | Some s => string2ll s
              | None => Some 0
              end) as [o |].
    + destruct ((minInt64 <=? o + n) && (o + n <=? maxInt64)) eqn:Hr;
        intros [= <- <- <-];
        (split; [| split; [| split]]); frame_goals; try discriminate.
      * intros k' g Hne. rewrite fieldAt_insert. now rewrite decide_False.
      * intros _. apply andb_true_iff in Hr as [H1 H2].
        apply Z.leb_le in H1, H2.
        split; [reflexivity | split; [split; assumption |]].
        rewrite fieldAt_insert. now rewrite decide_True.
    + intros [= <- <- <-].
      (split; [| split; [| split]]); frame_goals; discriminate.
  - intros [= <- <- <-].
    (split; [| split; [| split]]); frame_goals; discriminate.
Qed.

Lemma HGet_effect (db : DB) (k f v : string) (e : error) :
  HGet db k f = (v, e) ->
  (reachable db = true -> v = fieldOf (hashAt db k) f)
  /\ (e = None -> reachable db = true /\ fieldAt db k f = Some v)
  /\ (forall msg, e = Some (Failure msg) -> reachable db = false).
Proof.
  unfold HGet, fieldAt, fieldOf. destruct (reachable db) eqn:R.
  - destruct (hashAt db k !! f) as [s |]; intros [= <- <-];
      (split; [reflexivity | split; [| discriminate]]).
    + intros _. split; reflexivity.
    + discriminate.
  - intros [= <- <-]. split; [discriminate | split; [discriminate |]].
    reflexivity.
Qed.

Lemma Expire_effect (db db' : DB) (k : string) (d : Duration) (e : error) :
  Expire db k d = (e, db') ->
  reachable db' = reachable db /\ hashes db' = hashes db
  /\ strings db' = strings db.
Proof.
  unfold Expire. destruct (reachable db) eqn:R;
    [destruct (present _ || present _) |]; intros [= <- <-];
    (split; [| split]); frame_goals.
Qed.

Lemma IncrByFloat_effect `{GoLib} (db db' : DB) (k : string) (x : float)
    (e : error) :
  IncrByFloat db k x = (e, db') ->
  reachable db' = reachable db /\ hashes db' = hashes db.
Proof.
  unfold IncrByFloat. destruct (reachable db) eqn:R;
    [destruct (ServerIncrByFloat _ _) |]; intros [= <- <-];
    split; frame_goals.
Qed.

Lemma fieldAt_same_hashes (db db' : DB) (k f : string) :
  hashes db' = hashes db -> fieldAt db' k f = fieldAt db k f.
Proof. unfold fieldAt, hashAt. now intros ->. Qed.

Lemma fieldOf_fieldAt (db : DB) (k f v : string) :
  fieldAt db k f = Some v -> fieldOf (hashAt db k) f = v.
Proof. unfold fieldAt, fieldOf. now intros ->. Qed.

Lemma firstErr_None (es : list error) :
  firstErr es = None -> Forall (fun e => e = None) es.
Proof.
  induction es as [|[e |] es IH]; simpl; intros H;
    [constructor | discriminate | constructor; auto].
Qed.
End RedisFacts.

(** ** Conversion of [float64] to [int64] discards the fraction *)

Section FloatFacts.
Import GoNum.
Local Open Scope Z_scope.

Lemma truncation_of_quotient (m den : Z) :
  0 < m -> 0 < den ->
  truncationOf m den (m / den) /\ truncationOf (- m) den (- (m / den)).
Proof.
  intros Hm Hd. pose proof (Z.div_mod m den ltac:(lia)) as Hdm.
  pose proof (Z.mod_pos_bound m den Hd) as Hmod.
  assert (Hq : 0 <= m / den) by (apply Z.div_pos; lia).
  assert (Hqd : 0 <= m / den * den) by (apply Z.mul_nonneg_nonneg; lia).
  unfold truncationOf. split; (split; [exact Hd |]); split; lia.
Qed.

Lemma int64_of_float_truncates (f : float) (num den : Z) :
  exactFraction f = Some (num, den) ->
  minInt64 * den <= num <= maxInt64 * den ->
  truncationOf num den (int64_of_float f).
Proof.
  unfold exactFraction, int64_of_float.
  assert (H63 : 2 ^ 63 = 9223372036854775808) by reflexivity.
  destruct (Prim2SF f) as [sg | sg | | sg m e]; try discriminate.
  - intros [= <- <-] _. unfold truncationOf. lia.
  - destruct (Z.leb_spec 0 e) as [He | He]; intros [= <- <-] Hr.
    + assert (Hp : 0 < 2 ^ e) by (apply Z.pow_pos_nonneg; lia).
      assert (Hv : (if sg then - (Z.pos m * 2 ^ e) else Z.pos m * 2 ^ e)
                   = (if sg then - Z.pos m else Z.pos m) * 2 ^ e)
        by (destruct sg; lia).
      cbv zeta. rewrite Hv.
      set (v := (if sg then - Z.pos m else Z.pos m) * 2 ^ e) in *.
      unfold minInt64, maxInt64 in *.
      destruct (Z.leb_spec (- 2 ^ 63) v); [| lia].
      destruct (Z.leb_spec v (2 ^ 63 - 1)); [| lia].
      cbn [andb]. unfold truncationOf. lia.
    + assert (Hp : 0 < 2 ^ (- e)) by (apply Z.pow_pos_nonneg; lia).
      destruct (truncation_of_quotient (Z.pos m) (2 ^ (- e)) ltac:(lia) Hp)
        as [Tp Tn].
      assert (Hq : 0 <= Z.pos m / 2 ^ (- e)) by (apply Z.div_pos; lia).
      pose proof (Z.div_mod (Z.pos m) (2 ^ (- e)) ltac:(lia)) as Hdm.
      pose proof (Z.mod_pos_bound (Z.pos m) (2 ^ (- e)) Hp) as Hmod.
      cbv zeta. unfold minInt64, maxInt64 in *.
      set (q := Z.pos m / 2 ^ (- e)) in *. set (d := 2 ^ (- e)) in *.
      destruct sg.
      * assert (q <= 2 ^ 63) by nia.
        destruct (Z.leb_spec (- 2 ^ 63) (- q)); [| lia].
        destruct (Z.leb_spec (- q) (2 ^ 63 - 1)); [| lia].
        exact Tn.
      * assert (q <= 2 ^ 63 - 1) by nia.
        destruct (Z.leb_spec (- 2 ^ 63) q); [| lia].
        destruct (Z.leb_spec q (2 ^ 63 - 1)); [| lia].
        exact Tp.
Qed.
End FloatFacts.

(** ** The profiler *)

Section ProfilerFacts.
Import GoNum GoErr Strconv GoTime Redis Profiler.
Local Open Scope Z_scope.
Context `{GoLib}.
Variable modelCosts : gmap string (gmap string float).

(** A second [HSET] on the hash a first one wrote. *)
Lemma HSet_again (db : DB) (k f v : string) (h : gmap string string) :
  reachable db = true ->
  HSet (withHashes db (<[k := h]> (hashes db))) k f v
  = (None, withHashes db (<[k := <[f := v]> h]> (hashes db))).
Proof.
  intros R. rewrite HSet_ok by exact R.
  rewrite hashAt_insert, decide_True by reflexivity.
  cbn [hashes withHashes]. now rewrite insert_insert_eq.
Qed.

Lemma default_costs (modelID k : string) :
  costOf
    match modelCosts !! modelID with
    | Some costs => costs
    | None => <["input" := 0%float]> (<["output" := 0%float]> ∅)
    end k
  = modelCost modelCosts modelID k.
Proof.
  unfold modelCost, costOf. destruct (modelCosts !! modelID) as [c |];
    [reflexivity |]. simpl. rewrite lookup_empty. simpl.
  destruct (decide (k = "input")) as [-> | Hi];
    [now rewrite lookup_insert_eq |].
  rewrite lookup_insert_ne by congruence.
  destruct (decide (k = "output")) as [-> | Ho];
    [now rewrite lookup_insert_eq |].
  rewrite lookup_insert_ne by congruence. now rewrite lookup_empty.
Qed.

(** C3, as the code has it.  [GetProfile] on a model whose profile hash
    is absent, with the store within reach, creates and returns the
    default profile: latency 2000 ms, status online, the configured
    per-token costs, no failure and no token counted, and one success
    counted ([total_successes] starts from 1, not from 0). *)
Theorem GetProfile_creates_default
    (db : DB) (now : Time) (modelID : string) :
  reachable db = true ->
  hashAt db (getProfileKey modelID) = ∅ ->
  default_profile_as_built modelCosts modelID
    (GetProfile modelCosts db now modelID).
Proof.
  intros R He. unfold default_profile_as_built, GetProfile, HGetAll.
  rewrite R, He. rewrite bool_decide_eq_true_2 by reflexivity.
  unfold createDefaultProfile.
  rewrite HSet_ok by exact R. cbv iota beta.
  repeat (rewrite HSet_again by exact R; cbv iota beta).
  eexists. eexists. split; [reflexivity |].
  cbn [ModelID AvgLatencyMS Status TotalSuccesses TotalFailures
         TotalInputTokens TotalOutputTokens CostPerInputToken
         CostPerOutputToken].
  rewrite !default_costs.
  repeat (split; [reflexivity |]).
  unfold fieldAt. rewrite hashAt_insert, decide_True by reflexivity.
  repeat split;
    repeat (rewrite lookup_insert_ne by discriminate);
    rewrite lookup_insert_eq; reflexivity.
Qed.

Ltac other_field :=
  let Hc := fresh in intros [_ Hc]; discriminate Hc.

(** What the pipeline of [UpdateProfileOnSuccess] leaves in the profile
    hash: the latency and the error rate are not touched, and when [Exec]
    returns no error the success counter holds the incremented value and
    the failure counter the text that was read. *)
Lemma successPipeline_effect (db db' : DB) (now : Time) (modelID : string)
    (usage : Usage) (s : Z) (f : string) (e : error) :
  successPipeline modelCosts db now modelID usage = (s, f, e, db') ->
  reachable db' = reachable db
  /\ fieldAt db' (getProfileKey modelID) "avg_latency_ms"
     = fieldAt db (getProfileKey modelID) "avg_latency_ms"
  /\ fieldAt db' (getProfileKey modelID) "error_rate"
     = fieldAt db (getProfileKey modelID) "error_rate"
  /\ (e = None ->
      reachable db = true /\ inInt64 s
      /\ fieldAt db' (getProfileKey modelID) "total_successes"
         = Some (FormatInt s)
      /\ fieldAt db' (getProfileKey modelID) "total_failures" = Some f).
Proof.
  unfold successPipeline. set (key := getProfileKey modelID).
  destruct (HIncrBy db key "total_successes" 1) as [[s1 e1] db1] eqn:E1.
  destruct (HGet db1 key "total_failures") as [f2 e2] eqn:E2.
  destruct (HIncrBy db1 key "total_input_tokens" (PromptTokens usage))
    as [[s3 e3] db3] eqn:E3.
  destruct (HIncrBy db3 key "total_output_tokens" (CompletionTokens usage))
    as [[s4 e4] db4] eqn:E4.
  destruct (HSet db4 key "status" "online") as [e5 db5] eqn:E5.
  destruct (IncrByFloat db5 (costKey now modelID) _) as [e6 db6] eqn:E6.
  destruct (Expire db6 (costKey now modelID) _) as [e7 db7] eqn:E7.
  intros [= <- <- <- <-].
  destruct (HIncrBy_effect _ _ _ _ _ _ _ E1) as (R1 & _ & F1 & O1).
  destruct (HGet_effect _ _ _ _ _ E2) as (_ & O2 & _).
  destruct (HIncrBy_effect _ _ _ _ _ _ _ E3) as (R3 & _ & F3 & _).
  destruct (HIncrBy_effect _ _ _ _ _ _ _ E4) as (R4 & _ & F4 & _).
  destruct (HSet_effect _ _ _ _ _ _ E5) as (R5 & _ & F5 & _).
  destruct (IncrByFloat_effect _ _ _ _ _ E6) as (R6 & H6).
  destruct (Expire_effect _ _ _ _ _ E7) as (R7 & H7 & _).
  assert (Fr : forall g,
             g <> "total_successes" -> g <> "total_input_tokens" ->
             g <> "total_output_tokens" -> g <> "status" ->
             fieldAt db7 key g = fieldAt db key g).
  { intros g G1 G2 G3 G4.
    rewrite (fieldAt_same_hashes db6 db7) by exact H7.
    rewrite (fieldAt_same_hashes db5 db6) by exact H6.
    rewrite F5, F4, F3, F1 by (intros [_ Hc]; congruence). reflexivity. }
  split; [congruence |].
  split; [apply Fr; discriminate |].
  split; [apply Fr; discriminate |].
  intros He. simpl in He.
  destruct e1; [discriminate |]. destruct e2; [discriminate |].
  destruct (O1 eq_refl) as (Rd & Is & Fs). destruct (O2 eq_refl) as (_ & Ff).
  split; [exact Rd |]. split; [exact Is |]. split.
  - rewrite (fieldAt_same_hashes db6 db7) by exact H7.
    rewrite (fieldAt_same_hashes db5 db6) by exact H6.
    rewrite F5, F4, F3 by other_field. exact Fs.
  - rewrite (fieldAt_same_hashes db6 db7) by exact H7.
    rewrite (fieldAt_same_hashes db5 db6) by exact H6.
    rewrite F5, F4, F3 by other_field. exact Ff.
Qed.

Lemma failurePipeline_effect (db db' : DB) (modelID : string)
    (n : Z) (s : string) (e : error) :
  failurePipeline db modelID = (n, s, e, db') ->
  reachable db' = reachable db
  /\ (e = None ->
      reachable db = true /\ inInt64 n
      /\ fieldAt db' (getProfileKey modelID) "total_failures"
         = Some (FormatInt n)
      /\ fieldAt db' (getProfileKey modelID) "total_successes" = Some s).
Proof.
  unfold failurePipeline. set (key := getProfileKey modelID).
  destruct (HIncrBy db key "total_failures" 1) as [[n1 e1] db1] eqn:E1.
  destruct (HGet db1 key "total_successes") as [s2 e2] eqn:E2.
  destruct (HSet db1 key "status" "degraded") as [e3 db3] eqn:E3.
  intros [= <- <- <- <-].
  destruct (HIncrBy_effect _ _ _ _ _ _ _ E1) as (R1 & _ & F1 & O1).
  destruct (HGet_effect _ _ _ _ _ E2) as (_ & O2 & _).
  destruct (HSet_effect _ _ _ _ _ _ E3) as (R3 & _ & F3 & _).
  split; [congruence |].
  intros He. simpl in He.
  destruct e1; [discriminate |]. destruct e2; [discriminate |].
  destruct (O1 eq_refl) as (Rd & Is & Fs). destruct (O2 eq_refl) as (_ & Ff).
  split; [exact Rd |]. split; [exact Is |]. split.
  - rewrite F3 by other_field. exact Fs.
  - rewrite F3 by other_field. exact Ff.
Qed.

(** The latency update inside [rdb.Watch], store within reach. *)
Lemma updateLatency_effect (db : DB) (modelID : string) (latency : Duration) :
  reachable db = true ->
  let key := getProfileKey modelID in
  let db' := updateLatency db key latency in
  reachable db' = true
  /\ fieldAt db' key "avg_latency_ms"
     = Some (FormatInt
               (newLatency (Milliseconds latency)
                  (ParseInt (fieldOf (hashAt db key) "avg_latency_ms")))).
Proof.
  intros R key db'. subst db'. unfold updateLatency.
  destruct (HGet db key "avg_latency_ms") as [cur e] eqn:E.
  destruct (HGet_effect _ _ _ _ _ E) as (Hv & _ & Hf).
  rewrite (Hv R).
  assert (Hs : forall v,
             reachable (snd (HSet db key "avg_latency_ms" v)) = true
             /\ fieldAt (snd (HSet db key "avg_latency_ms" v)) key
                  "avg_latency_ms" = Some v).
  { intros v. destruct (HSet db key "avg_latency_ms" v) as [e' d] eqn:E'.
    destruct (HSet_effect _ _ _ _ _ _ E') as (R' & _ & _ & O').
    simpl. split; [congruence | apply (O' R)]. }
  destruct e as [[| msg] |]; try apply Hs.
  specialize (Hf msg eq_refl). congruence.
Qed.

(** C4, as the code has it.  With the store within reach, the latency
    that [UpdateProfileOnSuccess] stores is the [float64] sum
    [alpha * observed + (1 - alpha) * previous] converted to [int64]:
    the sum with its fraction discarded, and so less than 1 away from
    that sum whenever the sum fits 64 bits.  It is not the sum rounded to
    the nearest integer. *)
Theorem latency_update_truncates
    (db : DB) (now : Time) (modelID : string) (latency : Duration)
    (usage : Usage) :
  reachable db = true ->
  latency_update_as_built modelCosts db now modelID latency usage.
Proof.
  intros R. unfold latency_update_as_built.
  set (key := getProfileKey modelID).
  set (observed := Milliseconds latency).
  set (previous := ParseInt (fieldOf (hashAt db key) "avg_latency_ms")).
  split; [| split; [reflexivity | intros num den; apply int64_of_float_truncates]].
  destruct (updateLatency_effect db modelID latency R) as (R1 & L1).
  fold key in R1, L1. fold observed previous in L1.
  unfold UpdateProfileOnSuccess. fold key.
  destruct (successPipeline modelCosts (updateLatency db key latency) now
              modelID usage) as [[[s f] e] db2] eqn:E.
  destruct (successPipeline_effect _ _ _ _ _ _ _ _ E) as (R2 & L2 & _ & _).
  fold key in L2. destruct e as [e |]; [now rewrite L2 |].
  destruct (0 <? add64 s (ParseInt f)); [| now rewrite L2].
  destruct (HSet db2 key "error_rate" _) as [e' db3] eqn:E3.
  destruct (HSet_effect _ _ _ _ _ _ E3) as (_ & _ & F3 & _).
  simpl. rewrite F3 by other_field. now rewrite L2.
Qed.

Lemma stored_counter (db : DB) (modelID field : string) (v : Z) :
  inInt64 v ->
  fieldAt db (getProfileKey modelID) field = Some (FormatInt v) ->
  ParseInt (fieldOf (hashAt db (getProfileKey modelID)) field) = v.
Proof.
  intros Hv Hf. rewrite (fieldOf_fieldAt _ _ _ _ Hf).
  now apply ParseInt_FormatInt.
Qed.

(** C5, as the code has it.  After [UpdateProfileOnSuccess] and after
    [UpdateProfileOnFailure], when [Exec] reported no error for the
    pipeline of the update, the stored [error_rate] is the text of
    [total_failures / (total_successes + total_failures)] for the stored
    counters, whenever their sum is positive: the rate is recomputed on
    every such update. *)
Theorem error_rate_recomputed :
  (forall db now modelID latency usage s f db1,
      successPipeline modelCosts
        (updateLatency db (getProfileKey modelID) latency) now modelID usage
      = (s, f, None, db1) ->
      error_rate_as_specified
        (UpdateProfileOnSuccess modelCosts db now modelID latency usage)
        modelID)
  /\ (forall db modelID n s db1,
        failurePipeline db modelID = (n, s, None, db1) ->
        error_rate_as_specified (UpdateProfileOnFailure db modelID) modelID).
Proof.
  split.
  - intros db now modelID latency usage s f db1 E.
    unfold UpdateProfileOnSuccess. rewrite E.
    destruct (successPipeline_effect _ _ _ _ _ _ _ _ E)
      as (R1 & _ & _ & O).
    destruct (O eq_refl) as (R & Is & Fs & Ff). clear O.
    assert (R1' : reachable db1 = true) by congruence.
    unfold error_rate_as_specified, storedSuccesses, storedFailures,
      storedErrorRate.
    destruct (Z.ltb_spec 0 (add64 s (ParseInt f))) as [Hpos | Hnpos].
    + destruct (HSet db1 (getProfileKey modelID) "error_rate" _)
        as [e' db2] eqn:E2.
      destruct (HSet_effect _ _ _ _ _ _ E2) as (_ & _ & F2 & O2).
      destruct (O2 R1') as (_ & Fe). simpl.
      rewrite (stored_counter db2 modelID "total_successes" s Is)
        by (rewrite F2 by other_field; exact Fs).
      assert (Hff : fieldOf (hashAt db2 (getProfileKey modelID))
                      "total_failures" = f)
        by (apply fieldOf_fieldAt; rewrite F2 by other_field; exact Ff).
      rewrite Hff. intros _. now apply fieldOf_fieldAt.
    + rewrite (stored_counter db1 modelID "total_successes" s Is Fs).
      rewrite (fieldOf_fieldAt _ _ _ _ Ff). lia.
  - intros db modelID n s db1 E.
    unfold UpdateProfileOnFailure. rewrite E.
    destruct (failurePipeline_effect _ _ _ _ _ _ E) as (R1 & O).
    destruct (O eq_refl) as (R & In & Fn & Fs). clear O.
    assert (R1' : reachable db1 = true) by congruence.
    unfold error_rate_as_specified, storedSuccesses, storedFailures,
      storedErrorRate.
    destruct (Z.ltb_spec 0 (add64 (ParseInt s) n)) as [Hpos | Hnpos].
    + destruct (HSet db1 (getProfileKey modelID) "error_rate" _)
        as [e' db2] eqn:E2.
      destruct (HSet_effect _ _ _ _ _ _ E2) as (_ & _ & F2 & O2).
      destruct (O2 R1') as (_ & Fe). simpl.
      rewrite (stored_counter db2 modelID "total_failures" n In)
        by (rewrite F2 by other_field; exact Fn).
      assert (Hss : fieldOf (hashAt db2 (getProfileKey modelID))
                      "total_successes" = s)
        by (apply fieldOf_fieldAt; rewrite F2 by other_field; exact Fs).
      rewrite Hss. intros _. now apply fieldOf_fieldAt.
    + rewrite (stored_counter db1 modelID "total_failures" n In Fn).
      rewrite (fieldOf_fieldAt _ _ _ _ Fs). lia.
Qed.

End ProfilerFacts.

Section ProfilerExamples.
Import GoNum GoErr Strconv GoTime Redis Profiler Demo.
Local Open Scope Z_scope.

Lemma GetProfile_creates_default_witness :
  default_profile_as_built costs "gpt-4o"
    (GetProfile costs emptyDB now "gpt-4o").
Proof.
  apply (GetProfile_creates_default costs emptyDB now "gpt-4o");
    vm_compute; reflexivity.
Defined.

(** The specification's wording of C3 fails on the code: the default
    profile of [gpt-4o] on an empty store has [total_successes] at 1. *)
Lemma default_profile_counts_a_success :
  ~ default_profile_as_specified costs "gpt-4o"
      (fst (fst (GetProfile costs emptyDB now "gpt-4o"))).
Proof.
  intros [p [Hp [_ [_ [Hs _]]]]].
  vm_compute in Hp. injection Hp as <-. discriminate Hs.
Qed.
(** The specification's wording of C4 fails on the code: a call of
    1509 ms on the default average of 2000 ms gives the [float64] sum
    1950.9, which the conversion to [int64] makes 1950, while 1950.9
    rounded to the nearest integer is 1951. *)
Lemma latency_update_does_not_round :
  fieldAt
    (UpdateProfileOnSuccess costs profiledDB now "gpt-4o"
       (1509 * Millisecond) usage)
    "profile:gpt-4o" "avg_latency_ms"
  <> Some (FormatInt (newLatency_as_specified 1509 2000)).
Proof. vm_compute. discriminate. Qed.

Example latency_update_example :
  newLatency 1509 2000 = 1950 /\ newLatency_as_specified 1509 2000 = 1951
  /\ newLatency 1500 2000 = 1950
  /\ newLatency 9 0 = 0 /\ newLatency_as_specified 9 0 = 1.
Proof. vm_compute. repeat split; reflexivity. Qed.

Lemma latency_update_truncates_witness :
  reachable profiledDB = true
  /\ latency_update_as_built costs profiledDB now "gpt-4o" latency usage.
Proof.
  split; [vm_compute; reflexivity |].
  apply (latency_update_truncates costs profiledDB now "gpt-4o" latency usage).
  vm_compute; reflexivity.
Defined.

Example success_update_example :
  let db := UpdateProfileOnSuccess costs profiledDB now "gpt-4o" latency usage in
  fieldAt db "profile:gpt-4o" "avg_latency_ms" = Some "1950"
  /\ fieldAt db "profile:gpt-4o" "total_successes" = Some "2"
  /\ fieldAt db "profile:gpt-4o" "error_rate" = Some "0".
Proof. vm_compute. repeat split; reflexivity. Qed.

Lemma error_rate_recomputed_witness :
  error_rate_as_specified
    (UpdateProfileOnSuccess costs profiledDB now "gpt-4o" latency usage)
    "gpt-4o"
  /\ error_rate_as_specified (UpdateProfileOnFailure profiledDB "gpt-4o")
       "gpt-4o".
Proof.
  split.
  - eapply (proj1 (error_rate_recomputed costs)). vm_compute. reflexivity.
  - eapply (proj2 (error_rate_recomputed costs)). vm_compute. reflexivity.
Defined.

(** The specification's wording of C5 fails on the code.  On a store that
    holds no profile for [gpt-4o], [UpdateProfileOnFailure] counts the
    failure, but the [HGET] of the missing [total_successes] makes [Exec]
    report [redis.Nil] (the client reports the error of the first command
    that failed, and a missing field is one), so the function returns
    before it writes [error_rate]: one failure out of one request is
    stored with no error rate. *)
Lemma error_rate_not_recomputed_on_pipeline_error :
  ~ error_rate_as_specified (UpdateProfileOnFailure emptyDB "gpt-4o") "gpt-4o".
Proof.
  unfold error_rate_as_specified. intros Hinv.
  assert (Hpos : 0 < add64
                       (storedSuccesses
                          (UpdateProfileOnFailure emptyDB "gpt-4o") "gpt-4o")
                       (storedFailures
                          (UpdateProfileOnFailure emptyDB "gpt-4o") "gpt-4o"))
    by (vm_compute; reflexivity).
  specialize (Hinv Hpos). vm_compute in Hinv. discriminate Hinv.
Qed.

Example failure_on_empty_store :
  let db := UpdateProfileOnFailure emptyDB "gpt-4o" in
  fieldAt db "profile:gpt-4o" "total_failures" = Some "1"
  /\ fieldAt db "profile:gpt-4o" "total_successes" = None
  /\ fieldAt db "profile:gpt-4o" "error_rate" = None.
Proof. vm_compute. repeat split; reflexivity. Qed.
End ProfilerExamples.

(** ** The router *)

Section RouterFacts.
Import GoStrings GoNum GoErr Strconv GoTime Redis Profiler Router.
Local Open Scope Z_scope.
Variable config : RouterConfig.


Lemma passesPreChecks_complete (now : Time) (profile : ModelProfile)
    (monthlyBudget : float) :
  ~ failsPreCheck config now profile monthlyBudget ->
  passesPreChecks config now profile monthlyBudget = (true, Passed).
Proof.
  unfold passesPreChecks, failsPreCheck. intros Hn.
  destruct (String.eqb_spec (Status profile) "offline") as [Ho | Ho];
    [tauto |].
  destruct (Z.ltb_spec (health_check_staleness (Thresholds config))
              (Since now (LastHealthCheck profile))) as [Hs | Hs];
    [tauto |].
  destruct (fgt monthlyBudget 0) eqn:Hb1;
    destruct (fge (CostSpentMonthly profile) monthlyBudget) eqn:Hb2;
    cbn [andb]; try tauto;
    (destruct (Z.ltb_spec (min_request_count (Thresholds config))
                 (add64 (TotalSuccesses profile) (TotalFailures profile)))
       as [Hm | Hm]; cbn [andb]; [| reflexivity];
     destruct (fgt (ErrorRate profile) (max_error_rate (Thresholds config)))
       eqn:He; [tauto | reflexivity]).
Qed.

Lemma Since_past (now : Time) (d : Duration) :
  inInt64 d -> Since now (now - d) = d.
Proof.
  unfold Since, Sub, inInt64. intros Hd.
  replace (now - (now - d)) with d by lia. lia.
Qed.

(** C6.  A health check that lies exactly [health_check_staleness] in the
    past passes the staleness check (and the profile passes the pre-checks
    when it fails no other one); a health check that lies any duration
    beyond it in the past, one microsecond more in particular, excludes
    the model. *)
Theorem staleness_boundary (now : Time) (profile : ModelProfile)
    (monthlyBudget : float) :
  let staleness := health_check_staleness (Thresholds config) in
  inInt64 staleness ->
  (LastHealthCheck profile = now - staleness ->
   snd (passesPreChecks config now profile monthlyBudget) <> StaleHealthCheck
   /\ (Status profile <> "offline" ->
       (fgt monthlyBudget 0%float
        && fge (CostSpentMonthly profile) monthlyBudget = false) ->
       ((min_request_count (Thresholds config)
         <? add64 (TotalSuccesses profile) (TotalFailures profile))
        && fgt (ErrorRate profile) (max_error_rate (Thresholds config))
        = false) ->
       passesPreChecks config now profile monthlyBudget = (true, Passed)))
  /\ (forall d : Duration,
         staleness < d -> d <= maxInt64 ->
         LastHealthCheck profile = now - d ->
         fst (passesPreChecks config now profile monthlyBudget) = false)
  /\ (staleness + 1000 <= maxInt64 ->
      LastHealthCheck profile = now - (staleness + 1000) ->
      fst (passesPreChecks config now profile monthlyBudget) = false).
Proof.
  intros staleness Hin.
  assert (Hbeyond : forall d : Duration,
             staleness < d -> d <= maxInt64 ->
             LastHealthCheck profile = now - d ->
             fst (passesPreChecks config now profile monthlyBudget) = false).
  { intros d Hd Hmax Hl. unfold passesPreChecks. rewrite Hl, Since_past.
    - fold staleness.
      destruct (String.eqb (Status profile) "offline"); [reflexivity |].
      destruct (Z.ltb_spec staleness d); [reflexivity | lia].
    - unfold inInt64 in *. lia. }
  split; [| split; [exact Hbeyond | intros Hmax; apply Hbeyond; lia]].
  intros Hl. unfold passesPreChecks. rewrite Hl, Since_past by exact Hin.
  fold staleness. rewrite Z.ltb_irrefl. split.
  - destruct (String.eqb (Status profile) "offline"); [discriminate |].
    destruct (fgt monthlyBudget 0 && fge (CostSpentMonthly profile) monthlyBudget);
      [discriminate |].
    destruct ((min_request_count (Thresholds config)
               <? add64 (TotalSuccesses profile) (TotalFailures profile))
              && fgt (ErrorRate profile) (max_error_rate (Thresholds config)));
      discriminate.
  - intros Ho Hb He. apply String.eqb_neq in Ho. now rewrite Ho, Hb, He.
Qed.
End RouterFacts.

(** ** The router: the model returned is a contender *)

Section SelectionFacts.
Import GoStrings GoNum GoErr Strconv GoTime Redis Profiler Router.
Local Open Scope Z_scope.
Context `{GoLib}.
Variable config : RouterConfig.
Variable modelCosts : gmap string (gmap string float).
Variable rangeOrder :
  nat -> gmap string contender -> list (string * contender).

(** Whatever order a [range] takes, it visits each entry of the map
    once. *)
Hypothesis rangeOrder_visits_all :
  forall site m, rangeOrder site m ≡ₚ map_to_list m.

Lemma rangeOrder_lookup (site : nat) (m : gmap string contender)
    (k : string) (c : contender) :
  In (k, c) (rangeOrder site m) -> m !! k = Some c.
Proof.
  intros Hin. apply elem_of_map_to_list.
  rewrite <- (rangeOrder_visits_all site m). now apply list_elem_of_In.
Qed.

Lemma createDefaultProfile_ModelID (db : DB) (now : Time) (modelID : string) :
  ModelID (fst (fst (createDefaultProfile modelCosts db now modelID)))
  = modelID.
Proof.
  unfold createDefaultProfile.
  repeat match goal with
         | |- context [HSet ?a ?b ?c ?d] => destruct (HSet a b c d)
         end.
  reflexivity.
Qed.

Lemma GetProfile_ModelID (db db' : DB) (now : Time) (modelID : string)
    (p : ModelProfile) (e : error) :
  GetProfile modelCosts db now modelID = (Some p, e, db') ->
  ModelID p = modelID.
Proof.
  unfold GetProfile. destruct (HGetAll db (getProfileKey modelID)) as [d e0].
  destruct e0; [discriminate |].
  destruct (bool_decide (d = ∅)).
  - pose proof (createDefaultProfile_ModelID db now modelID) as Hm.
    destruct (createDefaultProfile modelCosts db now modelID) as [[q e1] db1].
    intros [= <- _ _]. exact Hm.
  - intros [= <- _ _]. reflexivity.
Qed.


(** The scoring loop ends on the model it started with or on one it
    visited. *)
Lemma scoring_picks_visited (strategy : RoutingStrategy)
    (bounds : float * float * float * float)
    (visited : list (string * contender)) :
  forall best : string * float,
    fst (fold_left (scoreStep strategy bounds) visited best) = fst best
    \/ exists c,
        In (fst (fold_left (scoreStep strategy bounds) visited best), c)
          visited.
Proof.
  induction visited as [|[k c] rest IH]; intros best; [left; reflexivity |].
  cbn [fold_left]. destruct (IH (scoreStep strategy bounds best (k, c)))
    as [Heq | [c' Hin]].
  - rewrite Heq. unfold scoreStep.
    destruct bounds as [[[minCost maxCost] minLatency] maxLatency].
    destruct (fgt _ (snd best)); [| left; reflexivity].
    right. exists c. left. reflexivity.
  - right. exists c'. right. exact Hin.
Qed.

Lemma scoreContenders_member (preference : string) (promptTokens : Z)
    (contenders : gmap string contender) (modelID : string) :
  scoreContenders config rangeOrder preference promptTokens contenders
  = (modelID, None) ->
  is_Some (contenders !! modelID).
Proof.
  unfold scoreContenders.
  destruct (getStrategy config rangeOrder preference promptTokens contenders)
    as [strategy e].
  destruct e; [discriminate |].
  destruct (scoring_picks_visited strategy
              (getNormalizationBounds rangeOrder contenders)
              (rangeOrder 3%nat contenders) ("", (-1)%float))
    as [Heq | [c Hin]];
    destruct (fold_left _ _ _) as [bestModel bestScore]; cbn [fst] in *.
  - subst bestModel. cbn. discriminate.
  - destruct (String.eqb bestModel ""); [discriminate |].
    intros [= <-]. exists c. eapply rangeOrder_lookup, Hin.
Qed.


(** C2.  When no model survives the pre-filter, [SelectOptimalModel]
    returns the error whose text says that no suitable model was found;
    when exactly one survives, it returns that model at once, whatever the
    preference and the strategies are (no strategy is looked up and no
    score is computed). *)
Theorem SelectOptimalModel_zero_or_one
    (db : DB) (now : Time) (availableModels : list string)
    (preference : string) (promptTokens : Z)
    (modelBudgets : gmap string float) :
  let contenders :=
    contendersOf config modelCosts db now availableModels promptTokens
      modelBudgets in
  let result :=
    SelectOptimalModel config modelCosts rangeOrder db now availableModels
      preference promptTokens modelBudgets in
  (contenders = ∅ ->
   exists msg,
     fst result = ("", Some (New msg))
     /\ msg = "no suitable, healthy, and in-budget model found after filtering"
     /\ HasPrefix msg "no suitable" = true /\ Contains msg "model" = true)
  /\ (forall modelID c,
        contenders = {[modelID := c]} -> fst result = (modelID, None)).
Proof.
  intros contenders result. subst contenders result.
  unfold contendersOf, SelectOptimalModel.
  destruct (filterModels config modelCosts db now availableModels promptTokens
              modelBudgets ∅) as [contenders db1]. cbn [fst]. split.
  - intros ->. rewrite map_size_empty. cbn.
    eexists. split; [reflexivity |]. split; [reflexivity |].
    split; reflexivity.
  - intros modelID c ->. rewrite map_size_singleton. cbn.
    pose proof (rangeOrder_visits_all 0%nat ({[modelID := c]})) as Hp.
    rewrite map_to_list_singleton in Hp.
    apply Permutation_singleton_r in Hp. rewrite Hp. reflexivity.
Qed.
End SelectionFacts.

(** ** Model selection in the handler *)

Section HandlerFacts.
Import GoStrings GoNum GoErr Strconv GoTime Redis Profiler Router Handler.
Local Open Scope Z_scope.
Context `{GoLib}.
Variable modelCosts : gmap string (gmap string float).
Variable routerConfig : RouterConfig.
Variable rangeOrder :
  nat -> gmap string contender -> list (string * contender).
Variable EnabledModels : list string.
Variable ModelBudgets : gmap string float.
Variable Analyze : string -> string.

Lemma session_key_is_no_profile_key (conversationID modelID : string) :
  getProfileKey modelID <> sessionKeyOf conversationID.
Proof. discriminate. Qed.

Lemma HSet_other_key (db : DB) (k f v k' : string) :
  k <> k' -> hashAt (snd (HSet db k f v)) k' = hashAt db k'.
Proof.
  intros Hne. unfold HSet. destruct (reachable db); [| reflexivity].
  cbn [snd]. rewrite hashAt_insert. now rewrite decide_False.
Qed.

Lemma createDefaultProfile_other_key (db : DB) (now : Time)
    (modelID k : string) :
  getProfileKey modelID <> k ->
  hashAt (snd (createDefaultProfile modelCosts db now modelID)) k
  = hashAt db k.
Proof.
  intros Hne. unfold createDefaultProfile.
  repeat match goal with
         | |- context [HSet ?a ?b ?c ?d] =>
             let E := fresh "E" in
             pose proof (HSet_other_key a b c d k Hne) as E;
             destruct (HSet a b c d); cbn [snd] in E
         end.
  cbn [snd]. congruence.
Qed.

Lemma GetProfile_other_key (db : DB) (now : Time) (modelID k : string) :
  getProfileKey modelID <> k ->
  hashAt (snd (GetProfile modelCosts db now modelID)) k = hashAt db k.
Proof.
  intros Hne. unfold GetProfile.
  destruct (HGetAll db (getProfileKey modelID)) as [d e].
  destruct e; [reflexivity |]. destruct (bool_decide (d = ∅)); [| reflexivity].
  pose proof (createDefaultProfile_other_key db now modelID k Hne) as Hc.
  destruct (createDefaultProfile modelCosts db now modelID) as [[p e] db1].
  exact Hc.
Qed.

(** Pass 1 of the router writes no session. *)
Lemma filterModels_keeps_sessions (now : Time) (promptTokens : Z)
    (budgets : gmap string float) (conversationID : string)
    (models : list string) :
  forall (db : DB) (contenders : gmap string contender),
    hashAt (snd (filterModels routerConfig modelCosts db now models
                   promptTokens budgets contenders))
      (sessionKeyOf conversationID)
    = hashAt db (sessionKeyOf conversationID).
Proof.
  induction models as [|modelID rest IH]; intros db contenders;
    [reflexivity |].
  cbn [filterModels].
  pose proof (GetProfile_other_key db now modelID (sessionKeyOf conversationID)
                (session_key_is_no_profile_key _ _)) as Hg.
  destruct (GetProfile modelCosts db now modelID) as [[profile e] db1].
  cbn [snd] in Hg. rewrite <- Hg.
  destruct e; [apply IH |]. destruct profile as [profile |]; [| apply IH].
  destruct (fst (passesPreChecks routerConfig now profile _)); [| apply IH].
  destruct (Models routerConfig !! ModelID profile); apply IH.
Qed.

Lemma SelectOptimalModel_keeps_sessions (db : DB) (now : Time)
    (models : list string) (preference : string) (promptTokens : Z)
    (budgets : gmap string float) (conversationID : string) :
  hashAt (snd (SelectOptimalModel routerConfig modelCosts rangeOrder db now
                 models preference promptTokens budgets))
    (sessionKeyOf conversationID)
  = hashAt db (sessionKeyOf conversationID).
Proof.
  unfold SelectOptimalModel.
  pose proof (filterModels_keeps_sessions now promptTokens budgets
                conversationID models db ∅) as Hf.
  destruct (filterModels routerConfig modelCosts db now models promptTokens
              budgets ∅) as [contenders db1]. cbn [snd] in Hf.
  destruct (size contenders =? 0)%nat; [exact Hf |].
  destruct (size contenders =? 1)%nat;
    [destruct (rangeOrder 0%nat contenders) as [|[k c] rest]; [| exact Hf] |];
    destruct (scoreContenders routerConfig rangeOrder preference promptTokens
                contenders);
    exact Hf.
Qed.

(** C10.  For a request without a conversation id, [determineModelID]
    never takes the forced-model path: whatever [force_model] holds, the
    outcome is the choice of the router under the given preference (or
    the one derived from the prompt), no 424 response is written, and no
    session is pinned (the store is the one the router left, in which
    every session hash is as it was). *)
Theorem force_model_ignored_without_conversation
    (db : DB) (now : Time) (req : GenerationRequest) :
  ConversationID req = "" ->
  let out :=
    determineModelID modelCosts routerConfig rangeOrder EnabledModels
      ModelBudgets Analyze db now req in
  let choice :=
    routerChoice modelCosts routerConfig rangeOrder EnabledModels
      ModelBudgets Analyze db now req in
  store out = snd choice
  /\ (snd (fst choice) = None ->
      modelID out = fst (fst choice) /\ err out = None
      /\ response out = None /\ failoverInfo out = None)
  /\ (forall e, snd (fst choice) = Some e ->
      response out = Some (ServiceUnavailable (Error e))
      /\ err out = Some (New "response sent"))
  /\ (forall r, response out = Some r -> statusCode r <> 424)
  /\ (forall conversationID,
        hashAt (store out) (sessionKeyOf conversationID)
        = hashAt db (sessionKeyOf conversationID))
  /\ (forall forceModel,
        observable
          (determineModelID modelCosts routerConfig rangeOrder EnabledModels
             ModelBudgets Analyze db now (withForceModel req forceModel))
        = observable out).
Proof.
  intros Hc out choice.
  assert (Hout : out = routeAndPin modelCosts routerConfig rangeOrder
                         EnabledModels ModelBudgets Analyze db now req None).
  { subst out. unfold determineModelID, newChatOrRoute. rewrite Hc.
    reflexivity. }
  assert (Hforce : forall forceModel,
             observable
               (determineModelID modelCosts routerConfig rangeOrder
                  EnabledModels ModelBudgets Analyze db now
                  (withForceModel req forceModel))
             = observable out).
  { intros forceModel. rewrite Hout.
    unfold determineModelID, newChatOrRoute, withForceModel.
    cbn [ConversationID Config ForceModel]. rewrite Hc.
    cbn [String.eqb negb andb]. unfold routeAndPin.
    cbn [ConversationID Config ForceModel Preference Prompt History].
    destruct (String.eqb (Preference (Config req)) "");
      cbn [withPreference ConversationID Config ForceModel Preference Prompt
             History];
      destruct (SelectOptimalModel _ _ _ _ _ _ _ _ _) as [[m e] db1];
      rewrite ?Hc; destruct e; reflexivity. }
  assert (Hkeep : forall conversationID,
             hashAt (snd choice) (sessionKeyOf conversationID)
             = hashAt db (sessionKeyOf conversationID)).
  { intros conversationID. subst choice. unfold routerChoice.
    apply SelectOptimalModel_keeps_sessions. }
  enough (Hmain :
            store out = snd choice
            /\ (snd (fst choice) = None ->
                modelID out = fst (fst choice) /\ err out = None
                /\ response out = None /\ failoverInfo out = None)
            /\ (forall e, snd (fst choice) = Some e ->
                response out = Some (ServiceUnavailable (Error e))
                /\ err out = Some (New "response sent"))
            /\ (forall r, response out = Some r -> statusCode r <> 424)
            /\ (forall conversationID,
                  hashAt (store out) (sessionKeyOf conversationID)
                  = hashAt db (sessionKeyOf conversationID))).
  { destruct Hmain as (A & B & C & D & E).
    exact (conj A (conj B (conj C (conj D (conj E Hforce))))). }
  clear Hforce. rewrite Hout. clear Hout out. subst choice.
  unfold routerChoice in *. unfold routeAndPin.
  destruct (String.eqb (Preference (Config req)) "");
    cbn [withPreference ConversationID Config ForceModel Preference Prompt
           History] in *;
    destruct (SelectOptimalModel _ _ _ _ _ _ _ _ _) as [[m e] db1];
    rewrite ?Hc; cbn [String.eqb]; destruct e as [e |];
    cbn [store modelID err response failoverInfo fst snd option_map] in *;
    (split; [reflexivity |]);
    (split; [intros He; try discriminate He; repeat split; reflexivity |]);
    (split; [intros e' He; try discriminate He;
             try (injection He as <-); split; reflexivity |]);
    (split; [intros r Hr; try discriminate Hr;
             try (injection Hr as <-); cbn; discriminate |]);
    exact Hkeep.
Qed.
End HandlerFacts.

(** ** The theorems at work on the example data *)

Section Examples.
Import GoStrings GoNum GoErr Strconv GoTime Redis Profiler Router Handler Demo.
Local Open Scope Z_scope.

Lemma rangeOrder_is_a_permutation :
  forall (site : nat) (m : gmap string contender),
    rangeOrder site m ≡ₚ map_to_list m.
Proof. intros site m. reflexivity. Qed.

Example calculator_examples :
  Calculator.Execute jsonUnmarshal formatG (calcArguments "12" "*" "7")
  = ("The result is 84.", None)
  /\ Calculator.Execute jsonUnmarshal formatG (calcArguments "1" "/" "0")
     = ("Error: Division by zero is not allowed.", None)
  /\ Calculator.Execute jsonUnmarshal formatG (calcArguments "2" "^" "3")
     = ("Error: Unsupported operator '^'. Please use +, -, *, or /.", None)
  /\ Calculator.Execute jsonUnmarshal formatG "not json"
     = ("",
        Some (Failure
                "invalid arguments for calculator: invalid character 'o' in literal null (expecting 'u')")).
Proof. vm_compute. repeat split; reflexivity. Qed.

Lemma staleness_boundary_witness :
  inInt64 (health_check_staleness (Thresholds config))
  /\ passesPreChecks config now (profileCheckedAt (now - 300000000000)) 0%float
     = (true, Passed)
  /\ fst (passesPreChecks config now
            (profileCheckedAt (now - (300000000000 + 1000))) 0%float)
     = false.
Proof.
  assert (Hin : inInt64 (health_check_staleness (Thresholds config)))
    by (unfold inInt64; vm_compute; split; discriminate).
  split; [exact Hin |]. split.
  - apply (staleness_boundary config now
             (profileCheckedAt (now - 300000000000)) 0%float Hin);
      [reflexivity | discriminate | reflexivity | reflexivity].
  - apply (proj2 (proj2 (staleness_boundary config now
                           (profileCheckedAt (now - (300000000000 + 1000)))
                           0%float Hin)));
      [vm_compute; discriminate | reflexivity].
Defined.

Example routing_example :
  fst (SelectOptimalModel config costs rangeOrder emptyDB now enabledModels
         "default" 100 ∅)
  = ("mistral-small", None).
Proof. vm_compute. reflexivity. Qed.


Lemma SelectOptimalModel_zero_or_one_witness :
  fst (SelectOptimalModel config costs rangeOrder emptyDB now ["gpt-4o"]
         "no such preference" 100 ∅)
  = ("gpt-4o", None)
  /\ exists msg,
      fst (SelectOptimalModel config costs rangeOrder emptyDB now []
             "default" 100 ∅)
      = ("", Some (New msg))
      /\ msg = "no suitable, healthy, and in-budget model found after filtering"
      /\ HasPrefix msg "no suitable" = true /\ Contains msg "model" = true.
Proof.
  split.
  - apply (proj2 (SelectOptimalModel_zero_or_one config costs rangeOrder
                    rangeOrder_is_a_permutation emptyDB now ["gpt-4o"]
                    "no such preference" 100 ∅)
             "gpt-4o" gpt4oContender).
    vm_compute. reflexivity.
  - apply (proj1 (SelectOptimalModel_zero_or_one config costs rangeOrder
                    rangeOrder_is_a_permutation emptyDB now []
                    "default" 100 ∅)).
    reflexivity.
Defined.

Lemma force_model_ignored_witness :
  ConversationID forcedRequest = ""
  /\ modelID (determineModelID costs config rangeOrder enabledModels ∅ analyze
               emptyDB now forcedRequest)
     = "mistral-small"
  /\ forall forceModel,
      observable
        (determineModelID costs config rangeOrder enabledModels ∅ analyze
           emptyDB now (withForceModel forcedRequest forceModel))
      = observable
          (determineModelID costs config rangeOrder enabledModels ∅ analyze
             emptyDB now forcedRequest).
Proof.
  pose proof (force_model_ignored_without_conversation costs config rangeOrder
                enabledModels ∅ analyze emptyDB now forcedRequest eq_refl)
    as (_ & Hchosen & _ & _ & _ & Hforce).
  split; [reflexivity |]. split; [| exact Hforce].
  rewrite (proj1 (Hchosen ltac:(vm_compute; reflexivity))).
  vm_compute. reflexivity.
Defined.
End Examples.

(** ** The order of [float64] values *)

Section FloatOrder.
Import GoNum.

Lemma SFltb_irrefl (a : spec_float) : SFltb a a = false.
Proof.
  unfold SFltb, SFcompare.
  destruct a as [s | s | | s m e]; try destruct s; cbn; try reflexivity;
    rewrite Z.compare_refl; try rewrite Pos.compare_cont_refl; reflexivity.
Qed.

Lemma SFltb_trans (a b c : spec_float) :
  SFltb a b = true -> SFltb b c = true -> SFltb a c = true.
Proof.
  unfold SFltb, SFcompare.
  destruct a as [sa | sa | | sa ma ea], b as [sb | sb | | sb mb eb],
    c as [sc | sc | | sc mc ec];
    try destruct sa; try destruct sb; try destruct sc; cbn;
    try congruence;
    fold (Pos.compare ma mb); fold (Pos.compare mb mc);
    fold (Pos.compare ma mc);
    destruct (Z.compare_spec ea eb), (Z.compare_spec eb ec),
      (Z.compare_spec ea ec); cbn; try congruence; try lia;
    destruct (Pos.compare_spec ma mb), (Pos.compare_spec mb mc),
      (Pos.compare_spec ma mc); cbn; try congruence; try lia.
Qed.

(** [x > x] never holds, also for a NaN. *)
Lemma fgt_irrefl (x : float) : fgt x x = false.
Proof. unfold fgt. rewrite ltb_spec. apply SFltb_irrefl. Qed.

Lemma fgt_trans (x y z : float) :
  fgt x y = true -> fgt y z = true -> fgt x z = true.
Proof.
  unfold fgt. rewrite !ltb_spec. intros A B. exact (SFltb_trans _ _ _ B A).
Qed.

Lemma fgt_asym (x y : float) : fgt x y = true -> fgt y x = false.
Proof.
  intros A. destruct (fgt y x) eqn:B; [| reflexivity].
  pose proof (fgt_trans _ _ _ A B) as C. now rewrite fgt_irrefl in C.
Qed.

End FloatOrder.

(** ** What reading a profile leaves of the store *)

Section StoreFrames.
Import GoStrings GoNum GoErr Strconv GoTime Redis Profiler.
Local Open Scope Z_scope.
Context `{GoLib}.
Variable modelCosts : gmap string (gmap string float).

Lemma HSet_unreachable (db : DB) (k f v : string) :
  reachable db = false -> HSet db k f v = (Some connError, db).
Proof. intros R. unfold HSet. now rewrite R. Qed.

Lemma HSet_keeps (db : DB) (k f v : string) :
  reachable (snd (HSet db k f v)) = reachable db
  /\ strings (snd (HSet db k f v)) = strings db
  /\ ttl (snd (HSet db k f v)) = ttl db.
Proof. unfold HSet. destruct (reachable db) eqn:R; cbn; auto. Qed.

Lemma createDefaultProfile_keeps (db : DB) (now : Time) (modelID : string) :
  reachable (snd (createDefaultProfile modelCosts db now modelID))
  = reachable db
  /\ strings (snd (createDefaultProfile modelCosts db now modelID))
     = strings db
  /\ ttl (snd (createDefaultProfile modelCosts db now modelID)) = ttl db.
Proof.
  unfold createDefaultProfile.
  repeat match goal with
         | |- context [HSet ?a ?b ?c ?d] =>
             let E := fresh "E" in
             pose proof (HSet_keeps a b c d) as E;
             destruct (HSet a b c d); cbn [snd] in E;
             destruct E as (? & ? & ?)
         end.
  cbn [snd]. repeat split; congruence.
Qed.

(** [GetProfile] writes only when the store is within reach and the hash
    of the model is empty, and then only that hash. *)
Lemma GetProfile_keeps (db : DB) (now : Time) (modelID : string) :
  let db' := snd (GetProfile modelCosts db now modelID) in
  reachable db' = reachable db
  /\ strings db' = strings db
  /\ ttl db' = ttl db
  /\ (forall k, hashAt db k <> ∅ -> hashAt db' k = hashAt db k)
  /\ (forall k, k <> getProfileKey modelID -> hashAt db' k = hashAt db k)
  /\ (reachable db = false -> db' = db).
Proof.
  cbn zeta.
  assert (Hother : forall k, k <> getProfileKey modelID ->
            hashAt (snd (GetProfile modelCosts db now modelID)) k
            = hashAt db k).
  { intros k Hk. apply GetProfile_other_key. congruence. }
  unfold GetProfile in *. unfold HGetAll in *.
  destruct (reachable db) eqn:R; cbn [snd];
    [| repeat split; auto; discriminate].
  destruct (bool_decide (hashAt db (getProfileKey modelID) = ∅)) eqn:B.
  - apply bool_decide_eq_true_1 in B.
    pose proof (createDefaultProfile_keeps db now modelID) as (K1 & K2 & K3).
    destruct (createDefaultProfile modelCosts db now modelID)
      as [[p e] db1]. cbn [snd] in *.
    split; [congruence |]. split; [exact K2 |]. split; [exact K3 |].
    split; [| split; [exact Hother | discriminate]].
    intros k Hk. apply Hother. intros ->. contradiction.
  - cbn [snd]. repeat split; auto; discriminate.
Qed.

End StoreFrames.

(** ** More on the router: what it selects, and what it leaves *)

Section SelectionMore.
Import GoStrings GoNum GoErr Strconv GoTime Redis Profiler Router Scoring.
Local Open Scope Z_scope.
Context `{GoLib}.
Variable config : RouterConfig.
Variable modelCosts : gmap string (gmap string float).
Variable rangeOrder :
  nat -> gmap string contender -> list (string * contender).
Hypothesis rangeOrder_visits_all :
  forall site m, rangeOrder site m ≡ₚ map_to_list m.

Lemma rangeOrder_visits (site : nat) (m : gmap string contender)
    (k : string) (c : contender) :
  m !! k = Some c -> In (k, c) (rangeOrder site m).
Proof.
  intros Hk. apply list_elem_of_In. rewrite (rangeOrder_visits_all site m).
  now apply elem_of_map_to_list.
Qed.

(** A model that [SelectOptimalModel] returns without error is filed in
    the contender set. *)
Lemma selected_is_filed (db db' : DB) (now : Time)
    (availableModels : list string) (preference : string) (promptTokens : Z)
    (modelBudgets : gmap string float) (modelID : string) :
  SelectOptimalModel config modelCosts rangeOrder db now availableModels
    preference promptTokens modelBudgets = (modelID, None, db') ->
  is_Some (contendersOf config modelCosts db now availableModels promptTokens
             modelBudgets !! modelID).
Proof.
  unfold SelectOptimalModel, contendersOf.
  destruct (filterModels config modelCosts db now availableModels promptTokens
              modelBudgets ∅) as [contenders db1]. cbn [fst].
  destruct (size contenders =? 0)%nat; [discriminate |].
  assert (Hscore :
            (let '(m, e) :=
               scoreContenders config rangeOrder preference promptTokens
                 contenders in
             (m, e, db1)) = (modelID, None, db') ->
            is_Some (contenders !! modelID)).
  { destruct (scoreContenders config rangeOrder preference promptTokens
                contenders) as [m e] eqn:S.
    intros [= -> -> _].
    exact (scoreContenders_member config rangeOrder rangeOrder_visits_all
             _ _ _ _ S). }
  destruct (size contenders =? 1)%nat; [| exact Hscore].
  destruct (rangeOrder 0%nat contenders) as [|[k c] rest] eqn:Hr;
    [exact Hscore |].
  intros [= <- _]. exists c.
  apply (rangeOrder_lookup rangeOrder rangeOrder_visits_all 0).
  rewrite Hr. left. reflexivity.
Qed.

(** Pass 1 files a model under its own name, with the metadata the
    configuration holds for it and the cost estimate of the call. *)
Lemma filterModels_configured (now : Time) (promptTokens : Z)
    (modelBudgets : gmap string float) (all : list string)
    (availableModels : list string) :
  (forall id, In id availableModels -> In id all) ->
  forall (db : DB) (contenders : gmap string contender),
    (forall id c, contenders !! id = Some c ->
       In id all /\ Models config !! id = Some (Metadata c)
       /\ EstimatedCost c
          = (float64_of_int promptTokens * CostPerInputToken (Profile c)
             + float64_of_int (mul64 promptTokens 2)
               * CostPerOutputToken (Profile c))%float) ->
    forall id c,
      fst (filterModels config modelCosts db now availableModels promptTokens
             modelBudgets contenders) !! id = Some c ->
      In id all /\ Models config !! id = Some (Metadata c)
      /\ EstimatedCost c
         = (float64_of_int promptTokens * CostPerInputToken (Profile c)
            + float64_of_int (mul64 promptTokens 2)
              * CostPerOutputToken (Profile c))%float.
Proof.
  induction availableModels as [|modelID rest IH]; intros Hall db contenders
    Hinv; [exact Hinv |].
  assert (Hrest : forall id, In id rest -> In id all)
    by (intros id Hid; apply Hall; right; exact Hid).
  cbn [filterModels].
  destruct (GetProfile modelCosts db now modelID) as [[profile e] db1] eqn:G.
  destruct e as [e |]; [apply (IH Hrest), Hinv |].
  destruct profile as [profile |]; [| apply (IH Hrest), Hinv].
  destruct (fst (passesPreChecks config now profile
                   (default 0%float (modelBudgets !! modelID))));
    [| apply (IH Hrest), Hinv].
  destruct (Models config !! ModelID profile) as [modelMeta |] eqn:M;
    [| apply (IH Hrest), Hinv].
  apply (IH Hrest). intros id c. rewrite lookup_insert.
  destruct (decide (modelID = id)) as [<- | Hne]; [| apply Hinv].
  intros [= <-]. cbn [Profile Metadata EstimatedCost].
  rewrite (GetProfile_ModelID _ _ _ _ _ _ _ G) in M.
  split; [apply Hall; left; reflexivity |]. split; [exact M | reflexivity].
Qed.

(** The router only files, and only returns, a model of the list it was
    given for which the configuration holds metadata; the cost estimate
    of a contender is the price of the prompt tokens plus the price of
    twice as many output tokens. *)
Theorem contenders_are_configured_available_models
    (db : DB) (now : Time) (availableModels : list string)
    (preference : string) (promptTokens : Z)
    (modelBudgets : gmap string float) :
  let contenders :=
    contendersOf config modelCosts db now availableModels promptTokens
      modelBudgets in
  (forall id c,
      contenders !! id = Some c ->
      In id availableModels
      /\ Models config !! id = Some (Metadata c)
      /\ EstimatedCost c
         = (float64_of_int promptTokens * CostPerInputToken (Profile c)
            + float64_of_int (mul64 promptTokens 2)
              * CostPerOutputToken (Profile c))%float)
  /\ (forall modelID db',
        SelectOptimalModel config modelCosts rangeOrder db now availableModels
          preference promptTokens modelBudgets = (modelID, None, db') ->
        In modelID availableModels /\ is_Some (Models config !! modelID)).
Proof.
  intros contenders.
  assert (Hc : forall id c,
      contenders !! id = Some c ->
      In id availableModels
      /\ Models config !! id = Some (Metadata c)
      /\ EstimatedCost c
         = (float64_of_int promptTokens * CostPerInputToken (Profile c)
            + float64_of_int (mul64 promptTokens 2)
              * CostPerOutputToken (Profile c))%float).
  { apply filterModels_configured; [auto |].
    intros id c. rewrite lookup_empty. discriminate. }
  split; [exact Hc |].
  intros modelID db' Hs. destruct (selected_is_filed _ _ _ _ _ _ _ _ Hs)
    as [c Hm].
  destruct (Hc modelID c Hm) as (A & B & _). split; [exact A |].
  exists (Metadata c). exact B.
Qed.

(** *** The selected model scores highest *)

Lemma scoring_keeps_best (strategy : RoutingStrategy)
    (minCost maxCost minLatency maxLatency : float)
    (visited : list (string * contender)) :
  let score c :=
    calculateNormalizedScore c strategy minCost maxCost minLatency
      maxLatency in
  forall best : string * float,
    let final :=
      fold_left
        (scoreStep strategy (minCost, maxCost, minLatency, maxLatency))
        visited best in
    (snd final = snd best \/ fgt (snd final) (snd best) = true)
    /\ (forall k c, In (k, c) visited -> fgt (score c) (snd final) = false)
    /\ (final = best
        \/ exists c, In (fst final, c) visited /\ snd final = score c).
Proof.
  intros score.
  induction visited as [|[k c] rest IH]; intros best; cbn zeta.
  - cbn. split; [left; reflexivity |]. split; [contradiction |].
    left; reflexivity.
  - cbn [fold_left].
    set (next := scoreStep strategy (minCost, maxCost, minLatency, maxLatency)
                   best (k, c)).
    destruct (IH next) as (Hmono & Hmax & Hfrom). cbn zeta in *.
    set (final := fold_left _ rest next) in *.
    assert (Hnext : (next = best /\ fgt (score c) (snd best) = false)
                    \/ (next = (k, score c)
                        /\ fgt (score c) (snd best) = true)).
    { subst next. unfold scoreStep. cbn [snd fst]. fold (score c).
      destruct (fgt (score c) (snd best)); [right | left]; auto. }
    destruct Hnext as [[Hn Hle] | [Hn Hgt]].
    + rewrite Hn in *. split; [exact Hmono |]. split.
      * intros k' c' [[= <- <-] | Hin]; [| eapply Hmax, Hin].
        destruct Hmono as [-> | Hm]; [exact Hle |].
        destruct (fgt (score c) (snd final)) eqn:E; [| reflexivity].
        now rewrite (fgt_trans _ _ _ E Hm) in Hle.
      * destruct Hfrom as [-> | [c' [Hin Hs]]]; [left; reflexivity |].
        right. exists c'. split; [right; exact Hin | exact Hs].
    + rewrite Hn in *. cbn [snd fst] in *. split; [| split].
      * right. destruct Hmono as [-> | Hm]; [exact Hgt |].
        exact (fgt_trans _ _ _ Hm Hgt).
      * intros k' c' [[= <- <-] | Hin]; [| eapply Hmax, Hin].
        destruct Hmono as [-> | Hm]; [apply fgt_irrefl |].
        now apply fgt_asym.
      * right. destruct Hfrom as [-> | [c' [Hin Hs]]].
        -- exists c. split; [left; reflexivity | reflexivity].
        -- exists c'. split; [right; exact Hin | exact Hs].
Qed.

(** No contender scores higher than the model [SelectOptimalModel]
    returns: under the strategy of the call and the bounds of the
    contender set, the score of every contender is at most the score of
    the selected one, or is no number. *)
Theorem selected_model_scores_highest
    (db db' : DB) (now : Time) (availableModels : list string)
    (preference : string) (promptTokens : Z)
    (modelBudgets : gmap string float) (modelID : string)
    (strategy : RoutingStrategy) (e : error) :
  let contenders :=
    contendersOf config modelCosts db now availableModels promptTokens
      modelBudgets in
  SelectOptimalModel config modelCosts rangeOrder db now availableModels
    preference promptTokens modelBudgets = (modelID, None, db') ->
  getStrategy config rangeOrder preference promptTokens contenders
  = (strategy, e) ->
  exists c,
    contenders !! modelID = Some c
    /\ forall id' c',
        contenders !! id' = Some c' ->
        fgt (scoreIn rangeOrder contenders strategy c')
            (scoreIn rangeOrder contenders strategy c) = false.
Proof.
  intros contenders. subst contenders.
  unfold SelectOptimalModel, contendersOf.
  destruct (filterModels config modelCosts db now availableModels promptTokens
              modelBudgets ∅) as [contenders db1]. cbn [fst].
  destruct (size contenders =? 0)%nat; [discriminate |].
  assert (Hscore :
            (let '(m, e) :=
               scoreContenders config rangeOrder preference promptTokens
                 contenders in
             (m, e, db1)) = (modelID, None, db') ->
            getStrategy config rangeOrder preference promptTokens contenders
            = (strategy, e) ->
            exists c,
              contenders !! modelID = Some c
              /\ forall id' c',
                  contenders !! id' = Some c' ->
                  fgt (scoreIn rangeOrder contenders strategy c')
                    (scoreIn rangeOrder contenders strategy c) = false).
  { unfold scoreContenders, scoreIn. intros Hs Hg. rewrite Hg in Hs.
    destruct e as [e |]; [discriminate |].
    destruct (getNormalizationBounds rangeOrder contenders)
      as [[[minCost maxCost] minLatency] maxLatency].
    destruct (scoring_keeps_best strategy minCost maxCost minLatency
                maxLatency (rangeOrder 3%nat contenders) ("", (-1)%float))
      as (_ & Hmax & Hfrom). cbn zeta in *.
    destruct (fold_left _ _ _) as [bestModel bestScore]. cbn [fst snd] in *.
    destruct (String.eqb bestModel "") eqn:Eb; [discriminate |].
    injection Hs as -> _.
    destruct Hfrom as [[= -> _] | [c [Hin Hsc]]]; [discriminate |].
    exists c. split.
    - exact (rangeOrder_lookup rangeOrder rangeOrder_visits_all _ _ _ _ Hin).
    - intros id' c' Hc'. rewrite <- Hsc. eapply Hmax.
      apply rangeOrder_visits. exact Hc'. }
  destruct (size contenders =? 1)%nat eqn:S1; [| exact Hscore].
  destruct (rangeOrder 0%nat contenders) as [|[k c] rest] eqn:Hr;
    [exact Hscore |].
  intros [= <- _] _.
  assert (Hk : contenders !! k = Some c).
  { apply (rangeOrder_lookup rangeOrder rangeOrder_visits_all 0).
    rewrite Hr. left. reflexivity. }
  exists c. split; [exact Hk |].
  intros id' c' Hc'.
  apply Nat.eqb_eq in S1. rewrite <- length_map_to_list in S1.
  apply elem_of_map_to_list in Hk, Hc'.
  destruct (map_to_list contenders) as [|x [|y l]]; try discriminate S1.
  apply list_elem_of_singleton in Hk, Hc'. subst x.
  injection Hc' as _ ->. apply fgt_irrefl.
Qed.

End SelectionMore.

Section SelectionStore.
Import GoStrings GoNum GoErr Strconv GoTime Redis Profiler Router Scoring.
Local Open Scope Z_scope.
Context `{GoLib}.
Variable config : RouterConfig.
Variable modelCosts : gmap string (gmap string float).
Variable rangeOrder :
  nat -> gmap string contender -> list (string * contender).

Lemma filterModels_unreachable (now : Time) (promptTokens : Z)
    (modelBudgets : gmap string float) (availableModels : list string) :
  forall (db : DB) (contenders : gmap string contender),
    reachable db = false ->
    filterModels config modelCosts db now availableModels promptTokens
      modelBudgets contenders
    = (contenders, db).
Proof.
  induction availableModels as [|modelID rest IH]; intros db contenders R;
    [reflexivity |].
  cbn [filterModels]. unfold GetProfile, HGetAll. rewrite R.
  apply IH, R.
Qed.

(** With the store out of reach no profile can be read, so no model is
    filed: [SelectOptimalModel] returns the error of the empty contender
    set, whatever the models, the preference and the budgets are, and the
    store is as it was. *)
Theorem SelectOptimalModel_unreachable_store
    (db : DB) (now : Time) (availableModels : list string)
    (preference : string) (promptTokens : Z)
    (modelBudgets : gmap string float) :
  reachable db = false ->
  SelectOptimalModel config modelCosts rangeOrder db now availableModels
    preference promptTokens modelBudgets
  = ("",
     Some (New "no suitable, healthy, and in-budget model found after filtering"),
     db).
Proof.
  intros R. unfold SelectOptimalModel.
  rewrite filterModels_unreachable by exact R.
  rewrite map_size_empty. reflexivity.
Qed.

Lemma filterModels_keeps (now : Time) (promptTokens : Z)
    (modelBudgets : gmap string float) (availableModels : list string) :
  forall (db : DB) (contenders : gmap string contender),
    let db' :=
      snd (filterModels config modelCosts db now availableModels promptTokens
             modelBudgets contenders) in
    reachable db' = reachable db
    /\ strings db' = strings db
    /\ ttl db' = ttl db
    /\ (forall k, hashAt db k <> ∅ -> hashAt db' k = hashAt db k)
    /\ (forall k,
          (forall id, In id availableModels -> k <> getProfileKey id) ->
          hashAt db' k = hashAt db k).
Proof.
  induction availableModels as [|modelID rest IH]; intros db contenders;
    cbn zeta; [repeat split; reflexivity |].
  cbn [filterModels].
  pose proof (GetProfile_keeps modelCosts db now modelID)
    as (K1 & K2 & K3 & K4 & K5 & _).
  destruct (GetProfile modelCosts db now modelID) as [[profile e] db1].
  cbn [snd] in K1, K2, K3, K4, K5.
  assert (Hstep : forall contenders',
            let db' :=
              snd (filterModels config modelCosts db1 now rest promptTokens
                     modelBudgets contenders') in
            reachable db' = reachable db
            /\ strings db' = strings db
            /\ ttl db' = ttl db
            /\ (forall k, hashAt db k <> ∅ -> hashAt db' k = hashAt db k)
            /\ (forall k,
                  (forall id, In id (modelID :: rest) ->
                              k <> getProfileKey id) ->
                  hashAt db' k = hashAt db k)).
  { intros contenders'. cbn zeta.
    destruct (IH db1 contenders') as (I1 & I2 & I3 & I4 & I5).
    cbn zeta in *.
    split; [congruence |]. split; [congruence |]. split; [congruence |].
    split.
    - intros k Hk. rewrite I4 by (rewrite K4; exact Hk). apply K4, Hk.
    - intros k Hk. rewrite I5 by (intros id Hid; apply Hk; right; exact Hid).
      apply K5, Hk. left. reflexivity. }
  destruct e; [apply Hstep |]. destruct profile as [profile |];
    [| apply Hstep].
  destruct (fst (passesPreChecks config now profile _)); [| apply Hstep].
  destruct (Models config !! ModelID profile); apply Hstep.
Qed.

(** The router leaves the store as pass 1 left it. *)
Lemma SelectOptimalModel_store (db : DB) (now : Time)
    (availableModels : list string) (preference : string) (promptTokens : Z)
    (modelBudgets : gmap string float) :
  snd (SelectOptimalModel config modelCosts rangeOrder db now
         availableModels preference promptTokens modelBudgets)
  = snd (filterModels config modelCosts db now availableModels promptTokens
           modelBudgets ∅).
Proof.
  unfold SelectOptimalModel.
  destruct (filterModels config modelCosts db now availableModels promptTokens
              modelBudgets ∅) as [contenders db1]. cbn [snd].
  destruct (size contenders =? 0)%nat; [reflexivity |].
  destruct (size contenders =? 1)%nat;
    [destruct (rangeOrder 0%nat contenders) as [|[k c] rest];
     [| reflexivity] |];
    destruct (scoreContenders config rangeOrder preference promptTokens
                contenders);
    reflexivity.
Qed.

(** Selecting a model reads the store, and writes it only to create the
    default profile of a model that has none: the cost counters, the
    times to live, every hash that held a field (so every profile that
    existed and every session) and every hash that is not the profile of
    one of the given models are after the call as before it. *)
Theorem SelectOptimalModel_only_creates_profiles
    (db : DB) (now : Time) (availableModels : list string)
    (preference : string) (promptTokens : Z)
    (modelBudgets : gmap string float) :
  let db' :=
    snd (SelectOptimalModel config modelCosts rangeOrder db now
           availableModels preference promptTokens modelBudgets) in
  reachable db' = reachable db
  /\ strings db' = strings db
  /\ ttl db' = ttl db
  /\ (forall k, hashAt db k <> ∅ -> hashAt db' k = hashAt db k)
  /\ (forall k,
        (forall id, In id availableModels -> k <> getProfileKey id) ->
        hashAt db' k = hashAt db k).
Proof.
  cbn zeta. rewrite SelectOptimalModel_store.
  destruct (filterModels_keeps now promptTokens modelBudgets availableModels
              db ∅) as (R & S & T & Hkept & Hother).
  split; [exact R |]. split; [exact S |]. split; [exact T |].
  split; [exact Hkept | exact Hother].
Qed.

(** The errors of [SelectOptimalModel]: it returns no model with an
    error, and the error is that no model survived the pre-filter, or that
    neither the preference nor [default] names a strategy of the
    configuration, or that the scoring loop kept no model. *)
Theorem SelectOptimalModel_error_cases
    (db db' : DB) (now : Time) (availableModels : list string)
    (preference : string) (promptTokens : Z)
    (modelBudgets : gmap string float) (modelID : string) (e : err) :
  SelectOptimalModel config modelCosts rangeOrder db now availableModels
    preference promptTokens modelBudgets = (modelID, Some e, db') ->
  modelID = ""
  /\ ((e = New "no suitable, healthy, and in-budget model found after filtering"
       /\ contendersOf config modelCosts db now availableModels promptTokens
            modelBudgets = ∅)
      \/ (e = New "default strategy not found in configuration"
          /\ preference <> "smart-balanced"
          /\ Strategies config !! preference = None
          /\ Strategies config !! "default" = None)
      \/ e = New "failed to select a model after scoring").
Proof.
  unfold SelectOptimalModel, contendersOf.
  destruct (filterModels config modelCosts db now availableModels promptTokens
              modelBudgets ∅) as [contenders db1]. cbn [fst].
  destruct (size contenders =? 0)%nat eqn:S0.
  { intros [= <- <- _]. split; [reflexivity |]. left.
    split; [reflexivity |]. apply map_size_empty_iff, Nat.eqb_eq, S0. }
  assert (Hscore :
            (let '(m, e0) :=
               scoreContenders config rangeOrder preference promptTokens
                 contenders in
             (m, e0, db1)) = (modelID, Some e, db') ->
            modelID = ""
            /\ ((e = New "no suitable, healthy, and in-budget model found after filtering"
                 /\ contenders = ∅)
                \/ (e = New "default strategy not found in configuration"
                    /\ preference <> "smart-balanced"
                    /\ Strategies config !! preference = None
                    /\ Strategies config !! "default" = None)
                \/ e = New "failed to select a model after scoring")).
  { unfold scoreContenders, getStrategy.
    destruct (String.eqb preference "smart-balanced") eqn:Ep.
    - destruct (flt _ _);
        destruct (fold_left _ _ _) as [bestModel bestScore];
        (destruct (String.eqb bestModel ""); intros [= <- <-];
         split; [reflexivity |]; right; right; reflexivity).
    - apply String.eqb_neq in Ep.
      destruct (Strategies config !! preference) as [s |] eqn:Sp;
        [| destruct (Strategies config !! "default") as [s |] eqn:Sd].
      + destruct (fold_left _ _ _) as [bestModel bestScore].
        destruct (String.eqb bestModel ""); intros [= <- <-].
        split; [reflexivity |]; right; right; reflexivity.
      + destruct (fold_left _ _ _) as [bestModel bestScore].
        destruct (String.eqb bestModel ""); intros [= <- <-].
        split; [reflexivity |]; right; right; reflexivity.
      + intros [= <- <-]. split; [reflexivity |]. right. left. auto. }
  destruct (size contenders =? 1)%nat; [| exact Hscore].
  destruct (rangeOrder 0%nat contenders) as [|[k c] rest];
    [exact Hscore | discriminate].
Qed.

End SelectionStore.

(** ** More on the profiler *)

Section ProfilerMore.
Import GoStrings GoNum GoErr Strconv GoTime Redis Profiler Counters.
Local Open Scope Z_scope.
Context `{GoLib}.
Variable modelCosts : gmap string (gmap string float).

(** While the store is out of reach the profiler reads nothing and
    writes nothing: [GetProfile] returns the connection error and no
    profile, and the three updates leave the store as it was. *)
Theorem profiler_leaves_unreachable_store
    (db : DB) (now : Time) (modelID : string) (latency : Duration)
    (usage : Usage) (isHealthy : bool) :
  reachable db = false ->
  GetProfile modelCosts db now modelID = (None, Some connError, db)
  /\ UpdateProfileOnSuccess modelCosts db now modelID latency usage = db
  /\ UpdateProfileOnFailure db modelID = db
  /\ UpdateProfileOnHealthCheck modelCosts db now modelID isHealthy = db.
Proof.
  intros R.
  assert (G : GetProfile modelCosts db now modelID
              = (None, Some connError, db)).
  { unfold GetProfile, HGetAll. now rewrite R. }
  split; [exact G |]. split; [| split].
  - unfold UpdateProfileOnSuccess, updateLatency, successPipeline, HGet,
      HIncrBy, HSet, IncrByFloat, Expire, connError.
    repeat (rewrite R; cbv beta iota zeta). reflexivity.
  - unfold UpdateProfileOnFailure, failurePipeline, HGet, HIncrBy, HSet.
    repeat (rewrite R; cbv beta iota zeta). reflexivity.
  - unfold UpdateProfileOnHealthCheck. rewrite G.
    rewrite !HSet_unreachable by exact R. reflexivity.
Qed.

(** The hash [createDefaultProfile] leaves under the key of a model that
    had none. *)
Lemma createDefaultProfile_hash (db : DB) (now : Time) (modelID : string) :
  reachable db = true ->
  hashAt db (getProfileKey modelID) = ∅ ->
  exists p,
    createDefaultProfile modelCosts db now modelID
    = (p, None,
       withHashes db
         (<[getProfileKey modelID :=
              <["last_health_check" := FormatRFC3339Nano now]>
              (<["error_rate" := FormatFloat 0%float]>
              (<["total_failures" := FormatInt 0]>
              (<["total_successes" := FormatInt 1]>
              (<["status" := "online"]>
              (<["cost_per_output_token" :=
                   FormatFloat (modelCost modelCosts modelID "output")]>
              (<["cost_per_input_token" :=
                   FormatFloat (modelCost modelCosts modelID "input")]>
              (<["avg_latency_ms" := FormatInt 2000]>
              (<["model_id" := modelID]> ∅))))))))]> (hashes db))).
Proof.
  intros R He. unfold createDefaultProfile.
  rewrite HSet_ok by exact R. cbv iota beta.
  repeat (rewrite HSet_again by exact R; cbv iota beta).
  rewrite He. eexists.
  cbn [ModelID AvgLatencyMS Status TotalSuccesses TotalFailures
         TotalInputTokens TotalOutputTokens CostPerInputToken
         CostPerOutputToken ErrorRate LastHealthCheck firstErr].
  rewrite !default_costs. reflexivity.
Qed.

(** A profile is created once: [GetProfile] on a model without profile
    writes the default profile, and a later [GetProfile] writes nothing
    and returns that profile as its texts read (latency 2000, one success,
    no failure, no token, status online, the instant of the creation as
    the last health check) together with the monthly cost of the store. *)
Theorem GetProfile_reads_back_default
    (db : DB) (created now : Time) (modelID : string) :
  reachable db = true ->
  hashAt db (getProfileKey modelID) = ∅ ->
  let db1 := snd (GetProfile modelCosts db created modelID) in
  GetProfile modelCosts db1 now modelID
  = (Some (defaultProfileRead modelCosts db created now modelID), None, db1).
Proof.
  intros R He. cbn zeta.
  destruct (createDefaultProfile_hash db created modelID R He) as [p Hc].
  match type of Hc with _ = (_, _, ?d) =>
    assert (Hdb1 : snd (GetProfile modelCosts db created modelID) = d)
  end.
  { unfold GetProfile, HGetAll. rewrite R, He.
    rewrite bool_decide_eq_true_2 by reflexivity. now rewrite Hc. }
  rewrite Hdb1. clear Hdb1 Hc.
  set (h := <["last_health_check" := _]> _).
  unfold GetProfile, HGetAll. cbn [reachable withHashes].
  rewrite R. rewrite hashAt_insert, decide_True by reflexivity.
  rewrite bool_decide_eq_false_2 by (subst h; apply insert_non_empty).
  unfold defaultProfileRead, Get. cbn [reachable strings withHashes].
  rewrite R.
  assert (F : forall f v, h !! f = v -> fieldOf h f = default "" v)
    by (intros f v <-; reflexivity).
  rewrite (F "avg_latency_ms" (Some (FormatInt 2000))),
    (F "cost_per_input_token"
       (Some (FormatFloat (modelCost modelCosts modelID "input")))),
    (F "cost_per_output_token"
       (Some (FormatFloat (modelCost modelCosts modelID "output")))),
    (F "status" (Some "online")),
    (F "error_rate" (Some (FormatFloat 0%float))),
    (F "total_successes" (Some (FormatInt 1))),
    (F "total_failures" (Some (FormatInt 0))),
    (F "total_input_tokens" None),
    (F "total_output_tokens" None),
    (F "last_health_check" (Some (FormatRFC3339Nano created)));
    try (subst h; repeat (rewrite lookup_insert_ne by discriminate);
         rewrite ?lookup_insert_eq, ?lookup_empty; reflexivity).
Qed.

End ProfilerMore.

Section HealthChecks.
Import GoStrings GoNum GoErr Strconv GoTime Redis Profiler Router Counters.
Local Open Scope Z_scope.
Context `{GoLib}.
Variable config : RouterConfig.
Variable modelCosts : gmap string (gmap string float).
Variable rangeOrder :
  nat -> gmap string contender -> list (string * contender).
Hypothesis rangeOrder_visits_all :
  forall site m, rangeOrder site m ≡ₚ map_to_list m.

(** [GetProfile] on a hash that holds a field: nothing is written, and
    the status and the instant of the last health check are read from
    their fields. *)
Lemma GetProfile_reads (db : DB) (now : Time) (modelID : string) :
  reachable db = true ->
  hashAt db (getProfileKey modelID) <> ∅ ->
  exists p,
    GetProfile modelCosts db now modelID = (Some p, None, db)
    /\ Status p = fieldOf (hashAt db (getProfileKey modelID)) "status"
    /\ LastHealthCheck p
       = ParseRFC3339Nano
           (fieldOf (hashAt db (getProfileKey modelID)) "last_health_check").
Proof.
  intros R Hne. unfold GetProfile, HGetAll. rewrite R.
  rewrite bool_decide_eq_false_2 by exact Hne.
  eexists. split; [reflexivity |]. split; reflexivity.
Qed.

Lemma fieldAt_nonempty (db : DB) (k f v : string) :
  fieldAt db k f = Some v -> hashAt db k <> ∅.
Proof.
  unfold fieldAt. intros Hf He. rewrite He, lookup_empty in Hf.
  discriminate.
Qed.

(** Pass 1 never files a model whose stored status is [offline]. *)
Lemma filterModels_skips_offline (now : Time) (promptTokens : Z)
    (modelBudgets : gmap string float) (offline : string)
    (availableModels : list string) :
  forall (db : DB) (contenders : gmap string contender),
    fieldAt db (getProfileKey offline) "status" = Some "offline" ->
    contenders !! offline = None ->
    fst (filterModels config modelCosts db now availableModels promptTokens
           modelBudgets contenders) !! offline = None.
Proof.
  induction availableModels as [|modelID rest IH]; intros db contenders Hs Hc;
    [exact Hc |].
  cbn [filterModels].
  pose proof (GetProfile_keeps modelCosts db now modelID)
    as (_ & _ & _ & K4 & _ & _).
  pose proof (fieldAt_nonempty _ _ _ _ Hs) as Hne.
  destruct (decide (modelID = offline)) as [-> | Hd].
  - destruct (reachable db) eqn:R.
    + destruct (GetProfile_reads db now offline R Hne) as (p & G & S & _).
      rewrite G. rewrite (fieldOf_fieldAt _ _ _ _ Hs) in S.
      unfold passesPreChecks. rewrite S. cbn [String.eqb fst].
      change (String.eqb "offline" "offline") with true. cbn [fst].
      apply IH; assumption.
    + unfold GetProfile, HGetAll. rewrite R. apply IH; assumption.
  - destruct (GetProfile modelCosts db now modelID) as [[profile e] db1].
    cbn [snd] in K4.
    assert (Hs1 : fieldAt db1 (getProfileKey offline) "status"
                  = Some "offline").
    { unfold fieldAt. rewrite (K4 _ Hne). exact Hs. }
    destruct e; [apply IH; assumption |].
    destruct profile as [profile |]; [| apply IH; assumption].
    destruct (fst (passesPreChecks config now profile _));
      [| apply IH; assumption].
    destruct (Models config !! ModelID profile); [| apply IH; assumption].
    apply IH; [assumption |]. rewrite lookup_insert_ne by exact Hd.
    exact Hc.
Qed.

(** What a health check leaves in the profile hash. *)
Lemma UpdateProfileOnHealthCheck_fields (db : DB) (now : Time)
    (modelID : string) (isHealthy : bool) :
  reachable db = true ->
  let db' := UpdateProfileOnHealthCheck modelCosts db now modelID isHealthy in
  reachable db' = true
  /\ fieldAt db' (getProfileKey modelID) "status"
     = Some (if isHealthy then "online" else "offline")
  /\ fieldAt db' (getProfileKey modelID) "last_health_check"
     = Some (FormatRFC3339Nano now).
Proof.
  intros R. cbn zeta. unfold UpdateProfileOnHealthCheck.
  pose proof (GetProfile_keeps modelCosts db now modelID) as (K1 & _).
  destruct (GetProfile modelCosts db now modelID) as [[p e] db1].
  cbn [snd] in K1. rewrite R in K1.
  rewrite HSet_ok by exact K1. cbv beta iota.
  rewrite HSet_again by exact K1. cbv beta iota.
  split; [exact K1 |]. unfold fieldAt.
  rewrite hashAt_insert, decide_True by reflexivity.
  rewrite lookup_insert_ne by discriminate. rewrite !lookup_insert_eq.
  split; reflexivity.
Qed.

(** A model whose health check failed is out of the selection: after
    [UpdateProfileOnHealthCheck] with an unhealthy result the stored
    status is [offline], and [SelectOptimalModel] on that store returns
    another model or none, at any later instant and for any list of
    models, preference and budgets. *)
Theorem failed_health_check_excludes_model
    (db : DB) (checked now : Time) (modelID : string)
    (availableModels : list string) (preference : string) (promptTokens : Z)
    (modelBudgets : gmap string float) :
  reachable db = true ->
  let db1 := UpdateProfileOnHealthCheck modelCosts db checked modelID false in
  fieldAt db1 (getProfileKey modelID) "status" = Some "offline"
  /\ contendersOf config modelCosts db1 now availableModels promptTokens
       modelBudgets !! modelID = None
  /\ forall selected db',
      SelectOptimalModel config modelCosts rangeOrder db1 now availableModels
        preference promptTokens modelBudgets = (selected, None, db') ->
      selected <> modelID.
Proof.
  intros R db1.
  destruct (UpdateProfileOnHealthCheck_fields db checked modelID false R)
    as (_ & Hs & _). fold db1 in Hs. cbv iota in Hs.
  assert (Hc : contendersOf config modelCosts db1 now availableModels
                 promptTokens modelBudgets !! modelID = None).
  { unfold contendersOf. apply filterModels_skips_offline;
      [exact Hs | apply lookup_empty]. }
  split; [exact Hs |]. split; [exact Hc |].
  intros selected db' Hsel ->.
  destruct (selected_is_filed config modelCosts rangeOrder
              rangeOrder_visits_all _ _ _ _ _ _ _ _ Hsel) as [c Hin].
  rewrite Hc in Hin. discriminate.
Qed.

(** A model whose health check succeeded passes the health pre-checks
    for as long as the staleness threshold allows: [GetProfile] then
    reads the status [online] and the instant of the check, so
    [passesPreChecks] rejects the model neither as offline nor as
    stale. *)
Theorem passed_health_check_keeps_model_fresh
    (db : DB) (checked now : Time) (modelID : string)
    (monthlyBudget : float) :
  reachable db = true ->
  ParseRFC3339Nano (FormatRFC3339Nano checked) = checked ->
  Since now checked <= health_check_staleness (Thresholds config) ->
  let db1 := UpdateProfileOnHealthCheck modelCosts db checked modelID true in
  exists p,
    GetProfile modelCosts db1 now modelID = (Some p, None, db1)
    /\ Status p = "online"
    /\ LastHealthCheck p = checked
    /\ snd (passesPreChecks config now p monthlyBudget) <> MarkedOffline
    /\ snd (passesPreChecks config now p monthlyBudget) <> StaleHealthCheck.
Proof.
  intros R Hrt Hfresh db1.
  destruct (UpdateProfileOnHealthCheck_fields db checked modelID true R)
    as (R1 & Hs & Hl). fold db1 in R1, Hs, Hl.
  destruct (GetProfile_reads db1 now modelID R1 (fieldAt_nonempty _ _ _ _ Hs))
    as (p & G & S & L).
  rewrite (fieldOf_fieldAt _ _ _ _ Hs) in S.
  rewrite (fieldOf_fieldAt _ _ _ _ Hl), Hrt in L.
  exists p. split; [exact G |]. split; [exact S |]. split; [exact L |].
  unfold passesPreChecks. rewrite S, L.
  change (String.eqb "online" "offline") with false. cbv iota.
  destruct (Z.ltb_spec (health_check_staleness (Thresholds config))
              (Since now checked)) as [Hlt | _]; [lia |].
  destruct (_ && _); [split; discriminate |].
  destruct (_ && _); split; discriminate.
Qed.

End HealthChecks.

Ltac another_field :=
  let Hc := fresh in intros [_ Hc]; discriminate Hc.

Section SuccessUpdates.
Import GoStrings GoNum GoErr Strconv GoTime Redis Profiler Router Counters.
Local Open Scope Z_scope.
Context `{GoLib}.
Variable modelCosts : gmap string (gmap string float).

(** [HINCRBY] on a counter that holds a number, when the sum fits. *)
Lemma HIncrBy_counts (db : DB) (k f : string) (s n : Z) :
  reachable db = true ->
  counterAt db k f = Some s ->
  inInt64 (s + n) ->
  exists db', HIncrBy db k f n = (s + n, None, db').
Proof.
  unfold counterAt, fieldAt, HIncrBy, inInt64. intros R C I. rewrite R.
  assert (B : (minInt64 <=? s + n) && (s + n <=? maxInt64) = true).
  { apply andb_true_intro. split; apply Z.leb_le; lia. }
  destruct (hashAt db k !! f) as [t |].
  - rewrite C, B. eexists. reflexivity.
  - injection C as <-. rewrite B. eexists. reflexivity.
Qed.

Lemma counterAt_frame (db db' : DB) (k f : string) :
  fieldAt db' k f = fieldAt db k f -> counterAt db' k f = counterAt db k f.
Proof. unfold counterAt. now intros ->. Qed.

(** The latency update touches the latency field only. *)
Lemma updateLatency_frame (db : DB) (key : string) (latency : Duration) :
  reachable (updateLatency db key latency) = reachable db
  /\ strings (updateLatency db key latency) = strings db
  /\ ttl (updateLatency db key latency) = ttl db
  /\ forall k' g, ~ (key = k' /\ "avg_latency_ms" = g) ->
       fieldAt (updateLatency db key latency) k' g = fieldAt db k' g.
Proof.
  unfold updateLatency. destruct (HGet db key "avg_latency_ms") as [t e].
  set (v := FormatInt _).
  pose proof (HSet_keeps db key "avg_latency_ms" v) as (K1 & K2 & K3).
  destruct (HSet db key "avg_latency_ms" v) as [e' db1] eqn:E.
  destruct (HSet_effect _ _ _ _ _ _ E) as (_ & _ & F & _).
  cbn [snd] in *.
  destruct e as [[| msg] |]; repeat split; auto.
Qed.

(** What the last step of the two updates, the write of the error rate,
    leaves of a store. *)
Lemma error_rate_write_frame (db : DB) (key v : string) :
  reachable (snd (HSet db key "error_rate" v)) = reachable db
  /\ strings (snd (HSet db key "error_rate" v)) = strings db
  /\ ttl (snd (HSet db key "error_rate" v)) = ttl db
  /\ forall g, g <> "error_rate" ->
       fieldAt (snd (HSet db key "error_rate" v)) key g = fieldAt db key g.
Proof.
  pose proof (HSet_keeps db key "error_rate" v) as (K1 & K2 & K3).
  destruct (HSet db key "error_rate" v) as [e db1] eqn:E.
  destruct (HSet_effect _ _ _ _ _ _ E) as (_ & _ & F & _). cbn [snd] in *.
  repeat split; auto. intros g Hg. apply F. intros [_ Hc]. congruence.
Qed.

(** A successful call is counted: when the three counters of the profile
    hold numbers (a missing counter stands for 0) and have room, after
    [UpdateProfileOnSuccess] the success counter is one higher, the token
    counters are higher by the tokens of the call, the status is [online],
    and the failure counter is as it was. *)
Theorem success_update_counts
    (db : DB) (now : Time) (modelID : string) (latency : Duration)
    (usage : Usage) (successes inputs outputs : Z) :
  let key := getProfileKey modelID in
  reachable db = true ->
  counterAt db key "total_successes" = Some successes ->
  inInt64 (successes + 1) ->
  counterAt db key "total_input_tokens" = Some inputs ->
  inInt64 (inputs + PromptTokens usage) ->
  counterAt db key "total_output_tokens" = Some outputs ->
  inInt64 (outputs + CompletionTokens usage) ->
  let db' := UpdateProfileOnSuccess modelCosts db now modelID latency usage in
  fieldAt db' key "total_successes" = Some (FormatInt (successes + 1))
  /\ fieldAt db' key "total_input_tokens"
     = Some (FormatInt (inputs + PromptTokens usage))
  /\ fieldAt db' key "total_output_tokens"
     = Some (FormatInt (outputs + CompletionTokens usage))
  /\ fieldAt db' key "status" = Some "online"
  /\ fieldAt db' key "total_failures" = fieldAt db key "total_failures".
Proof.
  intros key R Cs Is Ci Ii Co Io. cbn zeta.
  unfold UpdateProfileOnSuccess. fold key.
  destruct (updateLatency_frame db key latency) as (R0 & _ & _ & F0).
  set (db0 := updateLatency db key latency) in *.
  rewrite R in R0.
  unfold successPipeline. fold key.
  assert (Cs0 : counterAt db0 key "total_successes" = Some successes).
  { rewrite <- Cs. apply counterAt_frame, F0. another_field. }
  destruct (HIncrBy_counts db0 key "total_successes" successes 1 R0 Cs0 Is)
    as [db1 E1]. rewrite E1.
  destruct (HIncrBy_effect _ _ _ _ _ _ _ E1) as (R1 & _ & F1 & O1).
  destruct (O1 eq_refl) as (_ & _ & V1). rewrite R0 in R1.
  destruct (HGet db1 key "total_failures") as [f2 e2] eqn:E2.
  assert (Ci1 : counterAt db1 key "total_input_tokens" = Some inputs).
  { rewrite <- Ci. apply counterAt_frame. rewrite F1 by another_field.
    apply F0. another_field. }
  destruct (HIncrBy_counts db1 key "total_input_tokens" inputs
              (PromptTokens usage) R1 Ci1 Ii) as [db3 E3]. rewrite E3.
  destruct (HIncrBy_effect _ _ _ _ _ _ _ E3) as (R3 & _ & F3 & O3).
  destruct (O3 eq_refl) as (_ & _ & V3). rewrite R1 in R3.
  assert (Co3 : counterAt db3 key "total_output_tokens" = Some outputs).
  { rewrite <- Co. apply counterAt_frame.
    rewrite F3, F1 by another_field. apply F0. another_field. }
  destruct (HIncrBy_counts db3 key "total_output_tokens" outputs
              (CompletionTokens usage) R3 Co3 Io) as [db4 E4]. rewrite E4.
  destruct (HIncrBy_effect _ _ _ _ _ _ _ E4) as (R4 & _ & F4 & O4).
  destruct (O4 eq_refl) as (_ & _ & V4). rewrite R3 in R4.
  destruct (HSet db4 key "status" "online") as [e5 db5] eqn:E5.
  destruct (HSet_effect _ _ _ _ _ _ E5) as (R5 & _ & F5 & O5).
  destruct (O5 R4) as (_ & V5).
  destruct (IncrByFloat db5 (costKey now modelID) _) as [e6 db6] eqn:E6.
  destruct (IncrByFloat_effect _ _ _ _ _ E6) as (R6 & H6).
  destruct (Expire db6 (costKey now modelID) _) as [e7 db7] eqn:E7.
  destruct (Expire_effect _ _ _ _ _ E7) as (R7 & H7 & _).
  assert (F7 : forall g, fieldAt db7 key g = fieldAt db5 key g).
  { intros g. rewrite (fieldAt_same_hashes db6 db7) by exact H7.
    apply fieldAt_same_hashes. exact H6. }
  set (final := match firstErr _ with Some _ => db7 | None => _ end).
  assert (Ff : forall g, g <> "error_rate" ->
                         fieldAt final key g = fieldAt db5 key g).
  { intros g Hg. rewrite <- F7. subst final.
    destruct (firstErr _); [reflexivity |].
    destruct (0 <? _); [| reflexivity].
    now apply error_rate_write_frame. }
  split; [| split; [| split; [| split]]].
  - rewrite Ff by discriminate. rewrite F5, F4, F3 by another_field. exact V1.
  - rewrite Ff by discriminate. rewrite F5, F4 by another_field. exact V3.
  - rewrite Ff by discriminate. rewrite F5 by another_field. exact V4.
  - rewrite Ff by discriminate. exact V5.
  - rewrite Ff by discriminate. rewrite F5, F4, F3, F1 by another_field.
    apply F0. another_field.
Qed.

Lemma Expire_string (db : DB) (k v : string) (d : Duration) :
  reachable db = true -> strings db !! k = Some v ->
  Expire db k d = (None, withTTL db (<[k := d]> (ttl db))).
Proof.
  intros R S. unfold Expire. rewrite R, S. cbn [present].
  now rewrite orb_true_r.
Qed.

(** The cost of a successful call goes to the monthly counter of the
    model: the server adds [callCost] to the counter under the cost key
    of the month, the key gets 35 days to live, no other counter
    changes, and the monthly cost [GetProfile] reports is the number the
    new text stands for. *)
Theorem success_update_records_cost
    (db : DB) (now : Time) (modelID : string) (latency : Duration)
    (usage : Usage) (total : string) :
  let key := costKey now modelID in
  reachable db = true ->
  ServerIncrByFloat (strings db !! key) (callCost modelCosts modelID usage)
  = Some total ->
  let db' := UpdateProfileOnSuccess modelCosts db now modelID latency usage in
  strings db' = <[key := total]> (strings db)
  /\ ttl db' = <[key := 35 * 24 * Hour]> (ttl db)
  /\ Float64 (Get db' key) = ParseFloat total.
Proof.
  intros key R Hs. cbn zeta.
  assert (Hmain :
    let db' := UpdateProfileOnSuccess modelCosts db now modelID latency usage in
    reachable db' = true
    /\ strings db' = <[key := total]> (strings db)
    /\ ttl db' = <[key := 35 * 24 * Hour]> (ttl db)).
  { cbn zeta. unfold UpdateProfileOnSuccess.
    destruct (updateLatency_frame db (getProfileKey modelID) latency)
      as (R0 & S0 & T0 & _).
    set (db0 := updateLatency db (getProfileKey modelID) latency) in *.
    rewrite R in R0.
    unfold successPipeline. fold key.
    destruct (HIncrBy db0 _ "total_successes" 1) as [[s1 e1] db1] eqn:E1.
    destruct (HIncrBy_effect _ _ _ _ _ _ _ E1) as (R1 & S1 & _).
    assert (T1 : ttl db1 = ttl db0).
    { unfold HIncrBy in E1. rewrite R0 in E1.
      destruct (match hashAt db0 _ !! _ with
                | Some s => string2ll s | None => Some 0 end);
        [destruct (_ && _) |]; injection E1 as _ _ <-; reflexivity. }
    destruct (HGet db1 _ "total_failures") as [f2 e2].
    destruct (HIncrBy db1 _ "total_input_tokens" _) as [[s3 e3] db3] eqn:E3.
    destruct (HIncrBy_effect _ _ _ _ _ _ _ E3) as (R3 & S3 & _).
    assert (T3 : ttl db3 = ttl db1).
    { unfold HIncrBy in E3. rewrite R1, R0 in E3.
      destruct (match hashAt db1 _ !! _ with
                | Some s => string2ll s | None => Some 0 end);
        [destruct (_ && _) |]; injection E3 as _ _ <-; reflexivity. }
    destruct (HIncrBy db3 _ "total_output_tokens" _) as [[s4 e4] db4] eqn:E4.
    destruct (HIncrBy_effect _ _ _ _ _ _ _ E4) as (R4 & S4 & _).
    assert (T4 : ttl db4 = ttl db3).
    { unfold HIncrBy in E4. rewrite R3, R1, R0 in E4.
      destruct (match hashAt db3 _ !! _ with
                | Some s => string2ll s | None => Some 0 end);
        [destruct (_ && _) |]; injection E4 as _ _ <-; reflexivity. }
    pose proof (HSet_keeps db4 (getProfileKey modelID) "status" "online")
      as (R5 & S5 & T5).
    destruct (HSet db4 _ "status" "online") as [e5 db5]. cbn [snd] in *.
    assert (R5' : reachable db5 = true) by congruence.
    assert (S5' : strings db5 = strings db) by congruence.
    assert (T5' : ttl db5 = ttl db) by congruence.
    fold (callCost modelCosts modelID usage).
    unfold IncrByFloat. rewrite R5', S5', Hs.
    rewrite (Expire_string _ key total) by
      (cbn [reachable strings withStrings];
       first [exact R5' | apply lookup_insert_eq]).
    cbn [ttl withStrings]. rewrite T5'.
    set (db7 := withTTL _ _).
    assert (K7 : reachable db7 = true
                 /\ strings db7 = <[key := total]> (strings db)
                 /\ ttl db7 = <[key := 35 * 24 * Hour]> (ttl db)).
    { subst db7. cbn. auto. }
    destruct (firstErr _); [exact K7 |].
    destruct (0 <? _); [| exact K7].
    destruct (error_rate_write_frame db7 (getProfileKey modelID)
                (FormatFloat
                   (float64_of_int (ParseInt f2)
                    / float64_of_int (add64 s1 (ParseInt f2)))))
      as (A & B & C & _).
    destruct K7 as (K1 & K2 & K3). split; [congruence |].
    split; congruence. }
  cbn zeta in Hmain. destruct Hmain as (Rf & Sf & Tf).
  split; [exact Sf |]. split; [exact Tf |].
  unfold Float64, Get. rewrite Rf, Sf, lookup_insert_eq. reflexivity.
Qed.

End SuccessUpdates.

(** ** More on the handler: sessions, forced chats and failover *)

Section SessionFacts.
Import GoStrings GoNum GoErr Strconv GoTime Redis Profiler Router Handler
  Health.
Local Open Scope Z_scope.
Context `{GoLib}.
Variable modelCosts : gmap string (gmap string float).

Lemma getProfileKey_inj (a b : string) :
  getProfileKey a = getProfileKey b -> a = b.
Proof. unfold getProfileKey. intros E. exact (app_inv_head _ _ _ E). Qed.

Lemma createDefaultProfile_no_error (db : DB) (now : Time)
    (modelID : string) :
  reachable db = true ->
  snd (fst (createDefaultProfile modelCosts db now modelID)) = None
  /\ Status (fst (fst (createDefaultProfile modelCosts db now modelID)))
     = "online"
  /\ fieldAt (snd (createDefaultProfile modelCosts db now modelID))
       (getProfileKey modelID) "status" = Some "online".
Proof.
  intros R. unfold createDefaultProfile.
  rewrite HSet_ok by exact R. cbv iota beta.
  repeat (rewrite HSet_again by exact R; cbv iota beta).
  cbn [fst snd Status firstErr]. split; [reflexivity |].
  split; [reflexivity |].
  unfold fieldAt. rewrite hashAt_insert, decide_True by reflexivity.
  repeat (rewrite lookup_insert_ne by discriminate).
  now rewrite lookup_insert_eq.
Qed.

(** The health test of the handler reads the store only. *)
Lemma onlineProfile_GetProfile (db : DB) (now : Time) (modelID : string) :
  onlineProfile (fst (GetProfile modelCosts db now modelID))
  = storedOnline db modelID.
Proof.
  unfold storedOnline, GetProfile, HGetAll.
  destruct (reachable db) eqn:R; [| reflexivity].
  destruct (bool_decide (hashAt db (getProfileKey modelID) = ∅)).
  - destruct (createDefaultProfile_no_error db now modelID R) as (E & S & _).
    destruct (createDefaultProfile modelCosts db now modelID)
      as [[p e] db1]. cbn [fst snd] in *. subst e. cbn. now rewrite S.
  - reflexivity.
Qed.

(** Reading a profile changes the health test of no model. *)
Lemma storedOnline_stable (db : DB) (now : Time) (read modelID : string) :
  storedOnline (snd (GetProfile modelCosts db now read)) modelID
  = storedOnline db modelID.
Proof.
  pose proof (GetProfile_keeps modelCosts db now read)
    as (K1 & _ & _ & K4 & K5 & K6).
  destruct (reachable db) eqn:R;
    [| rewrite (K6 eq_refl); reflexivity].
  destruct (decide (hashAt db (getProfileKey modelID) = ∅)) as [He | Hne].
  - destruct (decide (read = modelID)) as [-> | Hd].
    + unfold storedOnline at 2. rewrite R, He.
      rewrite bool_decide_eq_true_2 by reflexivity.
      unfold storedOnline, GetProfile, HGetAll. rewrite R, He.
      rewrite bool_decide_eq_true_2 by reflexivity.
      destruct (createDefaultProfile_no_error db now modelID R)
        as (_ & _ & S).
      pose proof (createDefaultProfile_keeps modelCosts db now modelID)
        as (C1 & _).
      destruct (createDefaultProfile modelCosts db now modelID)
        as [[p e] db1]. cbn [fst snd] in *.
      rewrite C1, R. rewrite (fieldOf_fieldAt _ _ _ _ S).
      cbn. now rewrite orb_true_r.
    + unfold storedOnline. rewrite K1, R, K5; [reflexivity |].
      intros E. apply Hd. symmetry. exact (getProfileKey_inj _ _ E).
  - unfold storedOnline. rewrite K1, R, (K4 _ Hne). reflexivity.
Qed.

(** [pinSession] on a store within reach: the two fields are written and
    the session gets an hour to live. *)
Lemma pinSession_reachable (db : DB) (conversationID modelID : string)
    (isForced : bool) :
  reachable db = true ->
  pinSession db conversationID modelID isForced
  = withTTL
      (withHashes db
         (<[sessionKeyOf conversationID :=
              <["is_forced" := if isForced then "true" else "false"]>
                (<["model_id" := modelID]>
                   (hashAt db (sessionKeyOf conversationID)))]> (hashes db)))
      (<[sessionKeyOf conversationID := 1 * Hour]> (ttl db)).
Proof.
  intros R. unfold pinSession, HSetFields. rewrite R.
  unfold refreshSessionTTL, Expire. cbn [reachable withHashes hashes].
  rewrite R, lookup_insert_eq. reflexivity.
Qed.

Lemma pinSession_fields (db : DB) (conversationID modelID : string)
    (isForced : bool) :
  reachable db = true ->
  let db' := pinSession db conversationID modelID isForced in
  reachable db' = true
  /\ fieldAt db' (sessionKeyOf conversationID) "model_id" = Some modelID
  /\ fieldAt db' (sessionKeyOf conversationID) "is_forced"
     = Some (if isForced then "true" else "false")
  /\ ttl db' !! sessionKeyOf conversationID = Some (1 * Hour).
Proof.
  intros R. cbn zeta. rewrite pinSession_reachable by exact R.
  cbn [reachable withTTL withHashes ttl]. split; [exact R |].
  rewrite lookup_insert_eq.
  rewrite !(fieldAt_same_hashes (withHashes db _) (withTTL _ _))
    by reflexivity.
  unfold fieldAt. rewrite hashAt_insert, decide_True by reflexivity.
  rewrite lookup_insert_ne by discriminate. rewrite !lookup_insert_eq.
  auto.
Qed.

(** Refreshing the time to live of a session that exists. *)
Lemma refreshSessionTTL_fields (db : DB) (sessionKey : string) :
  reachable db = true ->
  hashAt db sessionKey <> ∅ ->
  let db' := refreshSessionTTL db sessionKey in
  reachable db' = true
  /\ hashes db' = hashes db
  /\ strings db' = strings db
  /\ ttl db' !! sessionKey = Some (1 * Hour).
Proof.
  intros R Hne. cbn zeta. unfold refreshSessionTTL, Expire. rewrite R.
  assert (P : present (hashes db !! sessionKey) = true).
  { unfold hashAt in Hne. destruct (hashes db !! sessionKey);
      [reflexivity | contradiction]. }
  rewrite P. cbn. rewrite lookup_insert_eq. auto.
Qed.

End SessionFacts.

Section GatewayFacts.
Import GoStrings GoNum GoErr Strconv GoTime Redis Profiler Router Handler
  Health.
Local Open Scope Z_scope.
Context `{GoLib}.
Variable modelCosts : gmap string (gmap string float).
Variable routerConfig : RouterConfig.
Variable rangeOrder :
  nat -> gmap string contender -> list (string * contender).
Variable EnabledModels : list string.
Variable ModelBudgets : gmap string float.
Variable Analyze : string -> string.

Lemma routerChoice_keeps (db : DB) (now : Time) (req : GenerationRequest) :
  reachable (snd (routerChoice modelCosts routerConfig rangeOrder EnabledModels
      ModelBudgets Analyze db now req)) = reachable db
  /\ forall conversationID,
      hashAt (snd (routerChoice modelCosts routerConfig rangeOrder EnabledModels
      ModelBudgets Analyze db now req)) (sessionKeyOf conversationID)
      = hashAt db (sessionKeyOf conversationID).
Proof.
  unfold routerChoice. split.
  - rewrite SelectOptimalModel_store.
    apply (filterModels_keeps routerConfig modelCosts).
  - intros conversationID. apply SelectOptimalModel_keeps_sessions.
Qed.

(** The routing path of [determineModelID], in terms of the choice of the
    router. *)
Lemma routeAndPin_outcome (db : DB) (now : Time) (req : GenerationRequest)
    (failover : option FailoverInfo) :
  let out :=
    routeAndPin modelCosts routerConfig rangeOrder EnabledModels ModelBudgets
      Analyze db now req failover in
  let choice := routerChoice modelCosts routerConfig rangeOrder EnabledModels
      ModelBudgets Analyze db now req in
  (forall e, snd (fst choice) = Some e ->
     modelID out = "" /\ failoverInfo out = None
     /\ err out = Some (New "response sent")
     /\ response out = Some (ServiceUnavailable (Error e))
     /\ store out = snd choice)
  /\ (snd (fst choice) = None ->
      modelID out = fst (fst choice)
      /\ failoverInfo out
         = option_map
             (fun f => {| OriginalModel := OriginalModel f;
                          NewModel := fst (fst choice);
                          Reason := Reason f |}) failover
      /\ err out = None /\ response out = None
      /\ store out
         = if String.eqb (ConversationID req) "" then snd choice
           else pinSession (snd choice) (ConversationID req)
                  (fst (fst choice)) false).
Proof.
  cbn zeta. unfold routeAndPin, routerChoice.
  destruct (String.eqb (Preference (Config req)) "");
    cbn [withPreference ConversationID Config ForceModel Preference Prompt
           History];
    destruct (SelectOptimalModel _ _ _ _ _ _ _ _ _) as [[m e] db1];
    destruct e as [e |]; cbn [fst snd modelID failoverInfo err response store];
    (split; [intros e' He; try discriminate He;
             try (injection He as <-); repeat split; reflexivity
            | intros He; try discriminate He; repeat split; reflexivity]).
Qed.


(** [determineModelID] when the conversation has a session. *)
Lemma determine_with_session (db : DB) (now : Time) (req : GenerationRequest) :
  let sessionKey := sessionKeyOf (ConversationID req) in
  let pinned := fieldOf (hashAt db sessionKey) "model_id" in
  let forced := String.eqb (fieldOf (hashAt db sessionKey) "is_forced") "true" in
  let db1 := snd (GetProfile modelCosts db now pinned) in
  reachable db = true ->
  ConversationID req <> "" ->
  hashAt db sessionKey <> ∅ ->
  determineModelID modelCosts routerConfig rangeOrder EnabledModels
    ModelBudgets Analyze db now req
  = if storedOnline db pinned then
      if forced || String.eqb (Preference (Config req)) "" then
        {| modelID := pinned; failoverInfo := None; err := None;
           response := None; request := req;
           store := refreshSessionTTL db1 sessionKey |}
      else
        newChatOrRoute modelCosts routerConfig rangeOrder EnabledModels
          ModelBudgets Analyze db1 now req None
    else
      newChatOrRoute modelCosts routerConfig rangeOrder EnabledModels
        ModelBudgets Analyze db1 now (failoverRequest forced req)
        (Some {| OriginalModel := pinned; NewModel := "";
                 Reason := offlineReason pinned |}).
Proof.
  intros sessionKey pinned forced db1 R Hc Hne.
  unfold determineModelID. fold sessionKey.
  apply String.eqb_neq in Hc. rewrite Hc. cbn [negb].
  unfold HGetAll. rewrite R. cbn [isNil andb].
  rewrite bool_decide_eq_false_2 by exact Hne. cbn [negb].
  fold pinned. fold forced.
  pose proof (onlineProfile_GetProfile modelCosts db now pinned) as Hon.
  subst db1.
  destruct (GetProfile modelCosts db now pinned) as [[p e] db1].
  cbn [fst snd] in *. rewrite Hon.
  destruct forced; cbn [orb failoverRequest];
    destruct (storedOnline db pinned); try reflexivity.
Qed.

(** [determineModelID] when the conversation has no session that can be
    read. *)
Lemma determine_without_session (db : DB) (now : Time)
    (req : GenerationRequest) :
  ConversationID req = "" \/ reachable db = false
  \/ hashAt db (sessionKeyOf (ConversationID req)) = ∅ ->
  determineModelID modelCosts routerConfig rangeOrder EnabledModels
    ModelBudgets Analyze db now req
  = newChatOrRoute modelCosts routerConfig rangeOrder EnabledModels
      ModelBudgets Analyze db now req None.
Proof.
  intros Hcase. unfold determineModelID.
  destruct (String.eqb (ConversationID req) "") eqn:Ec; [reflexivity |].
  cbn [negb]. unfold HGetAll.
  destruct (reachable db) eqn:R; [| reflexivity].
  destruct Hcase as [Hc | [Hr | He]].
  - rewrite Hc in Ec. discriminate.
  - discriminate.
  - rewrite He. rewrite bool_decide_eq_true_2 by reflexivity. reflexivity.
Qed.

(** The alternatives of a 424 response are the enabled models, in their
    order, other than the failed one, that pass the health test. *)
Lemma healthyAlternatives_filter (now : Time) (failedModelID : string)
    (models : list string) (db0 : DB) :
  forall db : DB,
    (forall m, storedOnline db m = storedOnline db0 m) ->
    fst (healthyAlternatives modelCosts db now failedModelID models)
    = List.filter
        (fun m => negb (String.eqb m failedModelID) && storedOnline db0 m)
        models
    /\ (forall m,
          storedOnline
            (snd (healthyAlternatives modelCosts db now failedModelID models))
            m
          = storedOnline db0 m)
    /\ reachable
         (snd (healthyAlternatives modelCosts db now failedModelID models))
       = reachable db
    /\ (forall conversationID,
          hashAt
            (snd (healthyAlternatives modelCosts db now failedModelID models))
            (sessionKeyOf conversationID)
          = hashAt db (sessionKeyOf conversationID))
    /\ (reachable db = false ->
        snd (healthyAlternatives modelCosts db now failedModelID models) = db).
Proof.
  induction models as [|model rest IH]; intros db Hinv;
    [cbn; repeat split; auto |].
  cbn [healthyAlternatives List.filter].
  destruct (String.eqb model failedModelID); cbn [negb andb];
    [apply IH, Hinv |].
  pose proof (onlineProfile_GetProfile modelCosts db now model) as Hon.
  pose proof (storedOnline_stable modelCosts db now model) as Hst.
  pose proof (GetProfile_keeps modelCosts db now model)
    as (K1 & _ & _ & _ & _ & K6).
  pose proof (fun c => GetProfile_other_key modelCosts db now model
                         (sessionKeyOf c)
                         (session_key_is_no_profile_key c model)) as Hk.
  destruct (GetProfile modelCosts db now model) as [[p e] db1].
  cbn [fst snd] in *.
  destruct (IH db1) as (I1 & I2 & I3 & I4 & I5).
  { intros m. rewrite Hst. apply Hinv. }
  destruct (healthyAlternatives modelCosts db1 now failedModelID rest)
    as [healthy db2]. cbn [fst snd] in *.
  rewrite Hon, Hinv. split; [destruct (storedOnline db0 model); congruence |].
  split; [exact I2 |]. split; [congruence |].
  split; [intros c; rewrite I4; apply Hk |].
  intros R. rewrite (K6 R) in *. apply I5, R.
Qed.

(** Part B of [determineModelID] for a request that forces a model in a
    conversation. *)
Lemma newChatOrRoute_forced (db : DB) (now : Time) (req : GenerationRequest)
    (failover : option FailoverInfo) :
  ConversationID req <> "" ->
  ForceModel (Config req) <> "" ->
  let forcedModelID := ForceModel (Config req) in
  let out :=
    newChatOrRoute modelCosts routerConfig rangeOrder EnabledModels
      ModelBudgets Analyze db now req failover in
  (storedOnline db forcedModelID = true ->
   out = {| modelID := forcedModelID; failoverInfo := None; err := None;
            response := None; request := req;
            store :=
              pinSession (snd (GetProfile modelCosts db now forcedModelID))
                (ConversationID req) forcedModelID true |})
  /\ (storedOnline db forcedModelID = false ->
      modelID out = "" /\ failoverInfo out = None
      /\ err out = Some (New "response sent")
      /\ response out
         = Some (FailedDependency
                   ("The requested model '" ++ forcedModelID
                    ++ "' is currently offline.")
                   (List.filter
                      (fun m => negb (String.eqb m forcedModelID)
                                && storedOnline db m)
                      EnabledModels))
      /\ request out = req
      /\ reachable (store out) = reachable db
      /\ (forall conversationID,
            hashAt (store out) (sessionKeyOf conversationID)
            = hashAt db (sessionKeyOf conversationID))
      /\ (reachable db = false -> store out = db)).
Proof.
  intros Hc Hf forcedModelID. cbn zeta. unfold newChatOrRoute.
  apply String.eqb_neq in Hc, Hf. rewrite Hc, Hf. cbn [negb andb].
  fold forcedModelID.
  pose proof (onlineProfile_GetProfile modelCosts db now forcedModelID)
    as Hon.
  pose proof (storedOnline_stable modelCosts db now forcedModelID) as Hst.
  pose proof (GetProfile_keeps modelCosts db now forcedModelID)
    as (K1 & _ & _ & _ & _ & K6).
  pose proof (fun c => GetProfile_other_key modelCosts db now forcedModelID
                         (sessionKeyOf c)
                         (session_key_is_no_profile_key c forcedModelID))
    as Hk.
  destruct (GetProfile modelCosts db now forcedModelID) as [[p e] db1].
  cbn [fst snd] in *. rewrite Hon.
  split; intros Ho; rewrite Ho; [reflexivity |].
  unfold suggestHealthyAlternatives.
  destruct (healthyAlternatives_filter now forcedModelID EnabledModels db
              db1 Hst) as (I1 & _ & I3 & I4 & I5).
  destruct (healthyAlternatives modelCosts db1 now forcedModelID
              EnabledModels) as [healthy db2].
  cbn [fst snd modelID failoverInfo err response request store] in *.
  rewrite I1. repeat (split; [reflexivity |]).
  split; [congruence |]. split; [intros c; rewrite I4; apply Hk |].
  intros R. rewrite (K6 R) in *. apply I5, R.
Qed.

(** A forced session is locked to its model: while the pinned model
    passes the health test, a request in the conversation gets the pinned
    model, whatever preference and whatever [force_model] it carries;
    nothing fails over, no response is written, the session is left as
    it is and gets another hour to live. *)
Theorem forced_session_is_locked
    (db : DB) (now : Time) (req : GenerationRequest) (pinned : string) :
  let sessionKey := sessionKeyOf (ConversationID req) in
  ConversationID req <> "" ->
  fieldAt db sessionKey "model_id" = Some pinned ->
  fieldAt db sessionKey "is_forced" = Some "true" ->
  storedOnline db pinned = true ->
  let out :=
    determineModelID modelCosts routerConfig rangeOrder EnabledModels
      ModelBudgets Analyze db now req in
  modelID out = pinned /\ failoverInfo out = None /\ err out = None
  /\ response out = None /\ request out = req
  /\ hashAt (store out) sessionKey = hashAt db sessionKey
  /\ ttl (store out) !! sessionKey = Some (1 * Hour).
Proof.
  intros sessionKey Hc Hm Hf Ho. cbn zeta.
  assert (R : reachable db = true).
  { unfold storedOnline in Ho. now apply andb_true_iff in Ho. }
  unfold determineModelID. fold sessionKey.
  apply String.eqb_neq in Hc. rewrite Hc. cbn [negb].
  unfold HGetAll. rewrite R. cbn [isNil andb].
  rewrite bool_decide_eq_false_2 by exact (fieldAt_nonempty _ _ _ _ Hm).
  cbn [negb]. rewrite (fieldOf_fieldAt _ _ _ _ Hm),
    (fieldOf_fieldAt _ _ _ _ Hf).
  change (String.eqb "true" "true") with true. cbv iota.
  pose proof (onlineProfile_GetProfile modelCosts db now pinned) as Hon.
  pose proof (GetProfile_keeps modelCosts db now pinned)
    as (K1 & _ & _ & K4 & _).
  destruct (GetProfile modelCosts db now pinned) as [[p e] db1].
  cbn [fst snd] in *. rewrite Hon, Ho.
  cbn [modelID failoverInfo err response request store].
  assert (Hs : hashAt db1 sessionKey = hashAt db sessionKey)
    by exact (K4 _ (fieldAt_nonempty _ _ _ _ Hm)).
  destruct (refreshSessionTTL_fields db1 sessionKey) as (_ & Hh & _ & Ht).
  { congruence. }
  { rewrite Hs. exact (fieldAt_nonempty _ _ _ _ Hm). }
  repeat (split; [reflexivity |]). split; [| exact Ht].
  unfold hashAt in *. now rewrite Hh.
Qed.


Lemma storedOnline_pinSession (db : DB) (conversationID pinned : string)
    (isForced : bool) (modelID : string) :
  storedOnline (pinSession db conversationID pinned isForced) modelID
  = storedOnline db modelID.
Proof.
  destruct (reachable db) eqn:R.
  - rewrite pinSession_reachable by exact R. unfold storedOnline.
    cbn [reachable withTTL withHashes].
    assert (Hh : forall d t k, hashAt (withTTL d t) k = hashAt d k)
      by reflexivity.
    rewrite Hh, hashAt_insert.
    rewrite decide_False; [reflexivity |].
    intros E. symmetry in E. revert E. apply session_key_is_no_profile_key.
  - unfold pinSession, HSetFields. now rewrite R.
Qed.

(** Part B of [determineModelID] on the routing path. *)
Lemma newChatOrRoute_routes (db : DB) (now : Time) (req : GenerationRequest)
    (failover : option FailoverInfo) :
  ConversationID req = "" \/ ForceModel (Config req) = "" ->
  newChatOrRoute modelCosts routerConfig rangeOrder EnabledModels
    ModelBudgets Analyze db now req failover
  = routeAndPin modelCosts routerConfig rangeOrder EnabledModels ModelBudgets
      Analyze db now req failover.
Proof.
  intros [E | E]; unfold newChatOrRoute; rewrite E; cbn [String.eqb negb andb];
    [reflexivity |].
  now rewrite andb_false_r.
Qed.

(** Whatever path Part B takes, a model it returns for a conversation is
    the one the session then names. *)
Lemma newChatOrRoute_pins (db : DB) (now : Time) (req : GenerationRequest)
    (failover : option FailoverInfo) :
  reachable db = true ->
  ConversationID req <> "" ->
  let out :=
    newChatOrRoute modelCosts routerConfig rangeOrder EnabledModels
      ModelBudgets Analyze db now req failover in
  err out = None ->
  fieldAt (store out) (sessionKeyOf (ConversationID req)) "model_id"
  = Some (modelID out)
  /\ ttl (store out) !! sessionKeyOf (ConversationID req) = Some (1 * Hour).
Proof.
  intros R Hc. cbn zeta.
  destruct (decide (ForceModel (Config req) = "")) as [Hf | Hf].
  - rewrite newChatOrRoute_routes by (right; exact Hf).
    destruct (routeAndPin_outcome db now req failover) as (Herr & Hok).
    cbn zeta in *.
    destruct (routerChoice_keeps db now req) as (Rc & _).
    destruct (routerChoice modelCosts routerConfig rangeOrder EnabledModels
                ModelBudgets Analyze db now req) as [[m e] db1].
    cbn [fst snd] in *. destruct e as [e |].
    + destruct (Herr e eq_refl) as (_ & _ & He & _). rewrite He.
      discriminate.
    + destruct (Hok eq_refl) as (Hm & _ & _ & _ & Hs). intros _.
      rewrite Hm, Hs. apply String.eqb_neq in Hc. rewrite Hc.
      destruct (pinSession_fields db1 (ConversationID req) m false)
        as (_ & A & _ & B); [congruence | auto].
  - destruct (newChatOrRoute_forced db now req failover Hc Hf)
      as (Hon & Hoff). cbn zeta in *.
    destruct (storedOnline db (ForceModel (Config req))) eqn:Ho.
    + rewrite (Hon eq_refl). cbn [err store modelID]. intros _.
      pose proof (GetProfile_keeps modelCosts db now (ForceModel (Config req)))
        as (K1 & _).
      destruct (pinSession_fields
                  (snd (GetProfile modelCosts db now (ForceModel (Config req))))
                  (ConversationID req) (ForceModel (Config req)) true)
        as (_ & A & _ & B); [congruence | auto].
    + destruct (Hoff eq_refl) as (_ & _ & He & _). rewrite He. discriminate.
Qed.

(** The session of a conversation names the model that served it: when
    [determineModelID] returns a model for a request of a conversation,
    with the store within reach and a session that is absent or names
    a model, the session afterwards names the returned model and has an
    hour to live. *)
Theorem session_records_served_model
    (db : DB) (now : Time) (req : GenerationRequest) :
  let sessionKey := sessionKeyOf (ConversationID req) in
  reachable db = true ->
  ConversationID req <> "" ->
  hashAt db sessionKey = ∅ \/ is_Some (hashAt db sessionKey !! "model_id") ->
  let out :=
    determineModelID modelCosts routerConfig rangeOrder EnabledModels
      ModelBudgets Analyze db now req in
  err out = None ->
  fieldAt (store out) sessionKey "model_id" = Some (modelID out)
  /\ ttl (store out) !! sessionKey = Some (1 * Hour).
Proof.
  intros sessionKey R Hc Hwf. cbn zeta.
  destruct (decide (hashAt db sessionKey = ∅)) as [He | Hne].
  { rewrite determine_without_session by (right; right; exact He).
    apply newChatOrRoute_pins; assumption. }
  destruct Hwf as [He | [pinned Hp]]; [contradiction |].
  rewrite determine_with_session by assumption. fold sessionKey.
  assert (Hpin : fieldOf (hashAt db sessionKey) "model_id" = pinned)
    by (unfold fieldOf; now rewrite Hp).
  rewrite Hpin.
  pose proof (GetProfile_keeps modelCosts db now pinned)
    as (K1 & _ & _ & K4 & _).
  set (db1 := snd (GetProfile modelCosts db now pinned)) in *.
  assert (R1 : reachable db1 = true) by congruence.
  assert (Hhit :
    err {| modelID := pinned; failoverInfo := None; err := None;
           response := None; request := req;
           store := refreshSessionTTL db1 sessionKey |} = None ->
    fieldAt (store {| modelID := pinned; failoverInfo := None; err := None;
                      response := None; request := req;
                      store := refreshSessionTTL db1 sessionKey |})
      sessionKey "model_id"
    = Some (modelID {| modelID := pinned; failoverInfo := None; err := None;
                       response := None; request := req;
                       store := refreshSessionTTL db1 sessionKey |})
    /\ ttl (store {| modelID := pinned; failoverInfo := None; err := None;
                     response := None; request := req;
                     store := refreshSessionTTL db1 sessionKey |})
       !! sessionKey = Some (1 * Hour)).
  { intros _. cbn [store modelID].
    destruct (refreshSessionTTL_fields db1 sessionKey R1)
      as (_ & Hh & _ & Ht); [rewrite (K4 _ Hne); exact Hne |].
    split; [| exact Ht].
    rewrite (fieldAt_same_hashes db1 (refreshSessionTTL db1 sessionKey))
      by exact Hh.
    unfold fieldAt. rewrite (K4 _ Hne). exact Hp. }
  destruct (storedOnline db pinned).
  - destruct (_ || _); [exact Hhit |].
    apply newChatOrRoute_pins; assumption.
  - set (req' := failoverRequest _ req).
    assert (Hc' : ConversationID req' = ConversationID req)
      by (subst req'; unfold failoverRequest; destruct (String.eqb _ _);
          reflexivity).
    subst sessionKey. rewrite <- Hc'.
    apply newChatOrRoute_pins; [exact R1 | rewrite Hc'; exact Hc].
Qed.


(** Failover of a session: when the pinned model of a conversation does
    not pass the health test and the request forces no model, the router
    chooses (under [max_quality] if the session was forced, else under
    the preference of the request); the failover information names the
    pinned model, the chosen one and the reason, and the session is
    pinned to the chosen model as a dynamic one, also when it was
    forced. *)
Theorem session_failover
    (db : DB) (now : Time) (req : GenerationRequest) (pinned : string) :
  let sessionKey := sessionKeyOf (ConversationID req) in
  let forced :=
    String.eqb (fieldOf (hashAt db sessionKey) "is_forced") "true" in
  let choice :=
    routerChoice modelCosts routerConfig rangeOrder EnabledModels
      ModelBudgets Analyze (snd (GetProfile modelCosts db now pinned)) now
      (failoverRequest forced req) in
  reachable db = true ->
  ConversationID req <> "" ->
  fieldAt db sessionKey "model_id" = Some pinned ->
  storedOnline db pinned = false ->
  ForceModel (Config req) = "" ->
  let out :=
    determineModelID modelCosts routerConfig rangeOrder EnabledModels
      ModelBudgets Analyze db now req in
  (forall e, snd (fst choice) = Some e ->
     modelID out = "" /\ err out = Some (New "response sent")
     /\ response out = Some (ServiceUnavailable (Error e)))
  /\ (snd (fst choice) = None ->
      modelID out = fst (fst choice) /\ err out = None
      /\ response out = None
      /\ failoverInfo out
         = Some {| OriginalModel := pinned; NewModel := fst (fst choice);
                   Reason := "Model '" ++ pinned ++ "' was offline." |}
      /\ fieldAt (store out) sessionKey "model_id" = Some (fst (fst choice))
      /\ fieldAt (store out) sessionKey "is_forced" = Some "false"
      /\ ttl (store out) !! sessionKey = Some (1 * Hour)).
Proof.
  intros sessionKey forced choice R Hc Hm Ho Hf. cbn zeta.
  rewrite determine_with_session
    by (try assumption; exact (fieldAt_nonempty _ _ _ _ Hm)).
  fold sessionKey. rewrite (fieldOf_fieldAt _ _ _ _ Hm). fold forced.
  rewrite Ho.
  set (req' := failoverRequest forced req) in *.
  assert (Hc' : ConversationID req' = ConversationID req)
    by (subst req'; unfold failoverRequest; destruct forced; reflexivity).
  assert (Hf' : ForceModel (Config req') = "")
    by (subst req'; unfold failoverRequest; destruct forced; exact Hf).
  rewrite newChatOrRoute_routes by (right; exact Hf').
  pose proof (GetProfile_keeps modelCosts db now pinned) as (K1 & _).
  set (db1 := snd (GetProfile modelCosts db now pinned)) in *.
  destruct (routeAndPin_outcome db1 now req'
              (Some {| OriginalModel := pinned; NewModel := "";
                       Reason := offlineReason pinned |})) as (Herr & Hok).
  cbn zeta in *. fold choice in Herr, Hok.
  destruct (routerChoice_keeps db1 now req') as (Rc & _). fold choice in Rc.
  split.
  - intros e He. destruct (Herr e He) as (A & _ & B & C & _). auto.
  - intros He. destruct (Hok He) as (A & B & C & D & E).
    split; [exact A |]. split; [exact C |]. split; [exact D |].
    split; [rewrite B; reflexivity |].
    rewrite E, Hc'. apply String.eqb_neq in Hc. rewrite Hc.
    destruct (pinSession_fields (snd choice) (ConversationID req)
                (fst (fst choice)) false) as (_ & P1 & P2 & P3);
      [congruence | auto].
Qed.

(** The start of a forced chat: a request that forces a model in a
    conversation without session gets that model when it passes the
    health test, and the session is pinned to it as a forced one, so
    that every later request of the conversation gets the same model
    while the store stays as it is; when the model does not pass the
    test the request is answered with 424 and the enabled models that do
    pass it, and no session is pinned. *)
Theorem forced_chat_start
    (db : DB) (now : Time) (req : GenerationRequest) :
  let sessionKey := sessionKeyOf (ConversationID req) in
  let forcedModelID := ForceModel (Config req) in
  ConversationID req <> "" ->
  forcedModelID <> "" ->
  hashAt db sessionKey = ∅ ->
  let out :=
    determineModelID modelCosts routerConfig rangeOrder EnabledModels
      ModelBudgets Analyze db now req in
  (storedOnline db forcedModelID = true ->
   modelID out = forcedModelID /\ failoverInfo out = None /\ err out = None
   /\ response out = None
   /\ fieldAt (store out) sessionKey "model_id" = Some forcedModelID
   /\ fieldAt (store out) sessionKey "is_forced" = Some "true"
   /\ ttl (store out) !! sessionKey = Some (1 * Hour)
   /\ forall later next,
        ConversationID next = ConversationID req ->
        modelID
          (determineModelID modelCosts routerConfig rangeOrder EnabledModels
             ModelBudgets Analyze (store out) later next)
        = forcedModelID)
  /\ (storedOnline db forcedModelID = false ->
      modelID out = "" /\ err out = Some (New "response sent")
      /\ response out
         = Some (FailedDependency
                   ("The requested model '" ++ forcedModelID
                    ++ "' is currently offline.")
                   (List.filter
                      (fun m => negb (String.eqb m forcedModelID)
                                && storedOnline db m)
                      EnabledModels))
      /\ (forall r, response out = Some r -> statusCode r = 424)
      /\ hashAt (store out) sessionKey = ∅).
Proof.
  intros sessionKey forcedModelID Hc Hf He. cbn zeta.
  rewrite determine_without_session by (right; right; exact He).
  destruct (newChatOrRoute_forced db now req None Hc Hf) as (Hon & Hoff).
  cbn zeta in *. fold forcedModelID in Hon, Hoff. split.
  - intros Ho. rewrite (Hon Ho).
    cbn [modelID failoverInfo err response store].
    assert (R : reachable db = true).
    { unfold storedOnline in Ho. now apply andb_true_iff in Ho. }
    pose proof (GetProfile_keeps modelCosts db now forcedModelID) as (K1 & _).
    pose proof (storedOnline_stable modelCosts db now forcedModelID
                  forcedModelID) as Hst.
    set (db1 := snd (GetProfile modelCosts db now forcedModelID)) in *.
    destruct (pinSession_fields db1 (ConversationID req) forcedModelID true)
      as (_ & P1 & P2 & P3); [congruence |]. fold sessionKey in P1, P2, P3.
    repeat (split; [reflexivity |]).
    split; [exact P1 |]. split; [exact P2 |]. split; [exact P3 |].
    intros later next Hn.
    set (db2 := pinSession db1 (ConversationID req) forcedModelID true) in *.
    assert (Hne : hashAt db2 (sessionKeyOf (ConversationID next)) <> ∅)
      by (rewrite Hn; exact (fieldAt_nonempty _ _ _ _ P1)).
    assert (R2 : reachable db2 = true)
      by (subst db2; rewrite pinSession_reachable by congruence;
          cbn [reachable withTTL withHashes]; congruence).
    rewrite determine_with_session
      by (try assumption; rewrite Hn; exact Hc).
    rewrite Hn. fold sessionKey.
    rewrite (fieldOf_fieldAt _ _ _ _ P1), (fieldOf_fieldAt _ _ _ _ P2).
    subst db2. rewrite storedOnline_pinSession, Hst, Ho. reflexivity.
  - intros Ho. destruct (Hoff Ho) as (A & _ & B & C & _ & _ & D & _).
    split; [exact A |]. split; [exact B |]. split; [exact C |].
    split; [intros r Hr; rewrite C in Hr; injection Hr as <-; reflexivity |].
    fold sessionKey in He. rewrite <- He. apply D.
Qed.

(** Without the store the router has no contender. *)
Lemma router_without_store (db : DB) (now : Time) (models : list string)
    (preference : string) (promptTokens : Z) (budgets : gmap string float) :
  reachable db = false ->
  SelectOptimalModel routerConfig modelCosts rangeOrder db now models
    preference promptTokens budgets
  = ("",
     Some (New "no suitable, healthy, and in-budget model found after filtering"),
     db).
Proof.
  intros R. unfold SelectOptimalModel.
  now rewrite (filterModels_unreachable routerConfig modelCosts) by exact R.
Qed.

Lemma filter_none {A : Type} (f : A -> bool) (l : list A) :
  (forall x, f x = false) -> List.filter f l = [].
Proof.
  intros Hf. induction l as [|x l IH]; [reflexivity |].
  cbn. now rewrite Hf.
Qed.

(** With the store out of reach [determineModelID] returns no model and
    answers every request with an error: 424 without alternatives when
    the request forces a model in a conversation, else 503 with the
    error of the router on an empty contender set; the store is left as
    it is. *)
Theorem unreachable_store_responses
    (db : DB) (now : Time) (req : GenerationRequest) :
  reachable db = false ->
  let out :=
    determineModelID modelCosts routerConfig rangeOrder EnabledModels
      ModelBudgets Analyze db now req in
  modelID out = "" /\ err out = Some (New "response sent")
  /\ store out = db
  /\ response out
     = Some
         (if negb (String.eqb (ConversationID req) "")
             && negb (String.eqb (ForceModel (Config req)) "")
          then
            FailedDependency
              ("The requested model '" ++ ForceModel (Config req)
               ++ "' is currently offline.") []
          else
            ServiceUnavailable
              "no suitable, healthy, and in-budget model found after filtering").
Proof.
  intros R. cbn zeta.
  rewrite determine_without_session by (right; left; exact R).
  destruct (String.eqb (ConversationID req) "") eqn:Ec;
    [| destruct (String.eqb (ForceModel (Config req)) "") eqn:Ef];
    cbn [negb andb].
  - apply String.eqb_eq in Ec.
    rewrite newChatOrRoute_routes by (left; exact Ec).
    destruct (routeAndPin_outcome db now req None) as (Herr & _).
    cbn zeta in Herr. unfold routerChoice in Herr.
    rewrite (router_without_store db now) in Herr by exact R.
    destruct (Herr _ eq_refl) as (A & _ & B & C & D). auto.
  - apply String.eqb_eq in Ef.
    rewrite newChatOrRoute_routes by (right; exact Ef).
    destruct (routeAndPin_outcome db now req None) as (Herr & _).
    cbn zeta in Herr. unfold routerChoice in Herr.
    rewrite (router_without_store db now) in Herr by exact R.
    destruct (Herr _ eq_refl) as (A & _ & B & C & D). auto.
  - apply String.eqb_neq in Ec, Ef.
    destruct (newChatOrRoute_forced db now req None Ec Ef) as (_ & Hoff).
    cbn zeta in Hoff.
    assert (Ho : forall m, storedOnline db m = false)
      by (intros m; unfold storedOnline; now rewrite R).
    destruct (Hoff (Ho _)) as (A & _ & B & C & _ & _ & _ & D).
    split; [exact A |]. split; [exact B |]. split; [exact (D R) |].
    rewrite C. rewrite filter_none; [reflexivity |].
    intros m. rewrite Ho. apply andb_false_r.
Qed.

(** A dynamic session follows the preference of the request: while the
    pinned model passes the health test, a request without preference
    gets the pinned model and the session stays as it is; a request with
    a preference (and no forced model) gets the choice of the router
    under that preference, and the session is pinned to the chosen
    model. *)
Theorem dynamic_session_follows_preference
    (db : DB) (now : Time) (req : GenerationRequest) (pinned : string) :
  let sessionKey := sessionKeyOf (ConversationID req) in
  let choice :=
    routerChoice modelCosts routerConfig rangeOrder EnabledModels
      ModelBudgets Analyze (snd (GetProfile modelCosts db now pinned)) now
      req in
  ConversationID req <> "" ->
  fieldAt db sessionKey "model_id" = Some pinned ->
  fieldOf (hashAt db sessionKey) "is_forced" <> "true" ->
  storedOnline db pinned = true ->
  let out :=
    determineModelID modelCosts routerConfig rangeOrder EnabledModels
      ModelBudgets Analyze db now req in
  (Preference (Config req) = "" ->
   modelID out = pinned /\ failoverInfo out = None /\ err out = None
   /\ response out = None
   /\ hashAt (store out) sessionKey = hashAt db sessionKey
   /\ ttl (store out) !! sessionKey = Some (1 * Hour))
  /\ (Preference (Config req) <> "" ->
      ForceModel (Config req) = "" ->
      (forall e, snd (fst choice) = Some e ->
         modelID out = "" /\ err out = Some (New "response sent")
         /\ response out = Some (ServiceUnavailable (Error e)))
      /\ (snd (fst choice) = None ->
          modelID out = fst (fst choice) /\ failoverInfo out = None
          /\ err out = None /\ response out = None
          /\ fieldAt (store out) sessionKey "model_id"
             = Some (fst (fst choice))
          /\ fieldAt (store out) sessionKey "is_forced" = Some "false")).
Proof.
  intros sessionKey choice Hc Hm Hd Ho. cbn zeta.
  assert (R : reachable db = true).
  { unfold storedOnline in Ho. now apply andb_true_iff in Ho. }
  pose proof (fieldAt_nonempty _ _ _ _ Hm) as Hne.
  rewrite determine_with_session by assumption.
  fold sessionKey. rewrite (fieldOf_fieldAt _ _ _ _ Hm), Ho.
  apply String.eqb_neq in Hd. rewrite Hd. cbn [orb].
  pose proof (GetProfile_keeps modelCosts db now pinned)
    as (K1 & _ & _ & K4 & _).
  set (db1 := snd (GetProfile modelCosts db now pinned)) in *.
  assert (R1 : reachable db1 = true) by congruence.
  split.
  - intros Hp. rewrite Hp. cbn [String.eqb].
    cbn [modelID failoverInfo err response store].
    destruct (refreshSessionTTL_fields db1 sessionKey R1)
      as (_ & Hh & _ & Ht); [rewrite (K4 _ Hne); exact Hne |].
    repeat (split; [reflexivity |]). split; [| exact Ht].
    rewrite <- (K4 _ Hne). unfold hashAt. now rewrite Hh.
  - intros Hp Hf. apply String.eqb_neq in Hp. rewrite Hp.
    rewrite newChatOrRoute_routes by (right; exact Hf).
    destruct (routeAndPin_outcome db1 now req None) as (Herr & Hok).
    cbn zeta in *. fold choice in Herr, Hok.
    destruct (routerChoice_keeps db1 now req) as (Rc & _). fold choice in Rc.
    split.
    + intros e He. destruct (Herr e He) as (A & _ & B & C & _). auto.
    + intros He. destruct (Hok He) as (A & B & C & D & E).
      split; [exact A |]. split; [exact B |]. split; [exact C |].
      split; [exact D |].
      rewrite E. apply String.eqb_neq in Hc. rewrite Hc.
      destruct (pinSession_fields (snd choice) (ConversationID req)
                  (fst (fst choice)) false) as (_ & P1 & P2 & _);
        [congruence | auto].
Qed.

End GatewayFacts.

(** ** A failed call, as the handler and the router see it afterwards *)

Section FailureFacts.
Import GoStrings GoNum GoErr Strconv GoTime Redis Profiler Router Handler
  Counters Health.
Local Open Scope Z_scope.
Context `{GoLib}.
Variable modelCosts : gmap string (gmap string float).
Variable routerConfig : RouterConfig.
Variable rangeOrder :
  nat -> gmap string contender -> list (string * contender).
Variable EnabledModels : list string.
Variable ModelBudgets : gmap string float.
Variable Analyze : string -> string.

(** The three commands of the pipeline all run: the status is written
    whatever the counter held, and no other hash is touched. *)
Lemma UpdateProfileOnFailure_effect (db : DB) (modelID : string) :
  reachable db = true ->
  reachable (UpdateProfileOnFailure db modelID) = true
  /\ fieldAt (UpdateProfileOnFailure db modelID) (getProfileKey modelID)
       "status" = Some "degraded"
  /\ (forall k, k <> getProfileKey modelID ->
        hashAt (UpdateProfileOnFailure db modelID) k = hashAt db k)
  /\ (forall failures,
        counterAt db (getProfileKey modelID) "total_failures" = Some failures ->
        inInt64 (failures + 1) ->
        fieldAt (UpdateProfileOnFailure db modelID) (getProfileKey modelID)
          "total_failures" = Some (FormatInt (failures + 1))).
Proof.
  intros R. unfold UpdateProfileOnFailure, failurePipeline.
  destruct (HIncrBy db (getProfileKey modelID) "total_failures" 1)
    as [[v e1] dbA] eqn:E1.
  pose proof (HIncrBy_effect _ _ _ _ _ _ _ E1) as (RA & _ & FA & CA).
  destruct (HGet dbA (getProfileKey modelID) "total_successes") as [s e2].
  destruct (HSet dbA (getProfileKey modelID) "status" "degraded")
    as [e3 dbB] eqn:E3.
  pose proof (HSet_effect _ _ _ _ _ _ E3) as (RB & _ & FB & SB).
  rewrite R in RA. rewrite RA in RB. destruct (SB RA) as [-> SB'].
  assert (Hother : forall k, k <> getProfileKey modelID ->
                     hashAt dbB k = hashAt db k).
  { intros k Hk. apply map_eq. intros g.
    change (fieldAt dbB k g = fieldAt db k g).
    rewrite FB by (intros [Hc _]; congruence).
    apply FA. intros [Hc _]. congruence. }
  assert (Hcount : forall failures,
            counterAt db (getProfileKey modelID) "total_failures"
            = Some failures ->
            inInt64 (failures + 1) ->
            fieldAt dbB (getProfileKey modelID) "total_failures"
            = Some (FormatInt (failures + 1))).
  { intros failures C I.
    destruct (HIncrBy_counts db _ _ _ 1 R C I) as [dbC EC].
    rewrite EC in E1. injection E1 as <- <- <-.
    rewrite FB by (intros [_ Hc]; discriminate).
    destruct (CA eq_refl) as (_ & _ & ->). reflexivity. }
  assert (Hdone : forall db1,
            reachable db1 = reachable dbB ->
            (forall k g, ~ (getProfileKey modelID = k /\ "error_rate" = g) ->
               fieldAt db1 k g = fieldAt dbB k g) ->
            reachable db1 = true
            /\ fieldAt db1 (getProfileKey modelID) "status" = Some "degraded"
            /\ (forall k, k <> getProfileKey modelID ->
                  hashAt db1 k = hashAt db k)
            /\ (forall failures,
                  counterAt db (getProfileKey modelID) "total_failures"
                  = Some failures ->
                  inInt64 (failures + 1) ->
                  fieldAt db1 (getProfileKey modelID) "total_failures"
                  = Some (FormatInt (failures + 1)))).
  { intros db1 R1 F1. split; [congruence |]. split; [| split].
    - rewrite F1 by (intros [_ Hc]; discriminate). exact SB'.
    - intros k Hk. rewrite <- (Hother k Hk). apply map_eq. intros g.
      change (fieldAt db1 k g = fieldAt dbB k g).
      apply F1. intros [Hc _]. congruence.
    - intros failures C I.
      rewrite F1 by (intros [_ Hc]; discriminate). now apply Hcount. }
  cbv beta iota zeta. destruct (firstErr _).
  - apply Hdone; [reflexivity | intros; reflexivity].
  - destruct (0 <? add64 (ParseInt s) v).
    + destruct (HSet dbB (getProfileKey modelID) "error_rate"
                  (FormatFloat (float64_of_int v
                                / float64_of_int (add64 (ParseInt s) v))))
        as [e4 dbD] eqn:E4.
      pose proof (HSet_effect _ _ _ _ _ _ E4) as (RD & _ & FD & _).
      cbn [snd]. apply Hdone; assumption.
    + apply Hdone; [reflexivity | intros; reflexivity].
Qed.

(** One failed call on a reachable store leaves the model's status
    [degraded] (whatever its counters held) and counts the failure; the
    handler then takes the model for unhealthy, and no other model or
    session is affected; a new chat that forces the model is answered
    with 424, while the router, which rejects only the status [offline],
    does not reject the model for its status. *)
Theorem failed_call_degrades_model
    (db : DB) (now : Time) (modelID : string) :
  reachable db = true ->
  let key := getProfileKey modelID in
  let db' := UpdateProfileOnFailure db modelID in
  fieldAt db' key "status" = Some "degraded"
  /\ (forall failures,
        counterAt db key "total_failures" = Some failures ->
        inInt64 (failures + 1) ->
        fieldAt db' key "total_failures" = Some (FormatInt (failures + 1)))
  /\ storedOnline db' modelID = false
  /\ (forall other, other <> modelID ->
        storedOnline db' other = storedOnline db other)
  /\ (forall conversationID,
        hashAt db' (sessionKeyOf conversationID)
        = hashAt db (sessionKeyOf conversationID))
  /\ (exists profile,
        GetProfile modelCosts db' now modelID = (Some profile, None, db')
        /\ Status profile = "degraded"
        /\ forall monthlyBudget,
             snd (passesPreChecks routerConfig now profile monthlyBudget)
             <> MarkedOffline)
  /\ (forall req,
        ConversationID req <> "" ->
        ForceModel (Config req) = modelID ->
        modelID <> "" ->
        hashAt db (sessionKeyOf (ConversationID req)) = ∅ ->
        let out :=
          determineModelID modelCosts routerConfig rangeOrder EnabledModels
            ModelBudgets Analyze db' now req in
        Handler.modelID out = ""
        /\ err out = Some (New "response sent")
        /\ response out
           = Some (FailedDependency
                     ("The requested model '" ++ modelID
                      ++ "' is currently offline.")
                     (List.filter
                        (fun m => negb (String.eqb m modelID)
                                  && storedOnline db' m)
                        EnabledModels))).
Proof.
  intros R key db'.
  destruct (UpdateProfileOnFailure_effect db modelID R)
    as (R' & S & Hother & Hcount).
  fold db' in R', S, Hother, Hcount. fold key in S, Hother, Hcount.
  assert (Hne : hashAt db' key <> ∅) by exact (fieldAt_nonempty _ _ _ _ S).
  assert (Hoff : storedOnline db' modelID = false).
  { unfold storedOnline. fold key. rewrite R'.
    rewrite bool_decide_eq_false_2 by exact Hne.
    unfold fieldOf. unfold fieldAt in S. rewrite S. reflexivity. }
  assert (Hsessions : forall conversationID,
            hashAt db' (sessionKeyOf conversationID)
            = hashAt db (sessionKeyOf conversationID)).
  { intros conversationID. apply Hother. intros Hc.
    exact (session_key_is_no_profile_key conversationID modelID
             (eq_sym Hc)). }
  split; [exact S |]. split; [exact Hcount |]. split; [exact Hoff |].
  split; [| split; [exact Hsessions |]; split].
  - intros other Hd. unfold storedOnline. rewrite R', R.
    rewrite Hother; [reflexivity |].
    intros Hc. apply Hd. exact (getProfileKey_inj _ _ Hc).
  - destruct (GetProfile_reads modelCosts db' now modelID R' Hne)
      as (p & G & Sp & _).
    assert (Sd : Status p = "degraded").
    { rewrite Sp. unfold fieldOf. fold key. unfold fieldAt in S.
      rewrite S. reflexivity. }
    exists p. split; [exact G |]. split; [exact Sd |].
    intros monthlyBudget. unfold passesPreChecks. rewrite Sd.
    change (String.eqb "degraded" "offline") with false. cbv iota.
    repeat match goal with
           | |- context [if ?c then _ else _] => destruct c
           end; cbn [snd]; discriminate.
  - intros req Hc Hf Hm He out.
    assert (Hs : hashAt db' (sessionKeyOf (ConversationID req)) = ∅)
      by (rewrite Hsessions; exact He).
    assert (Hforce : ForceModel (Config req) <> "") by congruence.
    pose proof (determine_without_session modelCosts routerConfig rangeOrder
                  EnabledModels ModelBudgets Analyze db' now req
                  (or_intror (or_intror Hs))) as D.
    pose proof (newChatOrRoute_forced modelCosts routerConfig rangeOrder
                  EnabledModels ModelBudgets Analyze db' now req None
                  Hc Hforce) as [_ N].
    cbv zeta in N. rewrite Hf in N.
    destruct (N Hoff) as (N1 & _ & N3 & N4 & _).
    unfold out. rewrite D. repeat split; assumption.
Qed.

End FailureFacts.

(** ** Requests with retries *)

Section RetryFacts.
Import GoNum GoErr Strconv GoTime Retry.
Local Open Scope Z_scope.
Variable provider : string.
Variable network : Z -> Attempt.

Lemma attemptsFrom_retried (left : nat) (i : Z) (delay : Duration)
    (lastErr : error) (pauses : list Duration) :
  retried (network i) = true ->
  attemptsFrom provider network (S left) i delay lastErr pauses
  = attemptsFrom provider network left (add64 i 1) (mul64 delay 2)
      (errorOf provider i (network i)) (pauses ++ [delay]).
Proof.
  cbn [attemptsFrom]. unfold retried, errorOf.
  destruct (network i) as [e | e | s e | s b]; try discriminate;
    [reflexivity |]. cbv beta iota.
  destruct ((200 <=? s) && (s <? 300)); [discriminate |].
  destruct ((400 <=? s) && (s <? 500)); [discriminate | reflexivity].
Qed.

Lemma attemptsFrom_final (left : nat) (i : Z) (delay : Duration)
    (lastErr : error) (pauses : list Duration) :
  retried (network i) = false ->
  attemptsFrom provider network (S left) i delay lastErr pauses
  = endedBy provider network i pauses.
Proof.
  cbn [attemptsFrom]. unfold retried, endedBy, errorOf.
  destruct (network i) as [e | e | s e | s b]; try discriminate;
    try reflexivity. cbv beta iota.
  destruct ((200 <=? s) && (s <? 300)); [reflexivity |].
  destruct ((400 <=? s) && (s <? 500)); [reflexivity | discriminate].
Qed.


Lemma first_attempts :
  add64 0 1 = 1 /\ add64 1 1 = 2 /\ add64 2 1 = 3
  /\ mul64 initialRetryDelay 2 = 2 * initialRetryDelay
  /\ mul64 (2 * initialRetryDelay) 2 = 4 * initialRetryDelay.
Proof. repeat split; reflexivity. Qed.

(** The loop ends with the first of the three attempts that is not
    retried, or after the third. *)
Lemma doRequest_cases :
  (exists k : nat,
      (k < 3)%nat
      /\ doRequest provider network
         = endedBy provider network (Z.of_nat k) (pausesBefore k))
  \/ (retried (network 2) = true
      /\ doRequest provider network
         = {| body := ""; error_ := errorOf provider 2 (network 2); sent := 3;
              slept := pausesBefore 3 |}).
Proof.
  unfold doRequest. change (Z.to_nat maxRetries) with 3%nat.
  destruct first_attempts as (A1 & A2 & A3 & M1 & M2).
  destruct (retried (network 0)) eqn:R0.
  2:{ left. exists 0%nat. split; [lia |].
      now rewrite attemptsFrom_final. }
  rewrite attemptsFrom_retried by exact R0. rewrite A1.
  destruct (retried (network 1)) eqn:R1.
  2:{ left. exists 1%nat. split; [lia |].
      now rewrite attemptsFrom_final. }
  rewrite attemptsFrom_retried by exact R1. rewrite A2.
  destruct (retried (network 2)) eqn:R2.
  2:{ left. exists 2%nat. split; [lia |].
      rewrite attemptsFrom_final by exact R2. now rewrite M1. }
  right. split; [reflexivity |].
  rewrite attemptsFrom_retried by exact R2. rewrite A3. reflexivity.
Qed.

(** [doRequest] ends with the first attempt that is not retried: it
    returns what that attempt gives (the body of a 2xx response, else the
    error of the attempt, so a 4xx response is reported at once), after
    one request per attempt and after the pauses 2 s, 4 s, ... between
    the attempts. *)
Theorem doRequest_ends_at_first_final_attempt (k : nat) :
  (k < 3)%nat ->
  (forall j, (j < k)%nat -> retried (network (Z.of_nat j)) = true) ->
  retried (network (Z.of_nat k)) = false ->
  doRequest provider network
  = endedBy provider network (Z.of_nat k) (pausesBefore k).
Proof.
  intros Hk Hbefore Hfinal. unfold doRequest.
  change (Z.to_nat maxRetries) with 3%nat.
  destruct first_attempts as (A1 & A2 & A3 & M1 & M2).
  destruct k as [|[|[|k]]]; [| | | lia].
  - now rewrite attemptsFrom_final.
  - rewrite attemptsFrom_retried by (apply (Hbefore 0%nat); lia).
    rewrite A1. now rewrite attemptsFrom_final.
  - rewrite attemptsFrom_retried by (apply (Hbefore 0%nat); lia).
    rewrite A1.
    rewrite attemptsFrom_retried by (apply (Hbefore 1%nat); lia).
    rewrite A2. rewrite attemptsFrom_final by exact Hfinal.
    rewrite M1. reflexivity.
Qed.

(** When each of the three attempts is one that is retried, [doRequest]
    gives up: it returns the error of the third attempt, after three
    requests and pauses of 2 s, 4 s and 8 s (the last one after the
    third attempt). *)
Theorem doRequest_gives_up_after_three_attempts :
  (forall j, (j < 3)%nat -> retried (network (Z.of_nat j)) = true) ->
  doRequest provider network
  = {| body := ""; error_ := errorOf provider 2 (network 2); sent := 3;
       slept := [2 * Second; 4 * Second; 8 * Second] |}.
Proof.
  intros Hall. unfold doRequest.
  change (Z.to_nat maxRetries) with 3%nat.
  destruct first_attempts as (A1 & A2 & A3 & M1 & M2).
  rewrite attemptsFrom_retried by (apply (Hall 0%nat); lia). rewrite A1.
  rewrite attemptsFrom_retried by (apply (Hall 1%nat); lia). rewrite A2.
  rewrite attemptsFrom_retried by (apply (Hall 2%nat); lia). rewrite A3.
  reflexivity.
Qed.

(** Whatever the network does, [doRequest] sends at most three requests
    and pauses at most 14 s in all, and it returns no error only with the
    body of a 2xx response that one of its attempts received. *)
Theorem doRequest_bounds :
  let out := doRequest provider network in
  0 <= sent out <= maxRetries
  /\ (exists n, (n <= 3)%nat /\ slept out = pausesBefore n)
  /\ fold_right Z.add 0 (slept out) <= 14 * Second
  /\ (error_ out = None ->
      exists k StatusCode,
        0 <= k < maxRetries
        /\ network k = Reply StatusCode (body out)
        /\ 200 <= StatusCode < 300).
Proof.
  cbn zeta.
  assert (Hend : forall k : nat, (k < 3)%nat ->
    let out := endedBy provider network (Z.of_nat k) (pausesBefore k) in
    0 <= sent out <= maxRetries
    /\ (exists n, (n <= 3)%nat /\ slept out = pausesBefore n)
    /\ fold_right Z.add 0 (slept out) <= 14 * Second
    /\ (error_ out = None ->
        exists j StatusCode,
          0 <= j < maxRetries
          /\ network j = Reply StatusCode (body out)
          /\ 200 <= StatusCode < 300)).
  { intros k Hk. cbn zeta. unfold endedBy.
    destruct first_attempts as (A1 & A2 & A3 & _).
    cbn [sent slept error_ body].
    assert (Hs : 0 <= match network (Z.of_nat k) with
                      | CreateFails _ => Z.of_nat k
                      | _ => add64 (Z.of_nat k) 1
                      end <= maxRetries).
    { destruct k as [|[|[|k]]]; [| | | lia];
        try change (Z.of_nat 0) with 0; try change (Z.of_nat 1) with 1;
        try change (Z.of_nat 2) with 2;
        destruct (network _); rewrite ?A1, ?A2, ?A3; unfold maxRetries;
        lia. }
    split; [exact Hs |]. split; [exists k; split; [lia | reflexivity] |].
    split.
    { destruct k as [|[|[|k]]]; [| | | lia]; apply Z.leb_le; reflexivity. }
    unfold errorOf.
    destruct (network (Z.of_nat k)) as [e | e | s e | s b] eqn:N;
      try discriminate.
    destruct ((200 <=? s) && (s <? 300)) eqn:B; [| discriminate].
    intros _. exists (Z.of_nat k), s.
    apply andb_true_iff in B. destruct B as [B1 B2].
    apply Z.leb_le in B1. apply Z.ltb_lt in B2.
    split; [unfold maxRetries; lia |]. split; [exact N | lia]. }
  destruct doRequest_cases as [(k & Hk & ->) | (R2 & ->)];
    [apply (Hend k Hk) |].
  cbn [sent slept error_ body]. split; [unfold maxRetries; lia |].
  split; [exists 3%nat; split; [lia | reflexivity] |].
  split; [apply Z.leb_le; reflexivity |].
  unfold retried, errorOf in *.
  destruct (network 2) as [e | e | s e | s b]; try discriminate.
  destruct ((200 <=? s) && (s <? 300)); [discriminate R2 | discriminate].
Qed.

End RetryFacts.

(** ** The tool loop *)

Section ToolLoopFacts.
Import GoNum GoErr Strconv GoTime Redis Profiler Tools ToolLoop.
Local Open Scope Z_scope.
Variable float32 : Type.
Context `{GoLib}.
Variable clients : gmap string (LLMClient float32).
Variable toolManager : ToolManager.
Variable rangeOrder : ToolManager -> list (string * ToolExecutor).
Variable usageAdd : Usage -> Usage -> Usage.

Lemma tool_messages_appended (toolCalls : list ToolCall) :
  forall messages : list Message,
    fold_left
      (fun msgs toolCall => (msgs ++ [toolMessage toolManager toolCall])%list)
      toolCalls messages
    = (messages ++ map (toolMessage toolManager) toolCalls)%list.
Proof.
  induction toolCalls as [|toolCall rest IH]; intros messages; cbn.
  - now rewrite List.app_nil_r.
  - rewrite IH. now rewrite <- List.app_assoc.
Qed.

(** What the rounds of the loop leave, from any point of the loop. *)
Lemma toolRounds_spec (client : LLMClient float32)
    (llmConfig : GenerationConfig float32) (modelID : string) (db : DB)
    (left : nat) :
  let answer messages :=
    client messages llmConfig (GetDefinitions rangeOrder toolManager) in
  forall (messages : list Message) (cumulativeUsage : Usage)
         (sent : list (list Message)),
    let out :=
      toolRounds float32 toolManager rangeOrder usageAdd client llmConfig modelID db
        left messages cumulativeUsage sent in
    exists new : list (list Message),
      calls out = (sent ++ new)%list
      /\ (List.length new <= left)%nat
      /\ match new with
         | [] => left = 0%nat
         | first :: rest =>
             first = messages /\ linked toolManager answer first rest
         end
      /\ match error_ out with
         | None =>
             exists lastMessages result,
               last new = Some lastMessages
               /\ answer lastMessages = (result, None)
               /\ ResultToolCalls result = []
               /\ content out = ResultContent result
               /\ model out = modelID /\ store out = db
               /\ usage out = usageOver usageAdd answer new cumulativeUsage
         | Some e =>
             content out = "" /\ usage out = noUsage /\ model out = ""
             /\ ((e = New "exceeded maximum number of tool calls"
                  /\ List.length new = left /\ store out = db
                  /\ Forall (fun sentMessages =>
                               exists result,
                                 answer sentMessages = (result, None)
                                 /\ ResultToolCalls result <> []) new)
                 \/ (exists lastMessages result e0,
                       last new = Some lastMessages
                       /\ answer lastMessages = (result, Some e0)
                       /\ e = Failure
                                ("LLM generation failed during tool loop: "
                                 ++ Error e0)
                       /\ store out = UpdateProfileOnFailure db modelID))
         end.
Proof.
  intros answer. induction left as [|left IH];
    intros messages cumulativeUsage sent; cbn zeta.
  - exists []. cbn. rewrite List.app_nil_r.
    split; [reflexivity |]. split; [lia |]. split; [reflexivity |].
    repeat (split; [reflexivity |]). left. repeat split; constructor.
  - cbn [toolRounds]. fold (answer messages).
    destruct (answer messages) as [result e] eqn:A.
    destruct e as [e |].
    + exists [messages]. cbn [calls error_ content usage model store].
      split; [reflexivity |]. split; [cbn; lia |].
      split; [split; [reflexivity | exact I] |].
      repeat (split; [reflexivity |]). right.
      exists messages, result, e. repeat split; [exact A].
    + destruct (List.length (ResultToolCalls result) =? 0)%nat eqn:L.
      * apply Nat.eqb_eq in L. apply length_zero_iff_nil in L.
        exists [messages]. cbn [calls error_ content usage model store].
        split; [reflexivity |]. split; [cbn; lia |].
        split; [split; [reflexivity | exact I] |].
        exists messages, result. split; [reflexivity |].
        split; [exact A |]. split; [exact L |].
        repeat (split; [reflexivity |]).
        unfold usageOver. cbn. now rewrite A.
      * apply Nat.eqb_neq in L.
        assert (Hne : ResultToolCalls result <> []).
        { intros E. apply L. now rewrite E. }
        rewrite tool_messages_appended. rewrite <- List.app_assoc.
        change ([{| Role := RoleAssistant; Content := ResultContent result;
                    ToolCallID := ""; ToolCalls := ResultToolCalls result |}]
                ++ map (toolMessage toolManager) (ResultToolCalls result))%list
          with (roundMessages toolManager result).
        destruct (IH (messages ++ roundMessages toolManager result)%list
                    (usageAdd cumulativeUsage (ResultUsage result))
                    (sent ++ [messages])%list)
          as (new & Hcalls & Hlen & Hlink & Hres). cbn zeta in *.
        exists (messages :: new).
        split; [rewrite Hcalls, <- List.app_assoc; reflexivity |].
        split; [cbn; lia |].
        split.
        { split; [reflexivity |]. destruct new as [|first rest].
          - exact I.
          - destruct Hlink as [-> Hl]. cbn [linked]. split; [| exact Hl].
            exists result. auto. }
        destruct (error_ _) as [e |].
        -- destruct Hres as (C & U & M & Hcase).
           split; [exact C |]. split; [exact U |]. split; [exact M |].
           destruct Hcase as [(E & Ln & S & Fa)
                             | (lm & r & e0 & La & An & E & S)].
           ++ left. split; [exact E |]. split; [cbn; lia |].
              split; [exact S |]. constructor; [| exact Fa].
              exists result. auto.
           ++ right. exists lm, r, e0. split; [| auto].
              destruct new; [discriminate La | exact La].
        -- destruct Hres as (lm & r & La & An & Tc & C & M & S & U).
           exists lm, r. split; [destruct new; [discriminate La | exact La] |].
           split; [exact An |]. split; [exact Tc |]. split; [exact C |].
           split; [exact M |]. split; [exact S |].
           rewrite U. unfold usageOver. cbn [fold_left]. now rewrite A.
Qed.


Lemma handleToolLoop_rounds (db : DB) (req : ToolRequest float32)
    (client : LLMClient float32) :
  clients !! "gpt-4o" = Some client ->
  handleToolLoop float32 clients toolManager rangeOrder usageAdd db req
  = toolRounds float32 toolManager rangeOrder usageAdd client
      (loopConfig float32 req) "gpt-4o" db 5 (firstMessages float32 req)
      noUsage [].
Proof. intros Hc. unfold handleToolLoop. now rewrite Hc. Qed.

(** The conversation the tool loop holds with the model: at most five
    calls of [Generate]; the first sends the history and then the prompt
    as a user message; each later call sends what the call before it
    sent, then the answer of the model with its tool calls, then one
    tool message for each of these calls, in their order and with their
    ids. *)
Theorem tool_loop_transcript (db : DB) (req : ToolRequest float32)
    (client : LLMClient float32) :
  clients !! "gpt-4o" = Some client ->
  let out :=
    handleToolLoop float32 clients toolManager rangeOrder usageAdd db req in
  (exists rest,
      calls out = firstMessages float32 req :: rest
      /\ (List.length (calls out) <= 5)%nat
      /\ linked toolManager
           (answerTo float32 toolManager rangeOrder client req)
           (firstMessages float32 req) rest)
  /\ forall result,
      map (fun m => (Role m, ToolCallID m)) (roundMessages toolManager result)
      = (RoleAssistant, "")
        :: map (fun toolCall => (RoleTool, ID toolCall))
             (ResultToolCalls result).
Proof.
  intros Hc. cbn zeta. rewrite (handleToolLoop_rounds db req client Hc).
  split.
  - destruct (toolRounds_spec client (loopConfig float32 req) "gpt-4o" db 5
                (firstMessages float32 req) noUsage [])
      as (new & Hcalls & Hlen & Hlink & _). cbn zeta in *.
    rewrite Hcalls. cbn [app].
    destruct new as [|first rest]; [discriminate Hlink |].
    destruct Hlink as [-> Hl]. exists rest.
    split; [reflexivity |]. split; [exact Hlen | exact Hl].
  - intros result. unfold roundMessages. cbn [map Role ToolCallID].
    f_equal. rewrite map_map. apply map_ext. intros toolCall.
    unfold toolMessage. destruct (ExecuteTool _ _ _) as [r e].
    reflexivity.
Qed.

(** The answer of the tool loop: when it returns no error, the content
    is that of the answer to its last call, which asked for no tool; the
    usage is the sum over the answers to all its calls; the model it
    reports is [gpt-4o]; and the store is as it was. *)
Theorem tool_loop_final_answer (db : DB) (req : ToolRequest float32)
    (client : LLMClient float32) :
  clients !! "gpt-4o" = Some client ->
  let answer := answerTo float32 toolManager rangeOrder client req in
  let out :=
    handleToolLoop float32 clients toolManager rangeOrder usageAdd db req in
  error_ out = None ->
  exists lastMessages result,
    last (calls out) = Some lastMessages
    /\ answer lastMessages = (result, None)
    /\ ResultToolCalls result = []
    /\ content out = ResultContent result
    /\ model out = "gpt-4o"
    /\ store out = db
    /\ usage out = usageOver usageAdd answer (calls out) noUsage.
Proof.
  intros Hc. cbn zeta. rewrite (handleToolLoop_rounds db req client Hc).
  destruct (toolRounds_spec client (loopConfig float32 req) "gpt-4o" db 5
              (firstMessages float32 req) noUsage [])
    as (new & Hcalls & _ & _ & Hres). cbn zeta in *.
  intros He. rewrite He in Hres. rewrite Hcalls. cbn [app]. exact Hres.
Qed.

(** The errors of the tool loop.  With an error it returns no content, no
    model and an empty usage (what the calls used so far is dropped), and
    the error is one of three: there is no client for [gpt-4o], and
    nothing was sent; or each of five calls was answered with tool calls;
    or a call failed, and the failure was recorded in the profile of
    [gpt-4o]. *)
Theorem tool_loop_errors (db : DB) (req : ToolRequest float32) (e : err) :
  let out :=
    handleToolLoop float32 clients toolManager rangeOrder usageAdd db req in
  error_ out = Some e ->
  content out = "" /\ usage out = noUsage /\ model out = ""
  /\ ((clients !! "gpt-4o" = None
       /\ e = Failure "tool-use model 'gpt-4o' is not available or enabled"
       /\ calls out = [] /\ store out = db)
      \/ (exists client,
            clients !! "gpt-4o" = Some client
            /\ e = New "exceeded maximum number of tool calls"
            /\ List.length (calls out) = 5%nat /\ store out = db
            /\ Forall
                 (fun sentMessages =>
                    exists result,
                      answerTo float32 toolManager rangeOrder client req
                        sentMessages = (result, None)
                      /\ ResultToolCalls result <> []) (calls out))
      \/ (exists client lastMessages result e0,
            clients !! "gpt-4o" = Some client
            /\ last (calls out) = Some lastMessages
            /\ answerTo float32 toolManager rangeOrder client req lastMessages
               = (result, Some e0)
            /\ e = Failure ("LLM generation failed during tool loop: "
                            ++ Error e0)
            /\ store out = UpdateProfileOnFailure db "gpt-4o")).
Proof.
  cbn zeta. destruct (clients !! "gpt-4o") as [client |] eqn:Hc.
  - rewrite (handleToolLoop_rounds db req client Hc).
    destruct (toolRounds_spec client (loopConfig float32 req) "gpt-4o" db 5
                (firstMessages float32 req) noUsage [])
      as (new & Hcalls & _ & _ & Hres). cbn zeta in *.
    intros He. rewrite He in Hres. rewrite Hcalls. cbn [app].
    destruct Hres as (C & U & M & Hcase).
    split; [exact C |]. split; [exact U |]. split; [exact M |]. right.
    destruct Hcase as [(E & Ln & S & Fa) | (lm & r & e0 & La & An & E & S)].
    + left. exists client. auto.
    + right. exists client, lm, r, e0. auto.
  - unfold handleToolLoop. rewrite Hc.
    cbn [error_ content usage model calls store]. intros [= <-].
    repeat (split; [reflexivity |]). left. auto.
Qed.

End ToolLoopFacts.

(** ** The prompt analyzer *)

Section PromptAnalyzerFacts.
Import GoStrings GoNum PromptAnalyzer.
Local Open Scope Z_scope.
Variable TrimSpace : string -> string.
Variable unicodeToLower : string -> string.
Variable codeBlockRegex : string -> bool.
Variable codingArchetypes : string -> bool.
Variable simpleQueryArchetypes : string -> bool.
Variable mediumComplexityArchetypes : string -> bool.
Variable highComplexityArchetypes : string -> bool.
Variable ultraComplexityArchetypes : string -> bool.

Lemma countByte_bounds (c : ascii) (s : string) :
  0 <= countByte c s <= Z.of_nat (String.length s).
Proof.
  induction s as [|c' s IH]; [cbn; lia |].
  cbn [countByte String.length]. destruct (Ascii.eqb c' c); lia.
Qed.

Lemma wrap64_small (z : Z) : inInt64 z -> wrap64 z = z.
Proof.
  unfold inInt64, wrap64, minInt64, maxInt64. intros Hz.
  rewrite Z.mod_small by lia. lia.
Qed.

(** The score of a prompt of less than [2 ^ 60] bytes: the length over
    200, twice the number of line feeds, and 5, 15 and 30 for the three
    complexity patterns, without wrap-around. *)
Lemma complexityOf_sum (p : string) :
  Z.of_nat (String.length p) < 2 ^ 60 ->
  complexityOf mediumComplexityArchetypes highComplexityArchetypes
    ultraComplexityArchetypes p
  = Z.of_nat (String.length p) ÷ 200 + 2 * countByte newline p
    + (if mediumComplexityArchetypes p then 5 else 0)
    + (if highComplexityArchetypes p then 15 else 0)
    + (if ultraComplexityArchetypes p then 30 else 0).
Proof.
  intros Hlen. unfold complexityOf, add64, mul64.
  pose proof (countByte_bounds newline p) as Hc.
  assert (Hq : 0 <= Z.of_nat (String.length p) ÷ 200
               <= Z.of_nat (String.length p)).
  { rewrite Z.quot_div_nonneg by lia. split.
    - apply Z.div_pos; lia.
    - apply Z.div_le_upper_bound; lia. }
  assert (H60 : 2 ^ 60 = 1152921504606846976) by reflexivity.
  rewrite H60 in Hlen.
  repeat match goal with
         | |- context [wrap64 ?z] =>
             rewrite (wrap64_small z)
               by (unfold inInt64, minInt64, maxInt64;
                   repeat match goal with
                          | |- context [if ?b then _ else _] => destruct b
                          end; lia)
         | |- context [if ?b then _ else _] => destruct b
         end; lia.
Qed.

(** How [Analyze] grades a prompt that is not a coding prompt, by the
    complexity patterns it matches: an ultra pattern gives [max_quality];
    a high pattern gives [default] or [max_quality]; a medium pattern
    rules out [cost], also for a prompt that starts like a simple
    question; and [cost] is given only to a prompt of less than 1000
    bytes and at most two line feeds that matches the simple pattern
    and none of the three. *)
Theorem Analyze_grades_by_complexity (prompt : string) :
  let p := normalize TrimSpace unicodeToLower prompt in
  let result :=
    Analyze TrimSpace unicodeToLower codeBlockRegex codingArchetypes
      simpleQueryArchetypes mediumComplexityArchetypes
      highComplexityArchetypes ultraComplexityArchetypes prompt in
  Z.of_nat (String.length p) < 2 ^ 60 ->
  scored TrimSpace unicodeToLower codeBlockRegex codingArchetypes prompt ->
  (ultraComplexityArchetypes p = true -> result = "max_quality")
  /\ (highComplexityArchetypes p = true ->
      result = "default" \/ result = "max_quality")
  /\ (mediumComplexityArchetypes p = true -> result <> "cost")
  /\ (result = "cost" ->
      simpleQueryArchetypes p = true
      /\ mediumComplexityArchetypes p = false
      /\ highComplexityArchetypes p = false
      /\ ultraComplexityArchetypes p = false
      /\ Z.of_nat (String.length p) < 1000
      /\ countByte newline p <= 2).
Proof.
  intros p result Hlen (Hne & Hcb & Hcd). subst result. unfold Analyze.
  fold p in Hne, Hcb, Hcd |- *.
  apply String.eqb_neq in Hne. rewrite Hne, Hcb, Hcd. cbn [orb].
  rewrite (complexityOf_sum p Hlen).
  pose proof (countByte_bounds newline p) as Hc.
  assert (Hq : 0 <= Z.of_nat (String.length p) ÷ 200).
  { rewrite Z.quot_div_nonneg by lia. apply Z.div_pos; lia. }
  assert (Hq5 : Z.of_nat (String.length p) ÷ 200 < 5 ->
                Z.of_nat (String.length p) < 1000).
  { rewrite Z.quot_div_nonneg by lia. intros Hd.
    destruct (Z.lt_ge_cases (Z.of_nat (String.length p)) 1000) as [|Hge];
      [assumption |].
    assert (5 <= Z.of_nat (String.length p) / 200)
      by (apply Z.div_le_lower_bound; lia). lia. }
  set (score := _ + _ + _ + _ + _) in *.
  destruct (mediumComplexityArchetypes p), (highComplexityArchetypes p),
    (ultraComplexityArchetypes p), (simpleQueryArchetypes p);
    cbn [andb];
    repeat match goal with
           | |- context [?a <? ?b] => destruct (Z.ltb_spec a b)
           end;
    subst score;
    repeat split; intros; try discriminate; try lia; auto.
Qed.

End PromptAnalyzerFacts.

(** ** The response cache and the cache keys *)

Section CacheFacts.
Import GoStrings GoNum GoErr Strconv GoTime Redis Sha256 Version Cache.
Local Open Scope Z_scope.

Lemma GenerateCacheKey_length (prompt : string) :
  String.length (GenerateCacheKey prompt) = 64%nat.
Proof.
  unfold GenerateCacheKey. now rewrite EncodeToString_length, sum_length.
Qed.

(** A cached response is found again: after [SetCache] on a store within
    reach, [CheckCache] with the same text returns the response, the
    entry lives for 24 hours under a key of 73 bytes, and the lookup of a
    text with another digest, every hash and every other string and time
    to live are as before.  With the store out of reach [SetCache]
    changes nothing and [CheckCache] reports a miss. *)
Theorem response_cache_round_trip (db : DB) (prompt response : string) :
  let cacheKey := responseCachePrefix ++ GenerateCacheKey prompt in
  let db' := SetCache db prompt response in
  (reachable db = true ->
   CheckCache db' prompt = (response, true)
   /\ ttl db' !! cacheKey = Some (24 * Hour)
   /\ String.length cacheKey = 73%nat
   /\ (forall other,
         GenerateCacheKey other <> GenerateCacheKey prompt ->
         CheckCache db' other = CheckCache db other)
   /\ (forall k, k <> cacheKey ->
         hashAt db' k = hashAt db k /\ strings db' !! k = strings db !! k
         /\ ttl db' !! k = ttl db !! k))
  /\ (reachable db = false ->
      db' = db /\ CheckCache db prompt = ("", false)).
Proof.
  intros cacheKey db'. subst db'. unfold SetCache, Set_. fold cacheKey.
  split; intros R; rewrite R; cbn [snd].
  - change (0 <? responseCacheTTL) with true. cbv iota.
    split; [| split; [| split; [| split]]].
    + unfold CheckCache, Get. fold cacheKey. cbn [reachable strings].
      now rewrite lookup_insert_eq.
    + cbn [ttl]. now rewrite lookup_insert_eq.
    + subst cacheKey. unfold responseCachePrefix.
      rewrite !app_cons, app_nil_l. cbn [String.length].
      now rewrite GenerateCacheKey_length.
    + intros other Hne. unfold CheckCache, Get. cbn [reachable strings].
      rewrite R. rewrite lookup_insert_ne; [reflexivity |].
      subst cacheKey. intros E. apply app_inv_head in E. congruence.
    + intros k Hk. unfold hashAt. cbn [hashes strings ttl].
      rewrite lookup_delete_ne by congruence.
      rewrite !lookup_insert_ne by congruence. auto.
  - split; [reflexivity |]. unfold CheckCache, Get. now rewrite R.
Qed.

(** A change of a component version changes every cache key: for version
    texts without an underscore in the tools and RAG data versions, keys
    made under different versions differ, whatever the prompts are (no
    property of SHA-256 is needed: the digest has a fixed length, so the
    version can be read off the key). *)
Theorem version_change_changes_every_key
    (cv1 cv2 : ComponentVersionsT) (prefix prompt1 prompt2 : string) :
  separable cv1 -> separable cv2 ->
  cv1 <> cv2 ->
  GenerateVersionedCacheKey cv1 prefix prompt1
  <> GenerateVersionedCacheKey cv2 prefix prompt2.
Proof.
  intros S1 S2 Hne E. apply Hne. unfold GenerateVersionedCacheKey in E.
  apply app_inv_head in E. apply (app_inv_head ":") in E.
  apply app_inv_length in E as [_ Hv]; [| now rewrite !promptHash_length].
  apply (app_inv_head ":") in Hv. now apply versionString_inj.
Qed.

End CacheFacts.

(** ** Messages in the form of the providers *)

Section ProviderFacts.
Import GoStrings Tools ToolLoop Providers.

Lemma toAnthropicMessages_from (messages : list Message) :
  forall (systemPrompt : string) (anthropicMsgs : list anthropicMessage),
    fold_left anthropicStep messages (systemPrompt, anthropicMsgs)
    = (match last (List.filter isSystem messages) with
       | Some msg => Content msg
       | None => systemPrompt
       end,
       (anthropicMsgs
        ++ map anthropicOf
             (List.filter (fun msg => negb (isSystem msg)) messages))%list).
Proof.
  induction messages as [|msg rest IH]; intros systemPrompt anthropicMsgs.
  - cbn. now rewrite List.app_nil_r.
  - cbn [fold_left List.filter]. unfold anthropicStep at 2.
    destruct (isSystem msg) eqn:S; pose proof S as E; unfold isSystem in E;
      rewrite E; cbn [negb].
    + rewrite IH. f_equal.
      destruct (List.filter isSystem rest) as [|m l] eqn:F;
        [reflexivity |].
      change (last (msg :: m :: l)) with (last (m :: l)).
      destruct (last (m :: l)) eqn:La; [reflexivity |].
      apply last_None in La. discriminate La.
    + rewrite IH. cbn [map]. now rewrite <- List.app_assoc.
Qed.

Lemma anthropic_fold_ext (others : list Message) :
  forall (messages : list Message) (acc : string * list anthropicMessage),
    map (fun msg => (Role msg, Content msg, ToolCallID msg)) others
    = map (fun msg => (Role msg, Content msg, ToolCallID msg)) messages ->
    fold_left anthropicStep others acc = fold_left anthropicStep messages acc.
Proof.
  induction others as [|o others IH]; intros [|m messages] acc Hm;
    try discriminate Hm; [reflexivity |].
  injection Hm as Hr Hc Hi Hrest. cbn [fold_left].
  assert (Hstep : anthropicStep acc o = anthropicStep acc m).
  { unfold anthropicStep, anthropicOf. destruct acc as [sp ms].
    now rewrite Hr, Hc, Hi. }
  rewrite Hstep. apply IH, Hrest.
Qed.

(** What the Anthropic client sends of a conversation: the messages that
    are no system messages, in their order, a tool message as a user
    message with one [tool_result] block that carries its id and its
    content, every other message with its role and its content as text;
    the system prompt is the content of the last system message; no
    message sent has the role [system] or [tool]; and the tool calls of
    an assistant message are not sent. *)
Theorem toAnthropicMessages_shape (messages : list Message) :
  snd (toAnthropicMessages messages)
  = map anthropicOf (List.filter (fun msg => negb (isSystem msg)) messages)
  /\ fst (toAnthropicMessages messages)
     = match last (List.filter isSystem messages) with
       | Some msg => Content msg
       | None => ""
       end
  /\ Forall (fun sent => AnthropicRole sent <> "system"
                         /\ AnthropicRole sent <> "tool")
       (snd (toAnthropicMessages messages))
  /\ (forall others : list Message,
        map (fun msg => (Role msg, Content msg, ToolCallID msg)) others
        = map (fun msg => (Role msg, Content msg, ToolCallID msg)) messages ->
        toAnthropicMessages others = toAnthropicMessages messages).
Proof.
  assert (H4 : forall others : list Message,
    map (fun msg => (Role msg, Content msg, ToolCallID msg)) others
    = map (fun msg => (Role msg, Content msg, ToolCallID msg)) messages ->
    toAnthropicMessages others = toAnthropicMessages messages).
  { intros others Hm. unfold toAnthropicMessages.
    now apply anthropic_fold_ext. }
  split; [| split; [| split; [| exact H4]]]; clear H4;
    unfold toAnthropicMessages; rewrite (toAnthropicMessages_from messages);
    cbn [fst snd app]; try reflexivity.
  apply Forall_forall. intros sent Hin.
    apply list_elem_of_In, in_map_iff in Hin. destruct Hin as (msg & <- & Hin).
    apply filter_In in Hin. destruct Hin as [_ Hs].
    unfold isSystem in Hs. apply negb_true_iff in Hs.
    unfold anthropicOf.
    destruct (String.eqb (Role msg) RoleTool) eqn:T; cbn [AnthropicRole].
  - split; discriminate.
  - split; intros E; rewrite E in *; discriminate.
Qed.

Lemma toOpenAIMessages_from (messages : list Message) :
  forall sent : list openAIMessage,
    fold_left
      (fun openAIMsgs msg =>
         (openAIMsgs
          ++ [if String.eqb (Role msg) RoleTool then
                {| OpenAIRole := Role msg; OpenAIContent := Content msg;
                   OpenAIToolCalls := []; OpenAIToolCallID := ToolCallID msg |}
              else if String.eqb (Role msg) RoleAssistant then
                {| OpenAIRole := Role msg; OpenAIContent := Content msg;
                   OpenAIToolCalls := ToolCalls msg; OpenAIToolCallID := "" |}
              else
                {| OpenAIRole := Role msg; OpenAIContent := Content msg;
                   OpenAIToolCalls := []; OpenAIToolCallID := "" |}])%list)
      messages sent
    = (sent
       ++ map (fun msg =>
                 {| OpenAIRole := Role msg; OpenAIContent := Content msg;
                    OpenAIToolCalls :=
                      if String.eqb (Role msg) RoleAssistant
                      then ToolCalls msg else [];
                    OpenAIToolCallID :=
                      if String.eqb (Role msg) RoleTool
                      then ToolCallID msg else "" |}) messages)%list.
Proof.
  induction messages as [|msg rest IH]; intros sent; cbn [fold_left map].
  - now rewrite List.app_nil_r.
  - rewrite IH, <- List.app_assoc. cbn [app]. do 2 f_equal.
    destruct (String.eqb (Role msg) RoleTool) eqn:T;
      destruct (String.eqb (Role msg) RoleAssistant) eqn:A; try reflexivity.
    apply String.eqb_eq in T, A. rewrite T in A. discriminate A.
Qed.

(** [toOpenAIMessages] as a map over the conversation. *)
Lemma toOpenAIMessages_map (messages : list Message) :
  toOpenAIMessages messages
  = map (fun msg =>
           {| OpenAIRole := Role msg; OpenAIContent := Content msg;
              OpenAIToolCalls :=
                if String.eqb (Role msg) RoleAssistant
                then ToolCalls msg else [];
              OpenAIToolCallID :=
                if String.eqb (Role msg) RoleTool
                then ToolCallID msg else "" |}) messages.
Proof. unfold toOpenAIMessages. now rewrite toOpenAIMessages_from. Qed.

(** A round of the tool loop as the OpenAI client sends it: the messages
    before the round are sent as before (the conversation only grows),
    then the answer of the model as an assistant message with its tool
    calls, then one tool message for each of these calls, in their
    order, each with the id of its call. *)
Theorem tool_round_as_sent_to_openai (toolManager : ToolManager)
    (messages : list Message) (result : GenerationResult) :
  exists assistant answers,
    toOpenAIMessages (messages ++ roundMessages toolManager result)
    = (toOpenAIMessages messages ++ assistant :: answers)%list
    /\ OpenAIRole assistant = "assistant"
    /\ OpenAIContent assistant = ResultContent result
    /\ OpenAIToolCalls assistant = ResultToolCalls result
    /\ map OpenAIToolCallID answers = map ID (OpenAIToolCalls assistant)
    /\ Forall (fun answer => OpenAIRole answer = "tool"
                             /\ OpenAIToolCalls answer = []) answers.
Proof.
  rewrite !toOpenAIMessages_map, map_app. unfold roundMessages.
  cbn [map Role Content ToolCalls ToolCallID].
  change (String.eqb RoleAssistant RoleAssistant) with true.
  change (String.eqb RoleAssistant RoleTool) with false. cbv iota.
  eexists. eexists. split; [reflexivity |].
  cbn [OpenAIRole OpenAIContent OpenAIToolCalls].
  repeat (split; [reflexivity |]). split.
  - rewrite !map_map. apply map_ext. intros toolCall.
    unfold toolMessage. destruct (ExecuteTool _ _ _) as [r e].
    reflexivity.
  - apply Forall_forall. intros answer Hin.
    apply list_elem_of_In in Hin. rewrite map_map in Hin.
    apply in_map_iff in Hin. destruct Hin as (toolCall & <- & _).
    unfold toolMessage. destruct (ExecuteTool _ _ _) as [r e].
    split; reflexivity.
Qed.

End ProviderFacts.

(** ** The further theorems at work on the example data *)

Section MoreExamples.
Import GoStrings GoNum GoErr Strconv GoTime Redis Profiler Router Handler
  Scoring Counters Health Demo Scenarios.
Local Open Scope Z_scope.

Lemma contenders_are_configured_available_models_witness :
  In "mistral-small" enabledModels
  /\ is_Some (Models config !! "mistral-small").
Proof.
  apply (proj2 (contenders_are_configured_available_models config costs
                  rangeOrder rangeOrder_is_a_permutation emptyDB now
                  enabledModels "default" 100 ∅)
           "mistral-small"
           (snd (SelectOptimalModel config costs rangeOrder emptyDB now
                   enabledModels "default" 100 ∅))).
  vm_compute. reflexivity.
Defined.

Lemma selected_model_scores_highest_witness :
  exists c,
    contendersOf config costs emptyDB now enabledModels 100 ∅
      !! "mistral-small" = Some c
    /\ forall id' c',
        contendersOf config costs emptyDB now enabledModels 100 ∅ !! id'
        = Some c' ->
        fgt (scoreIn rangeOrder
               (contendersOf config costs emptyDB now enabledModels 100 ∅)
               (strategy 4 3 3) c')
            (scoreIn rangeOrder
               (contendersOf config costs emptyDB now enabledModels 100 ∅)
               (strategy 4 3 3) c) = false.
Proof.
  apply (selected_model_scores_highest config costs rangeOrder
           rangeOrder_is_a_permutation emptyDB
           (snd (SelectOptimalModel config costs rangeOrder emptyDB now
                   enabledModels "default" 100 ∅))
           now enabledModels "default" 100 ∅ "mistral-small"
           (strategy 4 3 3) None).
  - vm_compute. reflexivity.
  - vm_compute. reflexivity.
Defined.

Lemma SelectOptimalModel_unreachable_store_witness :
  reachable unreachableDB = false
  /\ SelectOptimalModel config costs rangeOrder unreachableDB now
       enabledModels "default" 100 ∅
     = ("",
        Some (New "no suitable, healthy, and in-budget model found after filtering"),
        unreachableDB).
Proof.
  split; [reflexivity |].
  apply (SelectOptimalModel_unreachable_store config costs rangeOrder
           unreachableDB now enabledModels "default" 100 ∅).
  reflexivity.
Defined.

Lemma SelectOptimalModel_error_cases_witness :
  SelectOptimalModel config costs rangeOrder emptyDB now [] "default" 100 ∅
  = ("",
     Some (New "no suitable, healthy, and in-budget model found after filtering"),
     emptyDB)
  /\ contendersOf config costs emptyDB now [] 100 ∅ = ∅.
Proof.
  split; [reflexivity |].
  destruct (SelectOptimalModel_error_cases config costs rangeOrder emptyDB
              emptyDB now [] "default" 100 ∅ ""
              (New "no suitable, healthy, and in-budget model found after filtering")
              eq_refl)
    as (_ & [[_ Hc] | [[He _] | He]]);
    [exact Hc | discriminate He | discriminate He].
Defined.

Lemma profiler_leaves_unreachable_store_witness :
  GetProfile costs unreachableDB now "gpt-4o"
  = (None, Some connError, unreachableDB)
  /\ UpdateProfileOnSuccess costs unreachableDB now "gpt-4o" latency usage
     = unreachableDB
  /\ UpdateProfileOnFailure unreachableDB "gpt-4o" = unreachableDB
  /\ UpdateProfileOnHealthCheck costs unreachableDB now "gpt-4o" true
     = unreachableDB.
Proof.
  apply (profiler_leaves_unreachable_store costs unreachableDB now "gpt-4o"
           latency usage true).
  reflexivity.
Defined.

Lemma GetProfile_reads_back_default_witness :
  GetProfile costs profiledDB later "gpt-4o"
  = (Some (defaultProfileRead costs emptyDB now later "gpt-4o"), None,
     profiledDB).
Proof.
  apply (GetProfile_reads_back_default costs emptyDB now later "gpt-4o").
  - reflexivity.
  - vm_compute. reflexivity.
Defined.

Lemma failed_health_check_excludes_model_witness :
  fieldAt checkedOfflineDB (getProfileKey "gpt-4o") "status" = Some "offline"
  /\ contendersOf config costs checkedOfflineDB later enabledModels 100 ∅
       !! "gpt-4o" = None
  /\ forall selected db',
      SelectOptimalModel config costs rangeOrder checkedOfflineDB later
        enabledModels "max_quality" 100 ∅ = (selected, None, db') ->
      selected <> "gpt-4o".
Proof.
  apply (failed_health_check_excludes_model config costs rangeOrder
           rangeOrder_is_a_permutation emptyDB now later "gpt-4o"
           enabledModels "max_quality" 100 ∅).
  reflexivity.
Defined.

Lemma passed_health_check_keeps_model_fresh_witness :
  exists p,
    GetProfile costs checkedOnlineDB later "gpt-4o"
    = (Some p, None, checkedOnlineDB)
    /\ Status p = "online"
    /\ LastHealthCheck p = now
    /\ snd (passesPreChecks config later p 0%float) <> MarkedOffline
    /\ snd (passesPreChecks config later p 0%float) <> StaleHealthCheck.
Proof.
  apply (passed_health_check_keeps_model_fresh config costs emptyDB now later
           "gpt-4o" 0%float).
  - reflexivity.
  - vm_compute. reflexivity.
  - vm_compute. discriminate.
Defined.

Lemma success_update_counts_witness :
  let db' := UpdateProfileOnSuccess costs profiledDB now "gpt-4o" latency usage in
  fieldAt db' (getProfileKey "gpt-4o") "total_successes"
  = Some (FormatInt (1 + 1))
  /\ fieldAt db' (getProfileKey "gpt-4o") "total_input_tokens"
     = Some (FormatInt (0 + PromptTokens usage))
  /\ fieldAt db' (getProfileKey "gpt-4o") "total_output_tokens"
     = Some (FormatInt (0 + CompletionTokens usage))
  /\ fieldAt db' (getProfileKey "gpt-4o") "status" = Some "online"
  /\ fieldAt db' (getProfileKey "gpt-4o") "total_failures"
     = fieldAt profiledDB (getProfileKey "gpt-4o") "total_failures".
Proof.
  apply (success_update_counts costs profiledDB now "gpt-4o" latency usage
           1 0 0);
    try (vm_compute; reflexivity);
    unfold inInt64; vm_compute; split; discriminate.
Defined.

Lemma success_update_records_cost_witness :
  let key := costKey now "gpt-4o" in
  let db' := UpdateProfileOnSuccess costs profiledDB now "gpt-4o" latency usage in
  strings db' = <[key := "350"]> (strings profiledDB)
  /\ ttl db' = <[key := 35 * 24 * Hour]> (ttl profiledDB)
  /\ Float64 (Get db' key) = ParseFloat "350".
Proof.
  apply (success_update_records_cost costs profiledDB now "gpt-4o" latency
           usage "350").
  - reflexivity.
  - vm_compute. reflexivity.
Defined.


Lemma forced_session_is_locked_witness :
  let out :=
    determineModelID costs config rangeOrder enabledModels ∅ analyze
      forcedSessionDB later (chatRequest "mistral-small" "cost") in
  modelID out = "gpt-4o" /\ failoverInfo out = None /\ err out = None
  /\ response out = None
  /\ request out = chatRequest "mistral-small" "cost"
  /\ hashAt (store out) (sessionKeyOf "chat-1")
     = hashAt forcedSessionDB (sessionKeyOf "chat-1")
  /\ ttl (store out) !! sessionKeyOf "chat-1" = Some (1 * Hour).
Proof.
  apply (forced_session_is_locked costs config rangeOrder enabledModels ∅
           analyze forcedSessionDB later (chatRequest "mistral-small" "cost")
           "gpt-4o").
  - discriminate.
  - vm_compute. reflexivity.
  - vm_compute. reflexivity.
  - vm_compute. reflexivity.
Defined.

Lemma session_records_served_model_witness :
  let out :=
    determineModelID costs config rangeOrder enabledModels ∅ analyze
      emptyDB now (chatRequest "" "default") in
  fieldAt (store out) (sessionKeyOf "chat-1") "model_id" = Some (modelID out)
  /\ ttl (store out) !! sessionKeyOf "chat-1" = Some (1 * Hour).
Proof.
  apply (session_records_served_model costs config rangeOrder enabledModels ∅
           analyze emptyDB now (chatRequest "" "default")).
  - reflexivity.
  - discriminate.
  - left. reflexivity.
  - vm_compute. reflexivity.
Defined.

Lemma session_failover_witness :
  let out :=
    determineModelID costs config rangeOrder enabledModels ∅ analyze
      offlineSessionDB later (chatRequest "" "") in
  modelID out = "mistral-small"
  /\ failoverInfo out
     = Some {| OriginalModel := "gpt-4o"; NewModel := "mistral-small";
               Reason := "Model 'gpt-4o' was offline." |}
  /\ fieldAt (store out) (sessionKeyOf "chat-1") "model_id"
     = Some "mistral-small"
  /\ fieldAt (store out) (sessionKeyOf "chat-1") "is_forced" = Some "false".
Proof.
  destruct (session_failover costs config rangeOrder enabledModels ∅ analyze
              offlineSessionDB later (chatRequest "" "") "gpt-4o")
    as (_ & Hok).
  - reflexivity.
  - discriminate.
  - vm_compute. reflexivity.
  - vm_compute. reflexivity.
  - reflexivity.
  - destruct Hok as (A & _ & _ & B & C & D & _);
      [vm_compute; reflexivity |].
    cbn zeta.
    assert (Hm : fst (fst (routerChoice costs config rangeOrder enabledModels
                             ∅ analyze
                             (snd (GetProfile costs offlineSessionDB later
                                     "gpt-4o"))
                             later
                             (failoverRequest
                                (String.eqb
                                   (fieldOf
                                      (hashAt offlineSessionDB
                                         (sessionKeyOf "chat-1"))
                                      "is_forced") "true")
                                (chatRequest "" ""))))
                 = "mistral-small")
      by (vm_compute; reflexivity).
    cbn [ConversationID chatRequest] in *. rewrite Hm in A, B, C.
    auto.
Defined.

Lemma forced_chat_start_witness :
  let out :=
    determineModelID costs config rangeOrder enabledModels ∅ analyze
      emptyDB now (chatRequest "gpt-4o" "") in
  (modelID out = "gpt-4o"
   /\ fieldAt (store out) (sessionKeyOf "chat-1") "is_forced" = Some "true"
   /\ forall later next,
        ConversationID next = "chat-1" ->
        modelID
          (determineModelID costs config rangeOrder enabledModels ∅ analyze
             (store out) later next)
        = "gpt-4o")
  /\ response
       (determineModelID costs config rangeOrder enabledModels ∅ analyze
          checkedOfflineDB later (chatRequest "gpt-4o" ""))
     = Some (FailedDependency
               "The requested model 'gpt-4o' is currently offline."
               ["mistral-small"]).
Proof.
  cbn zeta. split.
  - destruct (forced_chat_start costs config rangeOrder enabledModels ∅
                analyze emptyDB now (chatRequest "gpt-4o" ""))
      as (Hon & _).
    + discriminate.
    + discriminate.
    + reflexivity.
    + destruct Hon as (A & _ & _ & _ & _ & B & _ & C);
        [vm_compute; reflexivity |].
      split; [exact A |]. split; [exact B | exact C].
  - destruct (forced_chat_start costs config rangeOrder enabledModels ∅
                analyze checkedOfflineDB later (chatRequest "gpt-4o" ""))
      as (_ & Hoff).
    + discriminate.
    + discriminate.
    + vm_compute. reflexivity.
    + destruct Hoff as (_ & _ & A & _); [vm_compute; reflexivity |].
      rewrite A. vm_compute. reflexivity.
Defined.

Lemma unreachable_store_responses_witness :
  let out :=
    determineModelID costs config rangeOrder enabledModels ∅ analyze
      unreachableDB now (chatRequest "gpt-4o" "") in
  modelID out = "" /\ err out = Some (New "response sent")
  /\ store out = unreachableDB
  /\ response out
     = Some (FailedDependency
               "The requested model 'gpt-4o' is currently offline." []).
Proof.
  apply (unreachable_store_responses costs config rangeOrder enabledModels ∅
           analyze unreachableDB now (chatRequest "gpt-4o" "")).
  reflexivity.
Defined.

Lemma dynamic_session_follows_preference_witness :
  modelID
    (determineModelID costs config rangeOrder enabledModels ∅ analyze
       dynamicSessionDB later (chatRequest "" ""))
  = "gpt-4o"
  /\ modelID
       (determineModelID costs config rangeOrder enabledModels ∅ analyze
          dynamicSessionDB later (chatRequest "" "default"))
     = "mistral-small".
Proof.
  split.
  - destruct (dynamic_session_follows_preference costs config rangeOrder
                enabledModels ∅ analyze dynamicSessionDB later
                (chatRequest "" "") "gpt-4o") as (Hreuse & _).
    + discriminate.
    + vm_compute. reflexivity.
    + vm_compute. discriminate.
    + vm_compute. reflexivity.
    + exact (proj1 (Hreuse eq_refl)).
  - destruct (dynamic_session_follows_preference costs config rangeOrder
                enabledModels ∅ analyze dynamicSessionDB later
                (chatRequest "" "default") "gpt-4o") as (_ & Hroute).
    + discriminate.
    + vm_compute. reflexivity.
    + vm_compute. discriminate.
    + vm_compute. reflexivity.
    + destruct Hroute as (_ & Hok); [discriminate | reflexivity |].
      destruct Hok as (A & _); [vm_compute; reflexivity |].
      rewrite A. vm_compute. reflexivity.
Defined.


Lemma doRequest_ends_at_first_final_attempt_witness :
  Retry.doRequest "openai" flakyNetwork
  = {| Retry.body := "{}"; Retry.error_ := None; Retry.sent := 3;
       Retry.slept := [2 * Retry.Second; 4 * Retry.Second] |}
  /\ Retry.doRequest "openai" limitedNetwork
     = {| Retry.body := "";
          Retry.error_ :=
            Some (Failure
                    "openai API error (attempt 1/3): status 429, body: slow down");
          Retry.sent := 1; Retry.slept := [] |}.
Proof.
  split.
  - rewrite (doRequest_ends_at_first_final_attempt "openai" flakyNetwork 2).
    + vm_compute. reflexivity.
    + lia.
    + intros j Hj. assert (j = 0%nat \/ j = 1%nat) as [-> | ->] by lia;
        reflexivity.
    + reflexivity.
  - rewrite (doRequest_ends_at_first_final_attempt "openai" limitedNetwork 0).
    + vm_compute. reflexivity.
    + lia.
    + intros j Hj. lia.
    + reflexivity.
Defined.

Lemma doRequest_gives_up_after_three_attempts_witness :
  Retry.doRequest "anthropic" busyNetwork
  = {| Retry.body := "";
       Retry.error_ :=
         Some (Failure
                 "anthropic API error (attempt 3/3): status 503, body: busy");
       Retry.sent := 3;
       Retry.slept := [2 * Retry.Second; 4 * Retry.Second; 8 * Retry.Second] |}.
Proof.
  rewrite (doRequest_gives_up_after_three_attempts "anthropic" busyNetwork).
  - vm_compute. reflexivity.
  - intros j Hj. reflexivity.
Defined.

Lemma failed_call_degrades_model_witness :
  let db' := UpdateProfileOnFailure profiledDB "gpt-4o" in
  reachable profiledDB = true
  /\ fieldAt db' (getProfileKey "gpt-4o") "status" = Some "degraded"
  /\ fieldAt db' (getProfileKey "gpt-4o") "total_failures"
     = Some (FormatInt (0 + 1))
  /\ storedOnline profiledDB "gpt-4o" = true
  /\ storedOnline db' "gpt-4o" = false
  /\ storedOnline db' "mistral-small" = storedOnline profiledDB "mistral-small"
  /\ response
       (determineModelID costs config rangeOrder enabledModels ∅ analyze
          db' now (chatRequest "gpt-4o" ""))
     = Some (FailedDependency
               "The requested model 'gpt-4o' is currently offline."
               (List.filter
                  (fun m => negb (String.eqb m "gpt-4o") && storedOnline db' m)
                  enabledModels)).
Proof.
  cbn zeta.
  destruct (failed_call_degrades_model costs config rangeOrder enabledModels
              ∅ analyze profiledDB now "gpt-4o")
    as (S & C & Off & Others & _ & _ & Forced); [reflexivity |].
  split; [reflexivity |]. split; [exact S |].
  split; [apply C; [vm_compute; reflexivity
                   | unfold inInt64; vm_compute; split; discriminate] |].
  split; [vm_compute; reflexivity |]. split; [exact Off |].
  split; [apply Others; discriminate |].
  destruct (Forced (chatRequest "gpt-4o" "")) as (_ & _ & A).
  - discriminate.
  - reflexivity.
  - discriminate.
  - vm_compute. reflexivity.
  - exact A.
Defined.

End MoreExamples.

Section ToolExamples.
Import GoStrings GoNum GoErr Strconv GoTime Redis Profiler Tools ToolLoop
  PromptAnalyzer Cache Providers Demo Scenarios.
Local Open Scope Z_scope.

Lemma tool_loop_transcript_witness :
  calls
    (handleToolLoop float {["gpt-4o" := calculatingModel]} toolManager
       toolOrder usageAdd emptyDB toolRequest)
  = [firstMessages float toolRequest;
     (firstMessages float toolRequest
      ++ [{| Role := "assistant"; Content := ""; ToolCallID := "";
             ToolCalls := [calculatorCall] |};
          {| Role := "tool"; Content := "The result is 84.";
             ToolCallID := "call_1"; ToolCalls := [] |}])%list].
Proof.
  destruct (tool_loop_transcript float {["gpt-4o" := calculatingModel]}
              toolManager toolOrder usageAdd emptyDB toolRequest
              calculatingModel)
    as ((rest & Hc & _ & _) & _).
  - reflexivity.
  - rewrite Hc. f_equal.
    assert (Hr : tail
                   (calls
                      (handleToolLoop float {["gpt-4o" := calculatingModel]}
                         toolManager toolOrder usageAdd emptyDB toolRequest))
                 = [(firstMessages float toolRequest
                     ++ [{| Role := "assistant"; Content := "";
                            ToolCallID := "";
                            ToolCalls := [calculatorCall] |};
                         {| Role := "tool"; Content := "The result is 84.";
                            ToolCallID := "call_1"; ToolCalls := [] |}])%list])
      by (vm_compute; reflexivity).
    rewrite Hc in Hr. exact Hr.
Defined.

Lemma tool_loop_final_answer_witness :
  let out :=
    handleToolLoop float {["gpt-4o" := calculatingModel]} toolManager
      toolOrder usageAdd emptyDB toolRequest in
  content out = "12 times 7 is 84." /\ model out = "gpt-4o"
  /\ store out = emptyDB
  /\ ToolLoop.usage out
     = {| PromptTokens := 20; CompletionTokens := 40; TotalTokens := 60 |}.
Proof.
  cbn zeta.
  destruct (tool_loop_final_answer float {["gpt-4o" := calculatingModel]}
              toolManager toolOrder usageAdd emptyDB toolRequest
              calculatingModel)
    as (lastMessages & result & _ & _ & _ & C & M & S & U).
  - reflexivity.
  - vm_compute. reflexivity.
  - split; [vm_compute; reflexivity |]. split; [exact M |].
    split; [exact S |]. rewrite U. vm_compute. reflexivity.
Defined.

Lemma tool_loop_errors_witness :
  let out :=
    handleToolLoop float {["gpt-4o" := insistingModel]} toolManager
      toolOrder usageAdd emptyDB toolRequest in
  error_ out = Some (New "exceeded maximum number of tool calls")
  /\ content out = "" /\ ToolLoop.usage out = noUsage /\ model out = ""
  /\ List.length (calls out) = 5%nat.
Proof.
  cbn zeta.
  assert (He : error_
                 (handleToolLoop float {["gpt-4o" := insistingModel]}
                    toolManager toolOrder usageAdd emptyDB toolRequest)
               = Some (New "exceeded maximum number of tool calls"))
    by (vm_compute; reflexivity).
  destruct (tool_loop_errors float {["gpt-4o" := insistingModel]} toolManager
              toolOrder usageAdd emptyDB toolRequest _ He)
    as (C & U & M & _).
  split; [exact He |]. split; [exact C |]. split; [exact U |].
  split; [exact M |]. vm_compute. reflexivity.
Defined.

Lemma Analyze_grades_by_complexity_witness :
  Analyze id id (fun _ => false) (fun _ => false) (startsWith "what is ")
    (fun s => Contains s "explain") (fun s => Contains s "compare")
    (fun s => Contains s "design a")
    "what is a mutex? explain it"
  <> "cost"
  /\ Analyze id id (fun _ => false) (fun _ => false) (startsWith "what is ")
       (fun s => Contains s "explain") (fun s => Contains s "compare")
       (fun s => Contains s "design a")
       "design a cache for the gateway"
     = "max_quality".
Proof.
  split.
  - apply (Analyze_grades_by_complexity id id (fun _ => false)
             (fun _ => false) (startsWith "what is ")
             (fun s => Contains s "explain") (fun s => Contains s "compare")
             (fun s => Contains s "design a") "what is a mutex? explain it").
    + vm_compute. reflexivity.
    + repeat split. discriminate.
    + vm_compute. reflexivity.
  - apply (Analyze_grades_by_complexity id id (fun _ => false)
             (fun _ => false) (startsWith "what is ")
             (fun s => Contains s "explain") (fun s => Contains s "compare")
             (fun s => Contains s "design a")
             "design a cache for the gateway").
    + vm_compute. reflexivity.
    + repeat split. discriminate.
    + vm_compute. reflexivity.
Defined.

Lemma response_cache_round_trip_witness :
  CheckCache (SetCache emptyDB "abc" "{}") "abc" = ("{}", true)
  /\ CheckCache (SetCache emptyDB "abc" "{}") "abd" = ("", false)
  /\ SetCache unreachableDB "abc" "{}" = unreachableDB.
Proof.
  destruct (response_cache_round_trip emptyDB "abc" "{}") as (Hon & _).
  destruct (Hon eq_refl) as (A & _ & _ & B & _).
  split; [exact A |]. split.
  - rewrite B; [reflexivity |]. vm_compute. discriminate.
  - exact (proj1 (proj2 (response_cache_round_trip unreachableDB "abc" "{}")
                    eq_refl)).
Defined.

Lemma version_change_changes_every_key_witness :
  Version.GenerateVersionedCacheKey Version.ComponentVersions "llmcache"
    "abc"
  <> Version.GenerateVersionedCacheKey nextVersions "llmcache" "abc".
Proof.
  apply version_change_changes_every_key.
  - split; reflexivity.
  - split; reflexivity.
  - discriminate.
Defined.

Lemma toAnthropicMessages_shape_witness :
  fst (toAnthropicMessages conversation) = "Be brief."
  /\ map AnthropicRole (snd (toAnthropicMessages conversation))
     = ["user"; "assistant"; "user"].
Proof.
  destruct (toAnthropicMessages_shape conversation) as (A & B & _).
  rewrite A, B. split; reflexivity.
Defined.

End ToolExamples.
